(** * Workspace isolation and role-based access control of viz-dashboard

  A shallow embedding of the permission layer of the backend
  ([app/core/permissions.py], [app/core/connection_permissions.py],
  [app/core/data_isolation.py], [app/core/invitations.py],
  [app/core/workspace_middleware.py], [app/api/routes/workspaces.py])
  and the properties its specification states about it.

  Conventions.  Python integers are [Z]; Python [str] is [string];
  [Optional[T]] is [option T]; a table of the relational store is the
  list of its rows in storage order, a query [.filter(p).first()] is
  [find p]; a route handler is a computation over the session that
  either returns a value or raises an [HTTPException]. *)

From Stdlib Require Import ZArith List String Ascii Bool Lia.
From Stdlib Require Import DecimalString DecimalNat.
Import ListNotations.
Local Open Scope string_scope.
Local Open Scope Z_scope.

(** ** The relational model ([app/models/sqlite_models.py]) *)

Module Models.

Record User := mkUser {
  user_id : Z;
  user_username : string;
  user_email : string;
  user_current_workspace_id : option Z
}.

Record Workspace := mkWorkspace {
  ws_id : Z;
  ws_name : string;
  ws_slug : string;
  ws_created_by : Z
}.

Record WorkspaceMember := mkWorkspaceMember {
  wm_workspace_id : Z;
  wm_user_id : Z;
  wm_role : string;
  wm_invited_by : option Z;
  wm_joined_at : Z
}.

Record Connection := mkConnection {
  conn_id : Z;
  conn_name : string;
  conn_workspace_id : Z;
  conn_created_by : Z
}.

Record ConnectionPermission := mkConnectionPermission {
  cp_connection_id : Z;
  cp_user_id : Z;
  cp_permission_level : string;
  cp_granted_by : Z
}.

(** The state a [Session] reads and writes. *)
Record Session := mkSession {
  users : list User;
  workspaces : list Workspace;
  workspace_members : list WorkspaceMember;
  connections : list Connection;
  connection_permissions : list ConnectionPermission
}.

(** [UniqueConstraint('workspace_id', 'user_id', name='uq_workspace_user')] *)
Definition same_workspace_user (m1 m2 : WorkspaceMember) : bool :=
  (wm_workspace_id m1 =? wm_workspace_id m2) && (wm_user_id m1 =? wm_user_id m2).

Fixpoint uq_workspace_user (ms : list WorkspaceMember) : bool :=
  match ms with
  | [] => true
  | m :: rest => negb (existsb (same_workspace_user m) rest) && uq_workspace_user rest
  end.

(** [UniqueConstraint('connection_id', 'user_id', name='unique_connection_user')] *)
Definition same_connection_user (p1 p2 : ConnectionPermission) : bool :=
  (cp_connection_id p1 =? cp_connection_id p2) && (cp_user_id p1 =? cp_user_id p2).

Fixpoint unique_connection_user (ps : list ConnectionPermission) : bool :=
  match ps with
  | [] => true
  | p :: rest => negb (existsb (same_connection_user p) rest) && unique_connection_user rest
  end.

End Models.
Export Models.

(** ** Python dictionaries used as lookup tables *)

(** [d.get(k, default)] on a dictionary with string keys. *)
Fixpoint dict_get {A : Type} (d : list (string * A)) (k : string) (default : A) : A :=
  match d with
  | [] => default
  | (k', v) :: rest => if String.eqb k' k then v else dict_get rest k default
  end.

(** [x in l] for a list of strings. *)
Definition str_in (x : string) (l : list string) : bool :=
  existsb (String.eqb x) l.

(** ** [app/core/permissions.py] *)

Module Permissions.

Definition ROLE_HIERARCHY : list (string * Z) :=
  [("admin", 3); ("editor", 2); ("viewer", 1)].

(** [ROLE_HIERARCHY.get(role, 0)] *)
Definition role_level (role : string) : Z := dict_get ROLE_HIERARCHY role 0.

Definition get_user_role (db : Session) (user_id workspace_id : Z) : option string :=
  match find (fun m => (wm_user_id m =? user_id) && (wm_workspace_id m =? workspace_id))
             (workspace_members db) with
  | None => None
  | Some member => Some (wm_role member)
  end.

Definition check_permission (db : Session) (user_id workspace_id : Z)
           (required_role : string) : bool :=
  match get_user_role db user_id workspace_id with
  | None => false
  | Some user_role =>
      let user_role_level := dict_get ROLE_HIERARCHY user_role 0 in
      let required_role_level := dict_get ROLE_HIERARCHY required_role 0 in
      user_role_level >=? required_role_level
  end.

Definition is_workspace_admin (db : Session) (user_id workspace_id : Z) : bool :=
  check_permission db user_id workspace_id "admin".

Definition is_workspace_editor_or_above (db : Session) (user_id workspace_id : Z) : bool :=
  check_permission db user_id workspace_id "editor".

(** [actor_role] is [None] when the actor has no membership;
    [ROLE_HIERARCHY.get(None, 0)] is then [0]. *)
Definition can_modify_member_role (db : Session)
           (actor_user_id target_user_id workspace_id : Z) (new_role : string) : bool :=
  if actor_user_id =? target_user_id then false
  else if negb (is_workspace_admin db actor_user_id workspace_id) then false
  else
    let actor_role := get_user_role db actor_user_id workspace_id in
    let actor_role_level :=
      match actor_role with
      | Some r => dict_get ROLE_HIERARCHY r 0
      | None => 0
      end in
    let new_role_level := dict_get ROLE_HIERARCHY new_role 0 in
    if new_role_level >? actor_role_level then false
    else true.

End Permissions.
Export Permissions.

(** ** [app/core/connection_permissions.py] *)

Module ConnectionPermissions.

Definition get_connection (db : Session) (connection_id : Z) : option Connection :=
  find (fun c => conn_id c =? connection_id) (connections db).

Definition get_user_connection_permission (db : Session) (user_id connection_id : Z)
  : option string :=
  match find (fun p => (cp_connection_id p =? connection_id) && (cp_user_id p =? user_id))
             (connection_permissions db) with
  | Some permission => Some (cp_permission_level permission)
  | None => None
  end.

(** The local dictionary of [check_connection_access]. *)
Definition permission_hierarchy : list (string * Z) :=
  [("owner", 3); ("editor", 2); ("viewer", 1)].

Definition permission_level (p : string) : Z := dict_get permission_hierarchy p 0.

(** [workspace_role == 'admin'] on an [Optional[str]]. *)
Definition role_is (workspace_role : option string) (r : string) : bool :=
  match workspace_role with
  | Some s => String.eqb s r
  | None => false
  end.

Definition check_connection_access (db : Session) (user_id connection_id : Z)
           (required_permission : string) : bool :=
  match get_connection db connection_id with
  | None => false
  | Some connection =>
      if conn_created_by connection =? user_id then true
      else
        let workspace_role := get_user_role db user_id (conn_workspace_id connection) in
        if role_is workspace_role "admin" then true
        else
          match get_user_connection_permission db user_id connection_id with
          | None => false
          | Some conn_permission =>
              if String.eqb conn_permission "" then false  (* [not conn_permission] *)
              else
                let required_level := dict_get permission_hierarchy required_permission 0 in
                let user_level := dict_get permission_hierarchy conn_permission 0 in
                user_level >=? required_level
          end
  end.

Definition can_manage_connection_permissions (db : Session) (user_id connection_id : Z)
  : bool :=
  match get_connection db connection_id with
  | None => false
  | Some connection =>
      if conn_created_by connection =? user_id then true
      else
        let workspace_role := get_user_role db user_id (conn_workspace_id connection) in
        if role_is workspace_role "admin" then true
        else
          let conn_permission := get_user_connection_permission db user_id connection_id in
          if role_is conn_permission "owner" then true
          else false
  end.

End ConnectionPermissions.
Export ConnectionPermissions.

(** ** [app/core/data_isolation.py] *)

Module DataIsolation.

Definition WORKSPACE_SCOPED_MODELS : list string :=
  ["Dashboard"; "Chart"; "Connection"; "Log"; "CSVData"].

(** What the ORM knows about the [workspace_id] attribute of a mapped
    instance when a flush event fires: the attribute history (the
    [added], [unchanged] and [deleted] tuples) and the instance state's
    [committed_state] dictionary, whose entry is either a column value
    (an id or [None]) or the marker [NO_VALUE] of a value that was never
    loaded. *)
Inductive committed_entry :=
| NO_VALUE
| Value (v : option Z).

Record History := mkHistory {
  added : list (option Z);
  unchanged : list (option Z);
  deleted : list (option Z)
}.

(** [History.has_changes()]: [bool(self.added or self.deleted)]. *)
Definition has_changes (h : History) : bool :=
  match added h, deleted h with
  | [], [] => false
  | _, _ => true
  end.

(** [target]: the instance being flushed.  [workspace_id] is [None] when
    the object has no such attribute, [Some None] when the attribute is
    Python's [None], [Some (Some w)] when it holds the id [w]. *)
Record Target := mkTarget {
  class_name : string;
  workspace_id : option (option Z);
  history : History;
  committed_state : list (string * committed_entry)
}.

Inductive Violation :=
| InsertWithoutWorkspace (model_name : string)
| WorkspaceChanged (model_name : string) (old_id : Z) (new_id : option Z).

Inductive listener_result :=
| Proceed
| WorkspaceIsolationError (v : Violation)
| AttributeError.

Definition validate_workspace_id_on_insert (target : Target) : listener_result :=
  let model_name := class_name target in
  if str_in model_name WORKSPACE_SCOPED_MODELS then
    match workspace_id target with
    | None | Some None => WorkspaceIsolationError (InsertWithoutWorkspace model_name)
    | Some (Some _) => Proceed
    end
  else Proceed.

(** [committed_state.get('workspace_id')] *)
Fixpoint committed_get (cs : list (string * committed_entry)) (k : string)
  : option committed_entry :=
  match cs with
  | [] => None
  | (k', v) :: rest => if String.eqb k' k then Some v else committed_get rest k
  end.

(** The old value the listener works with: [history.deleted[0]] when
    [deleted] is not empty, else [None]; when that is [None] and
    [committed_state] is a non-empty dictionary, its [workspace_id]
    entry unless that is [NO_VALUE] (a missing key reads as [None]). *)
Definition old_id_of (target : Target) : option Z :=
  let old_id :=
    match deleted (history target) with
    | d :: _ => d
    | [] => None
    end in
  match old_id, committed_state target with
  | None, _ :: _ =>
      match committed_get (committed_state target) "workspace_id" with
      | Some NO_VALUE => old_id
      | Some (Value committed_value) => committed_value
      | None => None
      end
  | _, _ => old_id
  end.

Definition opt_Z_eqb (a b : option Z) : bool :=
  match a, b with
  | Some x, Some y => x =? y
  | None, None => true
  | _, _ => false
  end.

Definition validate_workspace_id_on_update (target : Target) : listener_result :=
  let model_name := class_name target in
  if str_in model_name WORKSPACE_SCOPED_MODELS then
    match workspace_id target with
    | None => AttributeError  (* [insp.attrs.workspace_id] *)
    | Some new_id =>
        if has_changes (history target) then
          match old_id_of target with
          | Some old_id =>
              if negb (opt_Z_eqb (Some old_id) new_id)
              then WorkspaceIsolationError (WorkspaceChanged model_name old_id new_id)
              else Proceed
          | None => Proceed
          end
        else Proceed
    end
  else Proceed.

(** The unit of work around the listeners.  A row of a scoped table
    keeps its committed [workspace_id]; [flush_insert] persists a new
    instance when [before_insert] lets it through, [flush_update]
    writes the new attribute value over the committed one when
    [before_update] lets it through.  [loaded] is the instance as the
    ORM presents it when the column was loaded before it was assigned:
    the committed value is what the history reports as deleted. *)
Definition loaded (model_name : string) (committed new_id : option Z) : Target :=
  if opt_Z_eqb committed new_id
  then mkTarget model_name (Some new_id) (mkHistory [] [new_id] []) []
  else mkTarget model_name (Some new_id) (mkHistory [new_id] [] [committed])
                [("workspace_id", Value committed)].

Definition flush_insert (target : Target) : option (option Z) :=
  match validate_workspace_id_on_insert target, workspace_id target with
  | Proceed, Some w => Some w
  | _, _ => None
  end.

Definition flush_update (model_name : string) (committed new_id : option Z) : option Z :=
  match validate_workspace_id_on_update (loaded model_name committed new_id) with
  | Proceed => new_id
  | _ => committed
  end.

(** A row's committed tenant id after a sequence of attempted updates. *)
Definition flush_updates (model_name : string) (committed : option Z)
           (news : list (option Z)) : option Z :=
  fold_left (flush_update model_name) news committed.

End DataIsolation.
Export DataIsolation.

(** ** Handlers: computations over the session that may raise *)

Module Http.

Record HTTPException := mkHTTPException {
  status_code : Z;
  detail : string
}.

Definition HTTP_400_BAD_REQUEST : Z := 400.
Definition HTTP_401_UNAUTHORIZED : Z := 401.
Definition HTTP_403_FORBIDDEN : Z := 403.
Definition HTTP_404_NOT_FOUND : Z := 404.
Definition HTTP_500_INTERNAL_SERVER_ERROR : Z := 500.

Inductive outcome (A : Type) :=
| Returned (a : A)
| Raised (e : HTTPException).
Arguments Returned {A} a.
Arguments Raised {A} e.

(** A handler reads the session, may commit a change to it, and ends
    by returning or by raising; what it raises leaves the session as
    the last commit left it. *)
Definition Handler (A : Type) : Type := Session -> outcome A * Session.

Definition ret {A : Type} (a : A) : Handler A := fun db => (Returned a, db).

Definition raise {A : Type} (status : Z) (msg : string) : Handler A :=
  fun db => (Raised (mkHTTPException status msg), db).

Definition bind {A B : Type} (m : Handler A) (k : A -> Handler B) : Handler B :=
  fun db =>
    match m db with
    | (Returned a, db') => k a db'
    | (Raised e, db') => (Raised e, db')
    end.

(** [db.query(...)]: read without changing the session. *)
Definition query {A : Type} (q : Session -> A) : Handler A :=
  fun db => (Returned (q db), db).

(** A pending change followed by [db.commit()]. *)
Definition commit (change : Session -> Session) : Handler unit :=
  fun db => (Returned tt, change db).

(** [if cond: raise HTTPException(...)] *)
Definition raise_if (cond : bool) (status : Z) (msg : string) : Handler unit :=
  if cond then raise status msg else ret tt.

End Http.
Export Http.

Notation "x <- m ;; k" := (bind m (fun x => k))
  (at level 61, m at next level, right associativity).
Notation "m ;;; k" := (bind m (fun _ => k))
  (at level 61, right associativity).

(** ** [app/core/invitations.py] *)

Module Invitations.

Definition INVITATION_TOKEN_EXPIRE_DAYS : Z := 7.

(** [timedelta(days=d)] in seconds: the claims [iat] and [exp] travel
    as whole seconds since the epoch. *)
Definition days (d : Z) : Z := d * 86400.

(** The claim set of a token.  A field is [None] when the decoded
    dictionary has no such key. *)
Record Payload := mkPayload {
  p_type : option string;
  p_workspace_id : option Z;
  p_email : option string;
  p_role : option string;
  p_invited_by : option Z;
  p_iat : Z;
  p_exp : Z
}.

(** What [jwt.decode] does: the claims, or one of its two errors
    ([ExpiredSignatureError] is an [InvalidTokenError] caught first). *)
Inductive jwt_result :=
| Decoded (payload : Payload)
| ExpiredSignatureError
| InvalidTokenError.

Inductive InvitationException :=
| InvitationError (msg : string)
| InvitationTokenExpired
| InvitationTokenInvalid.

(** What [accept_invitation] returns to the caller. *)
Record Acceptance := mkAcceptance {
  acc_workspace_id : Z;
  acc_workspace_name : string;
  acc_workspace_slug : string;
  acc_role : string;
  acc_joined_at : Z
}.

Definition check_existing_membership (db : Session) (user_id workspace_id : Z) : bool :=
  match find (fun m => (wm_user_id m =? user_id) && (wm_workspace_id m =? workspace_id))
             (workspace_members db) with
  | Some _ => true
  | None => false
  end.

(** [db.add(member); db.commit()] *)
Definition add_member (member : WorkspaceMember) (db : Session) : Session :=
  mkSession (users db) (workspaces db) (workspace_members db ++ [member])
            (connections db) (connection_permissions db).

Section Protocol.

(** The collaborators the module calls: [str.lower], and PyJWT's
    [jwt.encode] and [jwt.decode] with algorithm HS256, the latter
    reading the clock. *)
Variable lower : string -> string.
Variable Token : Type.
Variable jwt_encode : Payload -> string -> Token.
Variable jwt_decode : Token -> string -> Z -> jwt_result.

(** [INVITATION_SECRET_KEY] is the module-level key ([None] until
    [set_secret_key] runs); [now] is [datetime.utcnow()]. *)
Definition create_invitation_token (INVITATION_SECRET_KEY : option string) (now : Z)
           (workspace_id : Z) (email role : string) (invited_by : Z)
  : Token + InvitationException :=
  match INVITATION_SECRET_KEY with
  | None => inr (InvitationError "Invitation secret key not configured")
  | Some key =>
      let valid_roles := ["admin"; "editor"; "viewer"] in
      if negb (str_in role valid_roles)
      then inr (InvitationError "Invalid role")
      else
        let expiration := now + days INVITATION_TOKEN_EXPIRE_DAYS in
        let payload :=
          mkPayload (Some "workspace_invitation") (Some workspace_id)
                    (Some (lower email)) (Some role) (Some invited_by)
                    now expiration in
        inl (jwt_encode payload key)
  end.

Definition decode_invitation_token (INVITATION_SECRET_KEY : option string) (now : Z)
           (token : Token) : Payload + InvitationException :=
  match INVITATION_SECRET_KEY with
  | None => inr (InvitationError "Invitation secret key not configured")
  | Some key =>
      match jwt_decode token key now with
      | ExpiredSignatureError => inr InvitationTokenExpired
      | InvalidTokenError => inr InvitationTokenInvalid
      | Decoded payload =>
          match p_type payload with
          | Some "workspace_invitation" =>
              match p_workspace_id payload, p_email payload,
                    p_role payload, p_invited_by payload with
              | Some _, Some _, Some _, Some _ => inl payload
              | _, _, _, _ => inr InvitationTokenInvalid
              end
          | _ => inr InvitationTokenInvalid
          end
      end
  end.

(** The fields of a payload that [decode_invitation_token] let through. *)
Record Invitation := mkInvitation {
  inv_workspace_id : Z;
  inv_email : string;
  inv_role : string;
  inv_invited_by : Z
}.

Definition validate_invitation_token (INVITATION_SECRET_KEY : option string) (now : Z)
           (token : Token) (email : string) : Handler Invitation :=
  match decode_invitation_token INVITATION_SECRET_KEY now token with
  | inl payload =>
      match p_workspace_id payload, p_email payload,
            p_role payload, p_invited_by payload with
      | Some w, Some e, Some r, Some i =>
          if negb (String.eqb (lower e) (lower email))
          then raise HTTP_400_BAD_REQUEST "This invitation is for a different email address"
          else ret (mkInvitation w e r i)
      | _, _, _, _ =>
          (* not reached: [decode_invitation_token] lets no payload through
             that lacks one of the four fields *)
          raise HTTP_500_INTERNAL_SERVER_ERROR "KeyError"
      end
  | inr InvitationTokenExpired => raise HTTP_400_BAD_REQUEST "Invitation link has expired"
  | inr InvitationTokenInvalid => raise HTTP_400_BAD_REQUEST "Invalid invitation link"
  | inr (InvitationError _) => raise HTTP_500_INTERNAL_SERVER_ERROR "Internal server error"
  end.

Definition accept_invitation (INVITATION_SECRET_KEY : option string) (now : Z)
           (token : Token) (user_id : Z) (email : string) : Handler Acceptance :=
  payload <- validate_invitation_token INVITATION_SECRET_KEY now token email ;;
  let workspace_id := inv_workspace_id payload in
  let role := inv_role payload in
  let invited_by := inv_invited_by payload in
  existing <- query (fun db => check_existing_membership db user_id workspace_id) ;;
  raise_if existing HTTP_400_BAD_REQUEST "You are already a member of this workspace" ;;;
  workspace <- query (fun db => find (fun w => ws_id w =? workspace_id) (workspaces db)) ;;
  match workspace with
  | None => raise HTTP_404_NOT_FOUND "Workspace not found"
  | Some workspace =>
      let member := mkWorkspaceMember workspace_id user_id role (Some invited_by) now in
      commit (add_member member) ;;;
      ret (mkAcceptance workspace_id (ws_name workspace) (ws_slug workspace)
                        role (wm_joined_at member))
  end.

End Protocol.

Arguments create_invitation_token lower {Token} jwt_encode.
Arguments decode_invitation_token {Token} jwt_decode.
Arguments validate_invitation_token lower {Token} jwt_decode.
Arguments accept_invitation lower {Token} jwt_decode.

End Invitations.
Export Invitations.

(** ** [app/core/workspace_middleware.py] *)

Module WorkspaceMiddleware.

(** The parts of a request the resolvers read: the [X-Workspace-ID]
    header, the [workspace_id] path and query parameters (text, [None]
    when missing), the request path, and what earlier middleware left
    in [request.state]. *)
Record Request := mkRequest {
  url_path : string;
  header_X_Workspace_ID : option string;
  path_workspace_id : option string;
  query_workspace_id : option string;
  state_user : option User;
  state_workspace_id : option Z
}.

Definition EXCLUDED_PATHS : list string :=
  ["/api/auth/login"; "/api/auth/register"; "/api/auth/logout"; "/api/auth/refresh";
   "/api/health"; "/docs"; "/openapi.json"; "/redoc"].

Definition EXCLUDED_PATH_PREFIXES : list string :=
  ["/api/dashboards/public/"].

Definition _should_skip_validation (request : Request) : bool :=
  let path := url_path request in
  if str_in path EXCLUDED_PATHS then true
  else if String.prefix "/static/" path || String.prefix "/_" path then true
  else existsb (fun prefix => String.prefix prefix path) EXCLUDED_PATH_PREFIXES.

(** What the middleware hands on: the request passes untouched, is
    answered at once, or continues scoped to a workspace.  The handler
    of unexpected exceptions (a 500 answer) has no case here: nothing in
    the modelled steps raises. *)
Inductive dispatch_result :=
| CallNextUnscoped
| JSONResponse (status_code : Z) (detail : string)
| CallNextScoped (workspace_id : Z).

Definition _validate_workspace_access (db : Session) (user_id workspace_id : Z) : bool :=
  match find (fun m => (wm_user_id m =? user_id) && (wm_workspace_id m =? workspace_id))
             (workspace_members db) with
  | Some _ => true
  | None => false
  end.

Section Resolver.

(** Python's [int(s)]: [None] stands for [ValueError]. *)
Variable int : string -> option Z.

(** One of the three tries of [_extract_workspace_id]: a present,
    non-empty text that [int] accepts. *)
Definition try_int (workspace_id : option string) : option Z :=
  match workspace_id with
  | None => None
  | Some "" => None
  | Some s => int s
  end.

Definition _extract_workspace_id (request : Request) : option Z :=
  match try_int (header_X_Workspace_ID request) with
  | Some w => Some w
  | None =>
      match try_int (path_workspace_id request) with
      | Some w => Some w
      | None =>
          match try_int (query_workspace_id request) with
          | Some w => Some w
          | None => None
          end
      end
  end.

Definition dispatch (db : Session) (request : Request) : dispatch_result :=
  if _should_skip_validation request then CallNextUnscoped
  else
    match state_user request with
    | None => JSONResponse HTTP_401_UNAUTHORIZED "Not authenticated"
    | Some user =>
        let workspace_id :=
          match _extract_workspace_id request with
          | Some w => Some w
          | None => user_current_workspace_id user
          end in
        match workspace_id with
        | None => JSONResponse HTTP_400_BAD_REQUEST "No workspace context available"
        | Some workspace_id =>
            if negb (_validate_workspace_access db (user_id user) workspace_id)
            then JSONResponse HTTP_404_NOT_FOUND "Resource not found"
            else CallNextScoped workspace_id
        end
    end.

(** [WorkspaceContextInjector.get_workspace_id] *)
Definition get_workspace_id (request : Request) (current_user : option User)
  : outcome Z :=
  let from_state := state_workspace_id request in
  let from_header : outcome (option Z) :=
    match from_state with
    | Some w => Returned (Some w)
    | None =>
        match header_X_Workspace_ID request with
        | None | Some "" => Returned None
        | Some workspace_header =>
            match int workspace_header with
            | Some w => Returned (Some w)
            | None => Raised (mkHTTPException HTTP_400_BAD_REQUEST
                                              "Invalid workspace ID in header")
            end
        end
    end in
  match from_header with
  | Raised e => Raised e
  | Returned workspace_id =>
      let workspace_id :=
        match workspace_id, current_user with
        | None, Some user => user_current_workspace_id user
        | _, _ => workspace_id
        end in
      match workspace_id with
      | None => Raised (mkHTTPException HTTP_400_BAD_REQUEST
                  "No workspace context available. Please select a workspace.")
      | Some w => Returned w
      end
  end.

End Resolver.

End WorkspaceMiddleware.
Export WorkspaceMiddleware.

(** ** Dependencies and routes that answer an access check *)

Module Routes.

(** [PermissionChecker.__call__] of [app/core/permissions.py] *)
Definition PermissionChecker (required_role : string) (request : Request) : Handler unit :=
  match state_user request, state_workspace_id request with
  | Some user, Some workspace_id =>
      has_permission <- query (fun db =>
        check_permission db (user_id user) workspace_id required_role) ;;
      raise_if (negb has_permission) HTTP_404_NOT_FOUND "Resource not found"
  | _, _ => raise HTTP_401_UNAUTHORIZED "Not authenticated"
  end.

(** [ConnectionPermissionChecker.__call__] of
    [app/core/connection_permissions.py] *)
Definition ConnectionPermissionChecker (required_permission : string)
           (connection_id : Z) (current_user : User) : Handler unit :=
  has_access <- query (fun db =>
    check_connection_access db (user_id current_user) connection_id required_permission) ;;
  raise_if (negb has_access) HTTP_403_FORBIDDEN
           ("Insufficient permissions. Required: " ++ required_permission).

(** [db.delete(member); db.commit()] for the first row of the pair. *)
Fixpoint delete_first (workspace_id user_id : Z) (ms : list WorkspaceMember)
  : list WorkspaceMember :=
  match ms with
  | [] => []
  | m :: rest =>
      if (wm_workspace_id m =? workspace_id) && (wm_user_id m =? user_id)
      then rest
      else m :: delete_first workspace_id user_id rest
  end.

Definition delete_member (workspace_id user_id : Z) (db : Session) : Session :=
  mkSession (users db) (workspaces db)
            (delete_first workspace_id user_id (workspace_members db))
            (connections db) (connection_permissions db).

(** [member.role = new_role] *)
Definition with_role (member : WorkspaceMember) (new_role : string) : WorkspaceMember :=
  mkWorkspaceMember (wm_workspace_id member) (wm_user_id member) new_role
                    (wm_invited_by member) (wm_joined_at member).

(** [member.role = new_role; db.commit()] for the first row of the pair. *)
Fixpoint set_role_first (workspace_id user_id : Z) (new_role : string)
         (ms : list WorkspaceMember) : list WorkspaceMember :=
  match ms with
  | [] => []
  | m :: rest =>
      if (wm_workspace_id m =? workspace_id) && (wm_user_id m =? user_id)
      then with_role m new_role :: rest
      else m :: set_role_first workspace_id user_id new_role rest
  end.

Definition set_member_role (workspace_id user_id : Z) (new_role : string) (db : Session)
  : Session :=
  mkSession (users db) (workspaces db)
            (set_role_first workspace_id user_id new_role (workspace_members db))
            (connections db) (connection_permissions db).

Definition find_member (workspace_id user_id : Z) (db : Session) : option WorkspaceMember :=
  find (fun m => (wm_workspace_id m =? workspace_id) && (wm_user_id m =? user_id))
       (workspace_members db).

Definition find_workspace (workspace_id : Z) (db : Session) : option Workspace :=
  find (fun w => ws_id w =? workspace_id) (workspaces db).

(** [DELETE /workspaces/{workspace_id}/members/{user_id}] *)
Definition remove_member (workspace_id user_id : Z) (current_user : User) : Handler unit :=
  is_admin <- query (fun db =>
    is_workspace_admin db (Models.user_id current_user) workspace_id) ;;
  raise_if (negb is_admin) HTTP_404_NOT_FOUND "Workspace not found" ;;;
  raise_if (user_id =? Models.user_id current_user)
           HTTP_400_BAD_REQUEST "Cannot remove yourself from workspace" ;;;
  workspace <- query (find_workspace workspace_id) ;;
  raise_if (match workspace with
            | Some workspace => ws_created_by workspace =? user_id
            | None => false
            end)
           HTTP_400_BAD_REQUEST "Cannot remove workspace creator" ;;;
  member <- query (find_member workspace_id user_id) ;;
  match member with
  | None => raise HTTP_404_NOT_FOUND "Member not found"
  | Some _ => commit (delete_member workspace_id user_id)
  end.

(** [PATCH /workspaces/{workspace_id}/members/{user_id}/role];
    [role] is [role_data.get('role')]. *)
Definition update_member_role (workspace_id user_id : Z) (role : option string)
           (current_user : User) : Handler WorkspaceMember :=
  match role with
  | None | Some "" =>
      raise HTTP_400_BAD_REQUEST "Invalid role. Must be admin, editor, or viewer"
  | Some new_role =>
      if negb (str_in new_role ["admin"; "editor"; "viewer"])
      then raise HTTP_400_BAD_REQUEST "Invalid role. Must be admin, editor, or viewer"
      else
        allowed <- query (fun db =>
          can_modify_member_role db (Models.user_id current_user) user_id
                                 workspace_id new_role) ;;
        raise_if (negb allowed) HTTP_403_FORBIDDEN "Cannot modify this member's role" ;;;
        member <- query (find_member workspace_id user_id) ;;
        match member with
        | None => raise HTTP_404_NOT_FOUND "Member not found"
        | Some member =>
            commit (set_member_role workspace_id user_id new_role) ;;;
            ret (with_role member new_role)
        end
  end.

(** [GET /workspaces/{workspace_id}]: a denial and a missing workspace
    are answered alike. *)
Definition get_workspace (workspace_id : Z) (current_user : User) : Handler Workspace :=
  allowed <- query (fun db =>
    check_permission db (Models.user_id current_user) workspace_id "viewer") ;;
  raise_if (negb allowed) HTTP_404_NOT_FOUND "Workspace not found" ;;;
  workspace <- query (find_workspace workspace_id) ;;
  match workspace with
  | None => raise HTTP_404_NOT_FOUND "Workspace not found"
  | Some workspace => ret workspace
  end.

End Routes.
Export Routes.

(** ** Vocabulary of the specification *)

(** The level a user holds in a workspace: [0] without a membership. *)
Definition held_level (db : Session) (user_id workspace_id : Z) : Z :=
  match get_user_role db user_id workspace_id with
  | Some r => role_level r
  | None => 0
  end.

(** A membership row of the pair exists. *)
Definition membership (db : Session) (w u : Z) (m : WorkspaceMember) : Prop :=
  In m (workspace_members db) /\ wm_workspace_id m = w /\ wm_user_id m = u.

(** An explicit grant row of the pair exists. *)
Definition grant (db : Session) (c u : Z) (p : ConnectionPermission) : Prop :=
  In p (connection_permissions db) /\ cp_connection_id p = c /\ cp_user_id p = u.

(** ** A sample tenant

    Workspace 1 was created by user 1, its admin; user 2 is an editor and
    created connection 10; user 3 is a viewer with a viewer grant on
    connection 10; user 4 is not a member. *)

Definition sample_db : Session :=
  mkSession
    [mkUser 1 "alice" "alice@test.com" (Some 1);
     mkUser 2 "bob" "bob@test.com" (Some 1);
     mkUser 3 "carol" "carol@test.com" (Some 1);
     mkUser 4 "dave" "dave@test.com" None]
    [mkWorkspace 1 "Acme" "acme" 1]
    [mkWorkspaceMember 1 1 "admin" (Some 1) 0;
     mkWorkspaceMember 1 2 "editor" (Some 1) 10;
     mkWorkspaceMember 1 3 "viewer" (Some 1) 20]
    [mkConnection 10 "warehouse" 1 2]
    [mkConnectionPermission 10 3 "viewer" 1].

Definition alice : User := mkUser 1 "alice" "alice@test.com" (Some 1).
Definition bob : User := mkUser 2 "bob" "bob@test.com" (Some 1).
Definition carol : User := mkUser 3 "carol" "carol@test.com" (Some 1).
Definition dave : User := mkUser 4 "dave" "dave@test.com" None.

(** A log row whose workspace was deleted ([ondelete="SET NULL"] left
    its committed [workspace_id] null) and is now assigned to workspace
    7: the history reports the null as the deleted value. *)
Definition log_row_reassigned : Target :=
  mkTarget "Log" (Some (Some 7)) (mkHistory [Some 7] [] [None])
           [("workspace_id", Value None)].

(** A dashboard whose [workspace_id] was assigned while the column was
    not loaded: nothing is reported as deleted and the committed state
    holds [NO_VALUE]. *)
Definition dashboard_assigned_unloaded : Target :=
  mkTarget "Dashboard" (Some (Some 7)) (mkHistory [Some 7] [] [])
           [("workspace_id", NO_VALUE)].

(** A chart of workspace 3 moved to workspace 7, and a chart created
    without a workspace. *)
Definition chart_moved : Target := loaded "Chart" (Some 3) (Some 7).
Definition chart_orphan : Target := mkTarget "Chart" (Some None) (mkHistory [] [] []) [].

(** ** Instances of the collaborators, for the examples *)

(** [int] on plain decimal numerals; any other text is refused. *)
Definition digit (c : ascii) : option Z :=
  let n := Z.of_nat (nat_of_ascii c) in
  if (48 <=? n) && (n <=? 57) then Some (n - 48) else None.

Fixpoint digits (s : string) (acc : Z) : option Z :=
  match s with
  | EmptyString => Some acc
  | String c rest =>
      match digit c with
      | Some d => digits rest (10 * acc + d)
      | None => None
      end
  end.

Definition decimal (s : string) : option Z :=
  match s with
  | EmptyString => None
  | _ => digits s 0
  end.

(** [str.lower] on ASCII text. *)
Definition lower_ascii (c : ascii) : ascii :=
  let n := nat_of_ascii c in
  if (Nat.leb 65 n && Nat.leb n 90)%bool then ascii_of_nat (n + 32) else c.

Fixpoint ascii_lower (s : string) : string :=
  match s with
  | EmptyString => EmptyString
  | String c rest => String (lower_ascii c) (ascii_lower rest)
  end.

(** A signing scheme that keeps the claims next to the key they were
    signed with; decoding refuses another key and, like PyJWT, a token
    whose [exp] is not after the clock or whose [iat] is ahead of it. *)
Definition signed : Type := (Payload * string)%type.

Definition sign (payload : Payload) (key : string) : signed := (payload, key).

Definition verify (token : signed) (key : string) (now : Z) : jwt_result :=
  let (payload, signed_with) := token in
  if negb (String.eqb signed_with key) then InvalidTokenError
  else if p_exp payload <=? now then ExpiredSignatureError
  else if now <? p_iat payload then InvalidTokenError
  else Decoded payload.

(** A request that names workspace 5 in its path only, and one whose
    header is not a number. *)
Definition request_path_only : Request :=
  mkRequest "/api/workspaces/5/members" None (Some "5") None None None.

Definition request_bad_header : Request :=
  mkRequest "/api/dashboards" (Some "abc") None None None None.

(** ** [app/core/connection_permissions.py]: granting and revoking *)

Module ConnectionGrants.

(** [CheckConstraint("permission_level IN ('owner', 'editor', 'viewer')")] *)
Definition valid_permission_level (level : string) : bool :=
  str_in level ["owner"; "editor"; "viewer"].

Definition valid_permission_levels (ps : list ConnectionPermission) : bool :=
  forallb (fun p => valid_permission_level (cp_permission_level p)) ps.

(** [CheckConstraint("role IN ('admin', 'editor', 'viewer')")] *)
Definition valid_roles (ms : list WorkspaceMember) : bool :=
  forallb (fun m => str_in (wm_role m) ["admin"; "editor"; "viewer"]) ms.

(** The primary key of [connections]. *)
Fixpoint unique_connection_id (cs : list Connection) : bool :=
  match cs with
  | [] => true
  | c :: rest =>
      negb (existsb (fun c' => conn_id c =? conn_id c') rest) && unique_connection_id rest
  end.

(** How [grant_connection_permission] ends: with the row it wrote, with
    the [HTTPException] it raised, or with the [IntegrityError] of a
    commit the check constraint on [permission_level] refuses. *)
Inductive grant_outcome :=
| Granted (permission : ConnectionPermission)
| GrantRefused (e : HTTPException)
| GrantIntegrityError.

(** [existing.permission_level = permission_level;
     existing.granted_by = granted_by] on the first row of the pair. *)
Fixpoint update_first_permission (connection_id user_id : Z) (permission_level : string)
         (granted_by : Z) (ps : list ConnectionPermission) : list ConnectionPermission :=
  match ps with
  | [] => []
  | p :: rest =>
      if (cp_connection_id p =? connection_id) && (cp_user_id p =? user_id)
      then mkConnectionPermission (cp_connection_id p) (cp_user_id p)
                                  permission_level granted_by :: rest
      else p :: update_first_permission connection_id user_id permission_level
                                        granted_by rest
  end.

Definition with_permissions (ps : list ConnectionPermission) (db : Session) : Session :=
  mkSession (users db) (workspaces db) (workspace_members db) (connections db) ps.

Definition grant_connection_permission (db : Session) (connection_id user_id : Z)
           (permission_level : string) (granted_by : Z) : grant_outcome * Session :=
  match get_connection db connection_id with
  | None => (GrantRefused (mkHTTPException HTTP_404_NOT_FOUND "Connection not found"), db)
  | Some connection =>
      match find (fun u => Models.user_id u =? user_id) (users db) with
      | None => (GrantRefused (mkHTTPException HTTP_404_NOT_FOUND "User not found"), db)
      | Some _ =>
          match find (fun m => (wm_workspace_id m =? conn_workspace_id connection)
                               && (wm_user_id m =? user_id))
                     (workspace_members db) with
          | None =>
              (GrantRefused (mkHTTPException HTTP_400_BAD_REQUEST
                                             "User is not a member of this workspace"), db)
          | Some _ =>
              match find (fun p => (cp_connection_id p =? connection_id)
                                   && (cp_user_id p =? user_id))
                         (connection_permissions db) with
              | Some existing =>
                  if valid_permission_level permission_level
                  then (Granted (mkConnectionPermission
                                   (cp_connection_id existing) (cp_user_id existing)
                                   permission_level granted_by),
                        with_permissions
                          (update_first_permission connection_id user_id permission_level
                                                   granted_by (connection_permissions db))
                          db)
                  else (GrantIntegrityError, db)
              | None =>
                  let permission :=
                    mkConnectionPermission connection_id user_id permission_level
                                           granted_by in
                  if valid_permission_level permission_level
                  then (Granted permission,
                        with_permissions (connection_permissions db ++ [permission]) db)
                  else (GrantIntegrityError, db)
              end
          end
      end
  end.

(** [db.delete(permission); db.commit()] for the first row of the pair. *)
Fixpoint delete_first_permission (connection_id user_id : Z)
         (ps : list ConnectionPermission) : list ConnectionPermission :=
  match ps with
  | [] => []
  | p :: rest =>
      if (cp_connection_id p =? connection_id) && (cp_user_id p =? user_id)
      then rest
      else p :: delete_first_permission connection_id user_id rest
  end.

Definition revoke_connection_permission (db : Session) (connection_id user_id : Z)
  : bool * Session :=
  match find (fun p => (cp_connection_id p =? connection_id) && (cp_user_id p =? user_id))
             (connection_permissions db) with
  | None => (false, db)
  | Some _ =>
      (true,
       with_permissions
         (delete_first_permission connection_id user_id (connection_permissions db)) db)
  end.

Definition get_connection_permissions (db : Session) (connection_id : Z)
  : list ConnectionPermission :=
  filter (fun p => cp_connection_id p =? connection_id) (connection_permissions db).

(** [list(created_ids | permitted_ids)]: the union of two sets, listed
    in an order Python does not fix; here the order of first occurrence. *)
Definition get_user_accessible_connections (db : Session) (user_id workspace_id : Z)
  : list Z :=
  let workspace_role := get_user_role db user_id workspace_id in
  if role_is workspace_role "admin" then
    map conn_id (filter (fun c => conn_workspace_id c =? workspace_id) (connections db))
  else
    let created_ids :=
      map conn_id
          (filter (fun c => (conn_workspace_id c =? workspace_id)
                            && (conn_created_by c =? user_id))
                  (connections db)) in
    let permitted_ids :=
      map cp_connection_id
          (filter (fun p =>
                     (cp_user_id p =? user_id)
                     && existsb (fun c => (conn_id c =? cp_connection_id p)
                                          && (conn_workspace_id c =? workspace_id))
                                (connections db))
                  (connection_permissions db)) in
    nodup Z.eq_dec (created_ids ++ permitted_ids).

End ConnectionGrants.
Export ConnectionGrants.

(** ** The remaining checks of [app/core/permissions.py] and
    [app/core/workspace_middleware.py] *)

Module MoreChecks.

Definition require_workspace_membership (user_id workspace_id : Z) : Handler unit :=
  user_role <- query (fun db => get_user_role db user_id workspace_id) ;;
  match user_role with
  | None => raise HTTP_404_NOT_FOUND "Resource not found"
  | Some _ => ret tt
  end.

Definition validate_workspace_ownership (user_id workspace_id : Z) : Handler unit :=
  workspace <- query (fun db =>
    find (fun w => (ws_id w =? workspace_id) && (ws_created_by w =? user_id))
         (workspaces db)) ;;
  match workspace with
  | None => raise HTTP_404_NOT_FOUND "Resource not found"
  | Some _ => ret tt
  end.

(** [WorkspaceContextInjector.require_role].  The user is read from
    [request.state.user]; a request without one ends in the server's
    answer to an unhandled [AttributeError].  The workspace is resolved
    by [get_workspace_id] without a current user. *)
Definition require_role (int : string -> option Z) (request : Request)
           (required_role : string) : Handler unit :=
  match state_user request with
  | None => raise HTTP_500_INTERNAL_SERVER_ERROR "Internal Server Error"
  | Some user =>
      match get_workspace_id int request None with
      | Raised e => fun db => (Raised e, db)
      | Returned workspace_id =>
          member <- query (fun db =>
            find (fun m => (wm_user_id m =? Models.user_id user)
                           && (wm_workspace_id m =? workspace_id))
                 (workspace_members db)) ;;
          match member with
          | None => raise HTTP_404_NOT_FOUND "Resource not found"
          | Some member =>
              let role_hierarchy := [("admin", 3); ("editor", 2); ("viewer", 1)] in
              let user_role_level := dict_get role_hierarchy (wm_role member) 0 in
              let required_role_level := dict_get role_hierarchy required_role 0 in
              raise_if (user_role_level <? required_role_level)
                       HTTP_404_NOT_FOUND "Resource not found"
          end
      end
  end.

End MoreChecks.
Export MoreChecks.

(** ** [app/core/invitations.py]: the invitation link *)

Module InvitationLink.

(** [s.rstrip(c)] for a single character [c]. *)
Fixpoint rstrip (c : ascii) (s : string) : string :=
  match s with
  | EmptyString => EmptyString
  | String a rest =>
      match rstrip c rest with
      | EmptyString => if Ascii.eqb a c then EmptyString else String a EmptyString
      | stripped => String a stripped
      end
  end.

Definition generate_invitation_link (base_url : string) (token : string) : string :=
  let base_url := rstrip "/" base_url in
  base_url ++ "/accept-invite?token=" ++ token.

End InvitationLink.
Export InvitationLink.

(** ** [app/api/routes/workspaces.py] and [app/core/workspace_factory.py]:
    slugs *)

Module Slugs.

(** The class [[a-z0-9-]] of the first substitution. *)
Definition is_slug_char (c : ascii) : bool :=
  let n := nat_of_ascii c in
  ((Nat.leb 97 n && Nat.leb n 122) || (Nat.leb 48 n && Nat.leb n 57) || Nat.eqb n 45)%bool.

(** [s.replace(' ', '-')] *)
Fixpoint replace_spaces (s : string) : string :=
  match s with
  | EmptyString => EmptyString
  | String c rest =>
      String (if Ascii.eqb c " " then "-"%char else c) (replace_spaces rest)
  end.

(** [re.sub(r'[^a-z0-9-]', '', s)] *)
Fixpoint keep_slug_chars (s : string) : string :=
  match s with
  | EmptyString => EmptyString
  | String c rest =>
      if is_slug_char c then String c (keep_slug_chars rest) else keep_slug_chars rest
  end.

(** [re.sub(r'-+', '-', s)]: every run of hyphens becomes one hyphen. *)
Fixpoint collapse_hyphens (s : string) : string :=
  match s with
  | EmptyString => EmptyString
  | String c rest =>
      let collapsed := collapse_hyphens rest in
      if Ascii.eqb c "-" then
        match collapsed with
        | String "-" _ => collapsed
        | _ => String c collapsed
        end
      else String c collapsed
  end.

(** [s.lstrip(c)] for a single character [c]. *)
Fixpoint lstrip (c : ascii) (s : string) : string :=
  match s with
  | EmptyString => EmptyString
  | String a rest => if Ascii.eqb a c then lstrip c rest else s
  end.

(** [s.strip(c)] *)
Definition strip (c : ascii) (s : string) : string := rstrip c (lstrip c s).

(** The base slug of a name; [lower] is [str.lower]. *)
Definition base_slug_of (lower : string -> string) (name : string) : string :=
  let base_slug := keep_slug_chars (replace_spaces (lower name)) in
  let base_slug := strip "-" (collapse_hyphens base_slug) in
  if String.eqb base_slug "" then "workspace" else base_slug.

(** [f"{counter}"] for a counter. *)
Definition str_of_nat (n : nat) : string := NilEmpty.string_of_uint (Nat.to_uint n).

(** [db.query(Workspace).filter(Workspace.slug == slug).first()] as a
    condition. *)
Definition slug_taken (db : Session) (slug : string) : bool :=
  match find (fun w => String.eqb (ws_slug w) slug) (workspaces db) with
  | Some _ => true
  | None => false
  end.

(** The [while] loop, run for at most [fuel] tests of its condition. *)
Fixpoint slug_loop (fuel : nat) (db : Session) (base_slug slug : string) (counter : nat)
  : option string :=
  match fuel with
  | O => None
  | S fuel =>
      if slug_taken db slug
      then slug_loop fuel db base_slug (base_slug ++ "-" ++ str_of_nat counter) (S counter)
      else Some slug
  end.

Definition generate_unique_slug (lower : string -> string) (fuel : nat) (db : Session)
           (name : string) : option string :=
  let base_slug := base_slug_of lower name in
  slug_loop fuel db base_slug base_slug 1.

(** The shape of a slug, as tests on its characters. *)
Fixpoint all_slug_chars (s : string) : bool :=
  match s with
  | EmptyString => true
  | String c rest => is_slug_char c && all_slug_chars rest
  end.

Definition starts_with (c : ascii) (s : string) : bool :=
  match s with
  | String a _ => Ascii.eqb a c
  | EmptyString => false
  end.

Fixpoint ends_with (c : ascii) (s : string) : bool :=
  match s with
  | EmptyString => false
  | String a EmptyString => Ascii.eqb a c
  | String _ rest => ends_with c rest
  end.

Fixpoint has_double_hyphen (s : string) : bool :=
  match s with
  | EmptyString => false
  | String a rest =>
      (Ascii.eqb a "-" && starts_with "-" rest) || has_double_hyphen rest
  end.

End Slugs.
Export Slugs.

(** ** [app/api/routes/workspaces.py]: the remaining routes *)

Module WorkspaceRoutes.





(** [current_user.current_workspace_id = workspace_id; db.commit()]:
    the caller's row of [users] is the object the route mutates. *)
Definition with_current_workspace (user : User) (workspace_id : Z) : User :=
  mkUser (Models.user_id user) (user_username user) (user_email user) (Some workspace_id).

Fixpoint set_current_first (user_id workspace_id : Z) (us : list User) : list User :=
  match us with
  | [] => []
  | u :: rest =>
      if Models.user_id u =? user_id then with_current_workspace u workspace_id :: rest
      else u :: set_current_first user_id workspace_id rest
  end.

Definition set_current_workspace (user_id workspace_id : Z) (db : Session) : Session :=
  mkSession (set_current_first user_id workspace_id (users db)) (workspaces db)
            (workspace_members db) (connections db) (connection_permissions db).

(** [POST /workspaces/{workspace_id}/switch]: the answer carries the
    workspace id; the caller's object after the call is returned with it. *)
Definition switch_workspace (workspace_id : Z) (current_user : User)
  : Handler (User * Z) :=
  allowed <- query (fun db =>
    check_permission db (Models.user_id current_user) workspace_id "viewer") ;;
  raise_if (negb allowed) HTTP_404_NOT_FOUND "Workspace not found" ;;;
  commit (set_current_workspace (Models.user_id current_user) workspace_id) ;;;
  ret (with_current_workspace current_user workspace_id, workspace_id).

(** [GET /workspaces]: the workspaces joined to a membership row of the
    caller, in storage order. *)
Definition list_workspaces (current_user : User) (db : Session) : list Workspace :=
  filter (fun w =>
            existsb (fun m => (wm_workspace_id m =? ws_id w)
                              && (wm_user_id m =? Models.user_id current_user))
                    (workspace_members db))
         (workspaces db).

(** [GET /workspaces/{workspace_id}/members] *)
Definition list_members (workspace_id : Z) (current_user : User)
  : Handler (list WorkspaceMember) :=
  allowed <- query (fun db =>
    check_permission db (Models.user_id current_user) workspace_id "viewer") ;;
  raise_if (negb allowed) HTTP_404_NOT_FOUND "Workspace not found" ;;;
  query (fun db => filter (fun m => wm_workspace_id m =? workspace_id)
                          (workspace_members db)).

End WorkspaceRoutes.
Export WorkspaceRoutes.

(** The slugs the loop tries, in order: the base slug, then the base
    slug with [-1], [-2], ... *)
Definition slug_candidate (base_slug : string) (k : nat) : string :=
  match k with
  | O => base_slug
  | S _ => base_slug ++ "-" ++ str_of_nat k
  end.

(** The primary key of [workspaces]. *)
Fixpoint unique_workspace_id (wss : list Workspace) : bool :=
  match wss with
  | [] => true
  | w :: rest =>
      negb (existsb (fun w' => ws_id w =? ws_id w') rest) && unique_workspace_id rest
  end.

(** ** [app/api/routes/dashboards.py]: reading, deleting and sharing

    The routes read memberships from the session and read and write the
    [dashboards] table, which is passed beside it. *)

Module Dashboards.

Record Dashboard := mkDashboard {
  d_id : Z;
  d_name : string;
  d_description : option string;
  d_layout : string;
  d_is_public : bool;
  d_public_token : option string;
  d_public_token_created_at : option Z;
  d_public_token_expires_at : option Z;
  d_public_access_count : Z;
  d_workspace_id : Z;
  d_created_by : Z;
  d_updated_at : Z
}.

Definition HTTP_410_GONE : Z := 410.

(** A route's result beside the dashboards table it leaves. *)
Definition DashboardRoute (A : Type) : Type := (outcome A * list Dashboard)%type.

Definition dashboard_raise {A : Type} (status : Z) (msg : string) (ds : list Dashboard)
  : DashboardRoute A :=
  (Raised (mkHTTPException status msg), ds).

(** [db.query(Dashboard).filter(Dashboard.id == dashboard_id,
     Dashboard.workspace_id == workspace_id).first()] *)
Definition find_dashboard (dashboard_id workspace_id : Z) (ds : list Dashboard)
  : option Dashboard :=
  find (fun d => (d_id d =? dashboard_id) && (d_workspace_id d =? workspace_id)) ds.

(** A change to, or the deletion of, the row the query returned. *)
Fixpoint update_first_dashboard (dashboard_id workspace_id : Z)
         (change : Dashboard -> Dashboard) (ds : list Dashboard) : list Dashboard :=
  match ds with
  | [] => []
  | d :: rest =>
      if (d_id d =? dashboard_id) && (d_workspace_id d =? workspace_id)
      then change d :: rest
      else d :: update_first_dashboard dashboard_id workspace_id change rest
  end.


Section Routes.

Variable int : string -> option Z.

(** [GET /dashboards/{dashboard_id}] *)
Definition get_dashboard (dashboard_id : Z) (request : Request) (current_user : User)
           (ds : list Dashboard) : DashboardRoute Dashboard :=
  match get_workspace_id int request (Some current_user) with
  | Raised e => (Raised e, ds)
  | Returned workspace_id =>
      match find_dashboard dashboard_id workspace_id ds with
      | None => dashboard_raise HTTP_404_NOT_FOUND "Dashboard not found" ds
      | Some dashboard => (Returned dashboard, ds)
      end
  end.

(** The checks that open [delete_dashboard], [generate_share_token] and
    [revoke_share_token]; the three differ in the texts of the first
    and the last refusal. *)
Definition owned_dashboard (role_detail owner_detail : string) (db : Session)
           (dashboard_id : Z) (request : Request) (current_user : User)
           (ds : list Dashboard) : outcome (Z * Dashboard) :=
  match get_workspace_id int request (Some current_user) with
  | Raised e => Raised e
  | Returned workspace_id =>
      if negb (is_workspace_editor_or_above db (Models.user_id current_user) workspace_id)
      then Raised (mkHTTPException HTTP_404_NOT_FOUND role_detail)
      else
        match find_dashboard dashboard_id workspace_id ds with
        | None => Raised (mkHTTPException HTTP_404_NOT_FOUND "Dashboard not found")
        | Some dashboard =>
            if negb (is_workspace_admin db (Models.user_id current_user) workspace_id)
               && negb (d_created_by dashboard =? Models.user_id current_user)
            then Raised (mkHTTPException HTTP_404_NOT_FOUND owner_detail)
            else Returned (workspace_id, dashboard)
        end
  end.


(** The assignments of [generate_share_token]; [token] is what
    [secrets.token_urlsafe(32)] returned and [now] the clock. *)
Definition shared (token : string) (now expires_in_days : Z) (d : Dashboard) : Dashboard :=
  mkDashboard (d_id d) (d_name d) (d_description d) (d_layout d)
              true (Some token) (Some now) (Some (now + days expires_in_days))
              (d_public_access_count d) (d_workspace_id d) (d_created_by d) now.

(** [POST /dashboards/{dashboard_id}/share] *)
Definition generate_share_token (token : string) (now : Z) (db : Session)
           (dashboard_id : Z) (request : Request) (expires_in_days : Z)
           (current_user : User) (ds : list Dashboard) : DashboardRoute Dashboard :=
  match owned_dashboard "You need editor or admin role to share dashboards"
                        "You can only share your own dashboards"
                        db dashboard_id request current_user ds with
  | Raised e => (Raised e, ds)
  | Returned (workspace_id, dashboard) =>
      (Returned (shared token now expires_in_days dashboard),
       update_first_dashboard dashboard_id workspace_id
                              (shared token now expires_in_days) ds)
  end.

(** The assignments of [revoke_share_token]. *)
Definition unshared (now : Z) (d : Dashboard) : Dashboard :=
  mkDashboard (d_id d) (d_name d) (d_description d) (d_layout d)
              false None None None
              (d_public_access_count d) (d_workspace_id d) (d_created_by d) now.

(** [DELETE /dashboards/{dashboard_id}/share] *)
Definition revoke_share_token (now : Z) (db : Session) (dashboard_id : Z)
           (request : Request) (current_user : User) (ds : list Dashboard)
  : DashboardRoute unit :=
  match owned_dashboard "You need editor or admin role to revoke dashboard sharing"
                        "You can only revoke sharing for your own dashboards"
                        db dashboard_id request current_user ds with
  | Raised e => (Raised e, ds)
  | Returned (workspace_id, _) =>
      (Returned tt, update_first_dashboard dashboard_id workspace_id (unshared now) ds)
  end.

End Routes.

(** [dashboard.public_access_count += 1]; the flush stamps
    [updated_at] ([onupdate=datetime.utcnow]). *)
Definition counted (now : Z) (d : Dashboard) : Dashboard :=
  mkDashboard (d_id d) (d_name d) (d_description d) (d_layout d)
              (d_is_public d) (d_public_token d) (d_public_token_created_at d)
              (d_public_token_expires_at d)
              (d_public_access_count d + 1) (d_workspace_id d) (d_created_by d)
              now.

Definition is_shared_as (share_token : string) (d : Dashboard) : bool :=
  role_is (d_public_token d) share_token && d_is_public d.

Fixpoint count_first_shared (now : Z) (share_token : string) (ds : list Dashboard)
  : list Dashboard :=
  match ds with
  | [] => []
  | d :: rest =>
      if is_shared_as share_token d then counted now d :: rest
      else d :: count_first_shared now share_token rest
  end.

(** [GET /dashboards/public/{share_token}]: no user, no workspace. *)
Definition get_public_dashboard (now : Z) (share_token : string) (ds : list Dashboard)
  : DashboardRoute Dashboard :=
  match find (is_shared_as share_token) ds with
  | None =>
      dashboard_raise HTTP_404_NOT_FOUND "Dashboard not found or not publicly accessible" ds
  | Some dashboard =>
      if match d_public_token_expires_at dashboard with
         | Some expires_at => expires_at <? now
         | None => false
         end
      then dashboard_raise HTTP_410_GONE "This sharing link has expired" ds
      else (Returned (counted now dashboard), count_first_shared now share_token ds)
  end.

(** The primary key of [dashboards]. *)
Fixpoint unique_dashboard_id (ds : list Dashboard) : bool :=
  match ds with
  | [] => true
  | d :: rest =>
      negb (existsb (fun d' => d_id d =? d_id d') rest) && unique_dashboard_id rest
  end.

(** What lets a caller write to a dashboard: the request resolves to a
    workspace in which the caller is at least an editor, the dashboard
    is a row of that workspace, and the caller is an admin of the
    workspace or made the dashboard. *)
Definition may_write_dashboard (int : string -> option Z) (db : Session)
           (request : Request) (current_user : User) (dashboard_id : Z)
           (ds : list Dashboard) (w : Z) (d : Dashboard) : Prop :=
  get_workspace_id int request (Some current_user) = Returned w /\
  is_workspace_editor_or_above db (Models.user_id current_user) w = true /\
  find_dashboard dashboard_id w ds = Some d /\
  (is_workspace_admin db (Models.user_id current_user) w = true \/
   d_created_by d = Models.user_id current_user).

(** No dashboard is shared under the token. *)
Definition token_unused (share_token : string) (ds : list Dashboard) : bool :=
  forallb (fun d => negb (role_is (d_public_token d) share_token)) ds.

End Dashboards.
Export Dashboards.

(** Two dashboards of the sample workspace, one made by the editor and
    one by the admin, and one of another workspace. *)
Definition sample_dashboards : list Dashboard :=
  [mkDashboard 100 "Sales" None "{}" false None None None 0 1 2 0;
   mkDashboard 101 "Ops" None "{}" false None None None 0 1 1 0;
   mkDashboard 200 "Other" None "{}" false None None None 0 2 9 0].

(** ** [app/api/routes/workspaces.py]: creating a workspace

    The route writes the workspace, its creator's admin membership and
    its settings row in one commit; the settings table is passed beside
    the session. *)

Module WorkspaceCreation.

Record WorkspaceSettings := mkWorkspaceSettings {
  s_workspace_id : Z;
  s_redis_enabled : bool;
  s_redis_host : string;
  s_redis_port : Z;
  s_max_dashboards : Z;
  s_max_members : Z
}.

(** What [create_workspace] leaves: the workspace it returns, the
    caller's object, the session and the settings table. *)
Record Created := mkCreated {
  created_workspace : Workspace;
  created_user : User;
  created_session : Session;
  created_settings : list WorkspaceSettings
}.

(** [POST /workspaces].  [new_id] is the id the store assigns to the
    workspace at [db.flush()], [now] the clock; the result is [None]
    when the slug loop is cut off by [fuel]. *)
Definition create_workspace (lower : string -> string) (fuel : nat) (new_id now : Z)
           (name : string) (current_user : User) (db : Session)
           (settings : list WorkspaceSettings) : option Created :=
  match generate_unique_slug lower fuel db name with
  | None => None
  | Some slug =>
      let workspace := mkWorkspace new_id name slug (Models.user_id current_user) in
      let member :=
        mkWorkspaceMember (ws_id workspace) (Models.user_id current_user) "admin"
                          (Some (Models.user_id current_user)) now in
      let row := mkWorkspaceSettings (ws_id workspace) false "localhost" 6379 1000 100 in
      let first_workspace :=
        match user_current_workspace_id current_user with
        | None => true
        | Some _ => false
        end in
      let user' :=
        if first_workspace
        then with_current_workspace current_user (ws_id workspace)
        else current_user in
      let users' :=
        if first_workspace
        then set_current_first (Models.user_id current_user) (ws_id workspace) (users db)
        else users db in
      Some (mkCreated workspace user'
                      (mkSession users' (workspaces db ++ [workspace])
                                 (workspace_members db ++ [member])
                                 (connections db) (connection_permissions db))
                      (settings ++ [row]))
  end.

(** The store has never used the id: no workspace row carries it and no
    membership or settings row refers to it. *)
Definition fresh_workspace_id (new_id : Z) (db : Session)
           (settings : list WorkspaceSettings) : bool :=
  forallb (fun w => negb (ws_id w =? new_id)) (workspaces db)
  && forallb (fun m => negb (wm_workspace_id m =? new_id)) (workspace_members db)
  && forallb (fun s => negb (s_workspace_id s =? new_id)) settings.

End WorkspaceCreation.
Export WorkspaceCreation.

(** * Properties *)

(** ** Lookup tables *)

Lemma role_level_cases (s : string) :
  (s = "admin" /\ role_level s = 3) \/
  (s = "editor" /\ role_level s = 2) \/
  (s = "viewer" /\ role_level s = 1) \/
  (~ In s ["admin"; "editor"; "viewer"] /\ role_level s = 0).
Proof.
  unfold role_level, ROLE_HIERARCHY; cbn [dict_get].
  destruct (String.eqb_spec "admin" s) as [<-|Ha]; [now left|].
  destruct (String.eqb_spec "editor" s) as [<-|He]; [now right; left|].
  destruct (String.eqb_spec "viewer" s) as [<-|Hv]; [now right; right; left|].
  right; right; right. split; [|reflexivity].
  intros [H|[H|[H|[]]]]; congruence.
Qed.

Lemma role_level_nonneg (s : string) : 0 <= role_level s.
Proof.
  destruct (role_level_cases s) as [[_ H]|[[_ H]|[[_ H]|[_ H]]]]; rewrite H; lia.
Qed.

Lemma role_level_admin_only (s : string) : 3 <= role_level s -> s = "admin".
Proof.
  destruct (role_level_cases s) as [[E _]|[[_ H]|[[_ H]|[_ H]]]];
    [intros _; exact E | rewrite H; lia ..].
Qed.

Lemma permission_level_cases (s : string) :
  (s = "owner" /\ permission_level s = 3) \/
  (s = "editor" /\ permission_level s = 2) \/
  (s = "viewer" /\ permission_level s = 1) \/
  (~ In s ["owner"; "editor"; "viewer"] /\ permission_level s = 0).
Proof.
  unfold permission_level, permission_hierarchy; cbn [dict_get].
  destruct (String.eqb_spec "owner" s) as [<-|Ha]; [now left|].
  destruct (String.eqb_spec "editor" s) as [<-|He]; [now right; left|].
  destruct (String.eqb_spec "viewer" s) as [<-|Hv]; [now right; right; left|].
  right; right; right. split; [|reflexivity].
  intros [H|[H|[H|[]]]]; congruence.
Qed.

(** ** Queries on tables with a unique key *)

Lemma find_member_in (ms : list WorkspaceMember) (u w : Z) (m : WorkspaceMember) :
  find (fun m => (wm_user_id m =? u) && (wm_workspace_id m =? w)) ms = Some m ->
  In m ms /\ wm_workspace_id m = w /\ wm_user_id m = u.
Proof.
  intros H. apply find_some in H as [Hin Hk].
  apply andb_true_iff in Hk as [Hu Hw]. apply Z.eqb_eq in Hu, Hw. auto.
Qed.

Lemma find_member_none (ms : list WorkspaceMember) (u w : Z) :
  find (fun m => (wm_user_id m =? u) && (wm_workspace_id m =? w)) ms = None ->
  forall m, In m ms -> ~ (wm_workspace_id m = w /\ wm_user_id m = u).
Proof.
  intros H m Hin [Hw Hu].
  pose proof (find_none _ _ H m Hin) as Hk. cbv beta in Hk.
  rewrite Hu, Hw, !Z.eqb_refl in Hk. discriminate.
Qed.

Lemma find_member_unique (ms : list WorkspaceMember) (u w : Z) (m : WorkspaceMember) :
  uq_workspace_user ms = true ->
  In m ms -> wm_workspace_id m = w -> wm_user_id m = u ->
  find (fun m => (wm_user_id m =? u) && (wm_workspace_id m =? w)) ms = Some m.
Proof.
  induction ms as [|a rest IH]; simpl; intros Huq Hin Hw Hu; [contradiction|].
  apply andb_true_iff in Huq as [Hfresh Huq].
  destruct Hin as [->|Hin].
  - now rewrite Hu, Hw, !Z.eqb_refl.
  - destruct ((wm_user_id a =? u) && (wm_workspace_id a =? w)) eqn:Hk.
    + apply andb_true_iff in Hk as [Hau Haw]. apply Z.eqb_eq in Hau, Haw.
      apply negb_true_iff in Hfresh.
      assert (existsb (same_workspace_user a) rest = true) as Hex.
      { apply existsb_exists. exists m. split; [exact Hin|].
        unfold same_workspace_user.
        rewrite Haw, Hau, Hw, Hu, !Z.eqb_refl. reflexivity. }
      congruence.
    + now apply IH.
Qed.

Lemma find_grant_in (ps : list ConnectionPermission) (c u : Z) (p : ConnectionPermission) :
  find (fun p => (cp_connection_id p =? c) && (cp_user_id p =? u)) ps = Some p ->
  In p ps /\ cp_connection_id p = c /\ cp_user_id p = u.
Proof.
  intros H. apply find_some in H as [Hin Hk].
  apply andb_true_iff in Hk as [Hc Hu]. apply Z.eqb_eq in Hu, Hc. auto.
Qed.

Lemma find_grant_none (ps : list ConnectionPermission) (c u : Z) :
  find (fun p => (cp_connection_id p =? c) && (cp_user_id p =? u)) ps = None ->
  forall p, In p ps -> ~ (cp_connection_id p = c /\ cp_user_id p = u).
Proof.
  intros H p Hin [Hc Hu].
  pose proof (find_none _ _ H p Hin) as Hk. cbv beta in Hk.
  rewrite Hu, Hc, !Z.eqb_refl in Hk. discriminate.
Qed.

Lemma find_grant_unique (ps : list ConnectionPermission) (c u : Z) (p : ConnectionPermission) :
  unique_connection_user ps = true ->
  In p ps -> cp_connection_id p = c -> cp_user_id p = u ->
  find (fun p => (cp_connection_id p =? c) && (cp_user_id p =? u)) ps = Some p.
Proof.
  induction ps as [|a rest IH]; simpl; intros Huq Hin Hc Hu; [contradiction|].
  apply andb_true_iff in Huq as [Hfresh Huq].
  destruct Hin as [->|Hin].
  - now rewrite Hu, Hc, !Z.eqb_refl.
  - destruct ((cp_connection_id a =? c) && (cp_user_id a =? u)) eqn:Hk.
    + apply andb_true_iff in Hk as [Hac Hau]. apply Z.eqb_eq in Hau, Hac.
      apply negb_true_iff in Hfresh.
      assert (existsb (same_connection_user a) rest = true) as Hex.
      { apply existsb_exists. exists p. split; [exact Hin|].
        unfold same_connection_user.
        rewrite Hac, Hau, Hc, Hu, !Z.eqb_refl. reflexivity. }
      congruence.
    + now apply IH.
Qed.

(** [get_user_role] reads the role of the pair's row. *)
Lemma get_user_role_some (db : Session) (u w : Z) (r : string) :
  get_user_role db u w = Some r ->
  exists m, membership db w u m /\ wm_role m = r.
Proof.
  unfold get_user_role, membership.
  destruct (find _ _) as [m|] eqn:Hf; [|discriminate].
  intros [= <-]. exists m. split; [|reflexivity]. now apply find_member_in.
Qed.

Lemma get_user_role_none (db : Session) (u w : Z) :
  get_user_role db u w = None <-> (forall m, ~ membership db w u m).
Proof.
  unfold get_user_role, membership. split.
  - destruct (find _ _) as [m|] eqn:Hf; [discriminate|].
    intros _ m [Hin Hk]. exact (find_member_none _ _ _ Hf m Hin Hk).
  - intros Hno. destruct (find _ _) as [m|] eqn:Hf; [|reflexivity].
    exfalso. apply (Hno m). now apply find_member_in.
Qed.

Lemma get_user_role_unique (db : Session) (u w : Z) (m : WorkspaceMember) :
  uq_workspace_user (workspace_members db) = true ->
  membership db w u m ->
  get_user_role db u w = Some (wm_role m).
Proof.
  intros Huq (Hin & Hw & Hu). unfold get_user_role.
  now rewrite (find_member_unique _ u w m Huq Hin Hw Hu).
Qed.

Lemma check_permission_level (db : Session) (u w : Z) (r : string) :
  check_permission db u w r =
  match get_user_role db u w with
  | Some held => role_level r <=? role_level held
  | None => false
  end.
Proof.
  unfold check_permission, role_level.
  destruct (get_user_role db u w); [|reflexivity].
  now rewrite Z.geb_leb.
Qed.

(** ** The permission evaluator *)

(** C2.  On the scale admin = 3, editor = 2, viewer = 1, and for a
    required role among the three, [check_permission] answers [true]
    exactly when the membership table (unique per workspace and user)
    holds a row of the pair whose role is at least the required one.
    A user without a row is denied, and whatever a held role is allowed,
    a role of a higher level is allowed too. *)
Theorem check_permission_iff_membership_level :
  forall (db : Session) (u w : Z) (r : string),
    uq_workspace_user (workspace_members db) = true ->
    In r ["admin"; "editor"; "viewer"] ->
    (role_level "admin" = 3 /\ role_level "editor" = 2 /\ role_level "viewer" = 1) /\
    (check_permission db u w r = true <->
     exists m, membership db w u m /\ role_level (wm_role m) >= role_level r) /\
    ((forall m, ~ membership db w u m) -> check_permission db u w r = false) /\
    (forall (db' : Session) (held held' : string),
        get_user_role db u w = Some held ->
        get_user_role db' u w = Some held' ->
        role_level held <= role_level held' ->
        check_permission db u w r = true ->
        check_permission db' u w r = true).
Proof.
  intros db u w r Huq Hr. split; [now repeat split|]. split; [|split].
  - rewrite check_permission_level. split.
    + destruct (get_user_role db u w) as [held|] eqn:Hrole; [|discriminate].
      intros Hle. apply Z.leb_le in Hle.
      destruct (get_user_role_some _ _ _ _ Hrole) as (m & Hm & <-).
      exists m. split; [exact Hm|lia].
    + intros (m & Hm & Hge).
      rewrite (get_user_role_unique _ _ _ _ Huq Hm). apply Z.leb_le. lia.
  - intros Hno. rewrite check_permission_level.
    now rewrite (proj2 (get_user_role_none db u w) Hno).
  - intros db' held held' Hheld Hheld' Hle.
    rewrite !check_permission_level, Hheld, Hheld'.
    intros H. apply Z.leb_le in H. apply Z.leb_le. lia.
Qed.

Lemma check_permission_iff_membership_level_witness :
  uq_workspace_user (workspace_members sample_db) = true /\
  In "editor" ["admin"; "editor"; "viewer"] /\
  check_permission sample_db 2 1 "editor" = true /\
  check_permission sample_db 3 1 "editor" = false /\
  check_permission sample_db 4 1 "viewer" = false.
Proof.
  pose proof (check_permission_iff_membership_level sample_db 2 1 "editor"
                eq_refl (or_intror (or_introl eq_refl))) as (_ & Hiff & _).
  split; [reflexivity|]. split; [right; left; reflexivity|].
  split; [|split; reflexivity].
  apply Hiff. exists (mkWorkspaceMember 1 2 "editor" (Some 1) 10).
  split; [|vm_compute; discriminate].
  split; [right; left; reflexivity|split; reflexivity].
Defined.

(** C10.  A required role outside admin, editor and viewer has level 0,
    so [check_permission] lets every member of the workspace through,
    whatever role the member holds; a user without a membership row is
    still denied. *)
Theorem check_permission_unknown_required_role :
  forall (db : Session) (u w : Z) (required_role : string),
    ~ In required_role ["admin"; "editor"; "viewer"] ->
    role_level required_role = 0 /\
    ((exists m, membership db w u m) -> check_permission db u w required_role = true) /\
    ((forall m, ~ membership db w u m) -> check_permission db u w required_role = false).
Proof.
  intros db u w r Hout.
  assert (role_level r = 0) as H0.
  { destruct (role_level_cases r) as [[E _]|[[E _]|[[E _]|[_ H]]]];
      [exfalso; apply Hout; subst; simpl; auto ..|exact H]. }
  split; [exact H0|]. rewrite check_permission_level. split.
  - intros (m & Hm).
    destruct (get_user_role db u w) as [held|] eqn:Hrole.
    + apply Z.leb_le. rewrite H0. apply role_level_nonneg.
    + exfalso. exact (proj1 (get_user_role_none db u w) Hrole m Hm).
  - intros Hno. now rewrite (proj2 (get_user_role_none db u w) Hno).
Qed.

Lemma check_permission_unknown_required_role_witness :
  ~ In "amdin" ["admin"; "editor"; "viewer"] /\
  check_permission sample_db 3 1 "amdin" = true /\
  check_permission sample_db 4 1 "amdin" = false.
Proof.
  assert (~ In "amdin" ["admin"; "editor"; "viewer"]) as Hout.
  { intros [H|[H|[H|[]]]]; discriminate. }
  destruct (check_permission_unknown_required_role sample_db 3 1 "amdin" Hout)
    as (_ & Hmember & _).
  split; [exact Hout|]. split; [|reflexivity].
  apply Hmember. exists (mkWorkspaceMember 1 3 "viewer" (Some 1) 20).
  split; [right; right; left; reflexivity|split; reflexivity].
Defined.

(** C3.  [can_modify_member_role] answers [false] when the actor is the
    target, [false] when the actor is not an admin of the workspace,
    [false] when the new role's level is above the level the actor
    holds, and [true] in every other case. *)
Theorem can_modify_member_role_cases :
  forall (db : Session) (actor target w : Z) (new_role : string),
    (actor = target -> can_modify_member_role db actor target w new_role = false) /\
    (is_workspace_admin db actor w = false ->
     can_modify_member_role db actor target w new_role = false) /\
    (role_level new_role > held_level db actor w ->
     can_modify_member_role db actor target w new_role = false) /\
    (actor <> target ->
     is_workspace_admin db actor w = true ->
     role_level new_role <= held_level db actor w ->
     can_modify_member_role db actor target w new_role = true).
Proof.
  intros db actor target w new_role.
  unfold can_modify_member_role, held_level, role_level.
  repeat split.
  - intros ->. now rewrite Z.eqb_refl.
  - intros ->. now destruct (actor =? target).
  - intros Hgt. destruct (actor =? target); [reflexivity|].
    destruct (is_workspace_admin db actor w); [|reflexivity]. cbn [negb].
    destruct (get_user_role db actor w);
      (destruct (_ >? _) eqn:E; [reflexivity|]);
      rewrite Z.gtb_ltb in E; apply Z.ltb_ge in E; lia.
  - intros Hne -> Hle. apply Z.eqb_neq in Hne. rewrite Hne. cbn [negb].
    destruct (get_user_role db actor w);
      (destruct (_ >? _) eqn:E; [|reflexivity]);
      rewrite Z.gtb_ltb in E; apply Z.ltb_lt in E; lia.
Qed.

Lemma can_modify_member_role_cases_witness :
  can_modify_member_role sample_db 1 1 1 "viewer" = false /\
  can_modify_member_role sample_db 2 3 1 "viewer" = false /\
  can_modify_member_role sample_db 1 2 1 "admin" = true.
Proof.
  split; [|split].
  - exact (proj1 (can_modify_member_role_cases sample_db 1 1 1 "viewer") eq_refl).
  - exact (proj1 (proj2 (can_modify_member_role_cases sample_db 2 3 1 "viewer")) eq_refl).
  - apply (proj2 (proj2 (proj2 (can_modify_member_role_cases sample_db 1 2 1 "admin")))).
    + discriminate.
    + reflexivity.
    + vm_compute. discriminate.
Defined.

(** ** Connection-level permissions *)

(** The second test of both connection predicates: the user's row in
    the connection's workspace carries the role admin. *)
Lemma role_is_admin_iff (db : Session) (u w : Z) :
  uq_workspace_user (workspace_members db) = true ->
  (role_is (get_user_role db u w) "admin" = true <->
   exists m, membership db w u m /\ wm_role m = "admin").
Proof.
  intros Huq. split.
  - destruct (get_user_role db u w) as [held|] eqn:Hrole; [|discriminate].
    cbn [role_is]. intros E. apply String.eqb_eq in E. subst held.
    destruct (get_user_role_some _ _ _ _ Hrole) as (m & Hm & Hr). now exists m.
  - intros (m & Hm & Hr).
    rewrite (get_user_role_unique _ _ _ _ Huq Hm), Hr. reflexivity.
Qed.

Lemma get_user_connection_permission_some (db : Session) (u c : Z) (l : string) :
  get_user_connection_permission db u c = Some l ->
  exists p, grant db c u p /\ cp_permission_level p = l.
Proof.
  unfold get_user_connection_permission, grant.
  destruct (find _ _) as [p|] eqn:Hf; [|discriminate].
  intros [= <-]. exists p. split; [|reflexivity]. now apply find_grant_in.
Qed.

Lemma get_user_connection_permission_none (db : Session) (u c : Z) :
  get_user_connection_permission db u c = None <-> (forall p, ~ grant db c u p).
Proof.
  unfold get_user_connection_permission, grant. split.
  - destruct (find _ _) as [p|] eqn:Hf; [discriminate|].
    intros _ p [Hin Hk]. exact (find_grant_none _ _ _ Hf p Hin Hk).
  - intros Hno. destruct (find _ _) as [p|] eqn:Hf; [|reflexivity].
    exfalso. apply (Hno p). now apply find_grant_in.
Qed.

Lemma get_user_connection_permission_unique (db : Session) (u c : Z)
      (p : ConnectionPermission) :
  unique_connection_user (connection_permissions db) = true ->
  grant db c u p ->
  get_user_connection_permission db u c = Some (cp_permission_level p).
Proof.
  intros Huq (Hin & Hc & Hu). unfold get_user_connection_permission.
  now rewrite (find_grant_unique _ c u p Huq Hin Hc Hu).
Qed.

(** A required level among the three is at least 1, the empty text is 0. *)
Lemma permission_level_valid_pos (r : string) :
  In r ["owner"; "editor"; "viewer"] -> 1 <= permission_level r.
Proof.
  intros [<-|[<-|[<-|[]]]]; vm_compute; discriminate.
Qed.

(** C4.  For a connection the store holds and a required level among
    owner, editor and viewer, [check_connection_access] answers [true]
    exactly when the user created the connection, or is an admin of the
    connection's workspace, or has an explicit grant row on it whose
    level is at least the required one on the scale owner = 3,
    editor = 2, viewer = 1.  A user who is neither creator nor admin and
    has no grant row is refused. *)
Theorem check_connection_access_iff :
  forall (db : Session) (u c : Z) (r : string) (conn : Connection),
    uq_workspace_user (workspace_members db) = true ->
    unique_connection_user (connection_permissions db) = true ->
    get_connection db c = Some conn ->
    In r ["owner"; "editor"; "viewer"] ->
    (permission_level "owner" = 3 /\ permission_level "editor" = 2 /\
     permission_level "viewer" = 1) /\
    (check_connection_access db u c r = true <->
     conn_created_by conn = u \/
     (exists m, membership db (conn_workspace_id conn) u m /\ wm_role m = "admin") \/
     (exists p, grant db c u p /\
                permission_level (cp_permission_level p) >= permission_level r)) /\
    (conn_created_by conn <> u ->
     (forall m, membership db (conn_workspace_id conn) u m -> wm_role m <> "admin") ->
     (forall p, ~ grant db c u p) ->
     check_connection_access db u c r = false).
Proof.
  intros db u c r conn Hm Hp Hconn Hr.
  pose proof (permission_level_valid_pos r Hr) as Hpos.
  pose proof (role_is_admin_iff db u (conn_workspace_id conn) Hm) as Hadmin.
  split; [now repeat split|].
  unfold check_connection_access. rewrite Hconn.
  fold (permission_level r).
  split.
  - destruct (Z.eqb_spec (conn_created_by conn) u) as [Hc|Hc]; [tauto|].
    destruct (role_is (get_user_role db u (conn_workspace_id conn)) "admin") eqn:Ha.
    { split; [intros _; right; left; now apply Hadmin|reflexivity]. }
    assert (~ exists m, membership db (conn_workspace_id conn) u m /\ wm_role m = "admin")
      as Hna by (intros H; apply Hadmin in H; discriminate).
    destruct (get_user_connection_permission db u c) as [l|] eqn:Hl.
    + destruct (get_user_connection_permission_some _ _ _ _ Hl) as (p & Hg & <-).
      fold (permission_level (cp_permission_level p)).
      split.
      * intros H. right; right. exists p. split; [exact Hg|].
        destruct (String.eqb _ ""); [discriminate|].
        rewrite Z.geb_leb in H. apply Z.leb_le in H. lia.
      * intros [H|[H|(p' & Hg' & Hge)]]; [contradiction..|].
        pose proof (get_user_connection_permission_unique _ _ _ _ Hp Hg') as E.
        rewrite Hl in E. injection E as E. rewrite <- E in Hge.
        destruct (String.eqb_spec (cp_permission_level p) "") as [E0|_].
        { rewrite E0 in Hge. change (permission_level "") with 0 in Hge. lia. }
        rewrite Z.geb_leb. apply Z.leb_le. lia.
    + split; [discriminate|].
      intros [H|[H|(p' & Hg' & _)]]; [contradiction..|].
      exfalso. exact (proj1 (get_user_connection_permission_none db u c) Hl p' Hg').
  - intros Hc Hnadm Hnog. apply Z.eqb_neq in Hc. rewrite Hc.
    destruct (role_is _ "admin") eqn:Ha.
    { destruct (proj1 Hadmin eq_refl) as (m & Hmem & Hrole).
      exfalso. exact (Hnadm m Hmem Hrole). }
    now rewrite (proj2 (get_user_connection_permission_none db u c) Hnog).
Qed.

Lemma check_connection_access_iff_witness :
  uq_workspace_user (workspace_members sample_db) = true /\
  unique_connection_user (connection_permissions sample_db) = true /\
  get_connection sample_db 10 = Some (mkConnection 10 "warehouse" 1 2) /\
  In "viewer" ["owner"; "editor"; "viewer"] /\
  check_connection_access sample_db 3 10 "viewer" = true /\
  check_connection_access sample_db 3 10 "editor" = false /\
  check_connection_access sample_db 4 10 "viewer" = false.
Proof.
  pose proof (check_connection_access_iff sample_db 3 10 "viewer"
                (mkConnection 10 "warehouse" 1 2) eq_refl eq_refl eq_refl
                (or_intror (or_intror (or_introl eq_refl)))) as (_ & Hiff & _).
  repeat (split; [reflexivity|]).
  split; [right; right; left; reflexivity|].
  split; [|split; reflexivity].
  apply Hiff. right; right. exists (mkConnectionPermission 10 3 "viewer" 1).
  split; [|vm_compute; discriminate].
  split; [left; reflexivity|split; reflexivity].
Defined.

(** C5.  For a connection the store holds,
    [can_manage_connection_permissions] answers [true] exactly when the
    user created the connection, or is an admin of its workspace, or has
    an explicit grant row on it of level owner.  A user who is neither
    creator nor admin and whose grant is editor or viewer cannot manage
    the connection's permission rows. *)
Theorem can_manage_connection_permissions_iff :
  forall (db : Session) (u c : Z) (conn : Connection),
    uq_workspace_user (workspace_members db) = true ->
    unique_connection_user (connection_permissions db) = true ->
    get_connection db c = Some conn ->
    (can_manage_connection_permissions db u c = true <->
     conn_created_by conn = u \/
     (exists m, membership db (conn_workspace_id conn) u m /\ wm_role m = "admin") \/
     (exists p, grant db c u p /\ cp_permission_level p = "owner")) /\
    (forall p : ConnectionPermission,
        conn_created_by conn <> u ->
        (forall m, membership db (conn_workspace_id conn) u m -> wm_role m <> "admin") ->
        grant db c u p ->
        cp_permission_level p = "editor" \/ cp_permission_level p = "viewer" ->
        can_manage_connection_permissions db u c = false).
Proof.
  intros db u c conn Hm Hp Hconn.
  pose proof (role_is_admin_iff db u (conn_workspace_id conn) Hm) as Hadmin.
  unfold can_manage_connection_permissions. rewrite Hconn.
  split.
  - destruct (Z.eqb_spec (conn_created_by conn) u) as [Hc|Hc]; [tauto|].
    destruct (role_is (get_user_role db u (conn_workspace_id conn)) "admin") eqn:Ha.
    { split; [intros _; right; left; now apply Hadmin|reflexivity]. }
    assert (~ exists m, membership db (conn_workspace_id conn) u m /\ wm_role m = "admin")
      as Hna by (intros H; apply Hadmin in H; discriminate).
    destruct (get_user_connection_permission db u c) as [l|] eqn:Hl; cbn [role_is].
    + destruct (get_user_connection_permission_some _ _ _ _ Hl) as (p & Hg & <-).
      split.
      * intros H. right; right. exists p. split; [exact Hg|].
        destruct (String.eqb_spec (cp_permission_level p) "owner"); [assumption|discriminate].
      * intros [H|[H|(p' & Hg' & Ho)]]; [contradiction..|].
        pose proof (get_user_connection_permission_unique _ _ _ _ Hp Hg') as E.
        rewrite Hl in E. injection E as E. rewrite E, Ho. reflexivity.
    + split; [discriminate|].
      intros [H|[H|(p' & Hg' & _)]]; [contradiction..|].
      exfalso. exact (proj1 (get_user_connection_permission_none db u c) Hl p' Hg').
  - intros p Hc Hnadm Hg Hlevel. apply Z.eqb_neq in Hc. rewrite Hc.
    destruct (role_is _ "admin") eqn:Ha.
    { destruct (proj1 Hadmin eq_refl) as (m & Hmem & Hrole).
      exfalso. exact (Hnadm m Hmem Hrole). }
    rewrite (get_user_connection_permission_unique _ _ _ _ Hp Hg).
    destruct Hlevel as [-> | ->]; reflexivity.
Qed.

Lemma can_manage_connection_permissions_iff_witness :
  uq_workspace_user (workspace_members sample_db) = true /\
  unique_connection_user (connection_permissions sample_db) = true /\
  get_connection sample_db 10 = Some (mkConnection 10 "warehouse" 1 2) /\
  can_manage_connection_permissions sample_db 2 10 = true /\
  can_manage_connection_permissions sample_db 3 10 = false.
Proof.
  pose proof (can_manage_connection_permissions_iff sample_db 2 10
                (mkConnection 10 "warehouse" 1 2) eq_refl eq_refl eq_refl) as (Hiff & _).
  do 3 (split; [reflexivity|]).
  split; [|reflexivity].
  apply Hiff. left. reflexivity.
Defined.

(** ** The data-isolation guard *)

Lemma opt_Z_eqb_eq (a b : option Z) : opt_Z_eqb a b = true <-> a = b.
Proof.
  destruct a as [x|], b as [y|]; simpl; split; try congruence.
  - intros H. apply Z.eqb_eq in H. congruence.
  - intros [= ->]. apply Z.eqb_refl.
Qed.

(** An update of a loaded column either keeps the committed id or, when
    the committed id is not null, is refused. *)
Lemma flush_update_keeps (model_name : string) (w : Z) (new_id : option Z) :
  str_in model_name WORKSPACE_SCOPED_MODELS = true ->
  flush_update model_name (Some w) new_id = Some w.
Proof.
  intros Hin. unfold flush_update, loaded.
  destruct (opt_Z_eqb (Some w) new_id) eqn:E.
  - apply opt_Z_eqb_eq in E. subst new_id.
    unfold validate_workspace_id_on_update.
    cbn [class_name workspace_id history]. rewrite Hin. reflexivity.
  - unfold validate_workspace_id_on_update, old_id_of.
    cbn [class_name workspace_id history committed_state deleted added has_changes].
    rewrite Hin, E. reflexivity.
Qed.

(** C1, as the claim states it, fails: an update that changes the
    tenant id of a scoped row is let through when the value committed
    before is null, as for a log row orphaned by the deletion of its
    workspace. *)
Lemma update_from_null_is_not_rejected :
  str_in (class_name log_row_reassigned) WORKSPACE_SCOPED_MODELS = true /\
  deleted (history log_row_reassigned) = [None] /\
  workspace_id log_row_reassigned = Some (Some 7) /\
  validate_workspace_id_on_update log_row_reassigned = Proceed.
Proof. repeat split. Qed.

(** The same holds when the old value was never loaded, whatever the
    store holds for the row. *)
Lemma update_of_unloaded_is_not_rejected :
  old_id_of dashboard_assigned_unloaded = None /\
  validate_workspace_id_on_update dashboard_assigned_unloaded = Proceed.
Proof. split; reflexivity. Qed.

(** C1 (amended).  For an instance of a workspace-scoped model the
    insert listener raises when [workspace_id] is absent or null, and
    the update listener raises when the attribute history has changes
    and the old value it works with (the first deleted value, else the
    committed-state entry) is an id different from the new value; an
    update whose old value is null or unknown passes.  Hence a row that
    passed the insert listener carries a tenant id, and updates flushed
    with the committed value in the history never change it. *)
Theorem workspace_id_write_once :
  forall target : Target,
    str_in (class_name target) WORKSPACE_SCOPED_MODELS = true ->
    (workspace_id target = None \/ workspace_id target = Some None ->
     validate_workspace_id_on_insert target =
     WorkspaceIsolationError (InsertWithoutWorkspace (class_name target))) /\
    (forall (old_id : Z) (new_id : option Z),
        has_changes (history target) = true ->
        old_id_of target = Some old_id ->
        workspace_id target = Some new_id ->
        new_id <> Some old_id ->
        validate_workspace_id_on_update target =
        WorkspaceIsolationError (WorkspaceChanged (class_name target) old_id new_id)) /\
    (old_id_of target = None -> workspace_id target <> None ->
     validate_workspace_id_on_update target = Proceed) /\
    (forall (committed : option Z) (news : list (option Z)),
        flush_insert target = Some committed ->
        (exists w, committed = Some w) /\
        flush_updates (class_name target) committed news = committed).
Proof.
  intros target Hin. split; [|split; [|split]].
  - unfold validate_workspace_id_on_insert. rewrite Hin.
    intros [-> | ->]; reflexivity.
  - intros old_id new_id Hch Hold Hnew Hne.
    unfold validate_workspace_id_on_update. rewrite Hin, Hnew, Hch, Hold.
    destruct (opt_Z_eqb (Some old_id) new_id) eqn:E; [|reflexivity].
    apply opt_Z_eqb_eq in E. congruence.
  - intros Hold Hattr. unfold validate_workspace_id_on_update. rewrite Hin, Hold.
    destruct (workspace_id target); [|contradiction].
    now destruct (has_changes _).
  - intros committed news Hflush.
    unfold flush_insert, validate_workspace_id_on_insert in Hflush.
    rewrite Hin in Hflush.
    destruct (workspace_id target) as [[w|]|]; try discriminate.
    injection Hflush as <-. split; [now exists w|].
    unfold flush_updates.
    induction news as [|n news IH]; [reflexivity|].
    cbn [fold_left]. now rewrite flush_update_keeps.
Qed.

Lemma workspace_id_write_once_witness :
  str_in (class_name chart_orphan) WORKSPACE_SCOPED_MODELS = true /\
  validate_workspace_id_on_insert chart_orphan =
  WorkspaceIsolationError (InsertWithoutWorkspace "Chart") /\
  validate_workspace_id_on_update chart_moved =
  WorkspaceIsolationError (WorkspaceChanged "Chart" 3 (Some 7)) /\
  flush_updates "Chart" (Some 3) [Some 7; None; Some 3; Some 4] = Some 3.
Proof.
  split; [reflexivity|]. split; [|split].
  - apply (proj1 (workspace_id_write_once chart_orphan eq_refl)).
    right. reflexivity.
  - apply (proj1 (proj2 (workspace_id_write_once chart_moved eq_refl)) 3 (Some 7));
      [reflexivity | reflexivity | reflexivity | discriminate].
  - apply (proj2 (proj2 (proj2 (workspace_id_write_once
             (mkTarget "Chart" (Some (Some 3)) (mkHistory [] [] []) []) eq_refl)))
             (Some 3) [Some 7; None; Some 3; Some 4]).
    reflexivity.
Defined.

(** ** Member removal and role change *)

(** C9.  Removing the creator of a workspace the store holds is always
    answered by an error, whoever asks, and the session, its membership
    table included, stays as it was. *)
Theorem remove_member_creator_rejected :
  forall (db : Session) (w creator : Z) (workspace : Workspace) (current_user : User),
    find_workspace w db = Some workspace ->
    ws_created_by workspace = creator ->
    exists e : HTTPException,
      remove_member w creator current_user db = (Raised e, db) /\
      workspace_members (snd (remove_member w creator current_user db)) =
      workspace_members db.
Proof.
  intros db w creator workspace current_user Hws Hcreator.
  unfold remove_member, bind, query, raise_if.
  destruct (is_workspace_admin db (Models.user_id current_user) w); cbn [negb].
  2:{ eexists. split; reflexivity. }
  cbn [ret].
  destruct (creator =? Models.user_id current_user).
  { eexists. split; reflexivity. }
  cbn [ret]. rewrite Hws, Hcreator, Z.eqb_refl.
  eexists. split; reflexivity.
Qed.

Lemma remove_member_creator_rejected_witness :
  find_workspace 1 sample_db = Some (mkWorkspace 1 "Acme" "acme" 1) /\
  exists e : HTTPException,
    remove_member 1 1 alice sample_db = (Raised e, sample_db) /\
    workspace_members (snd (remove_member 1 1 alice sample_db)) =
    workspace_members sample_db.
Proof.
  split; [reflexivity|].
  exact (remove_member_creator_rejected sample_db 1 1 (mkWorkspace 1 "Acme" "acme" 1)
           alice eq_refl eq_refl).
Defined.

(** The removal of another member by an admin does go through. *)
Example remove_member_other :
  remove_member 1 3 alice sample_db =
  (Returned tt, delete_member 1 3 sample_db).
Proof. reflexivity. Qed.

(** C6.  The role-change route answers a caller who may not change the
    role (an editor, or a user outside the workspace) with 403, and the
    connection permission dependency answers a caller without access
    with 403, where the sibling routes and the workspace permission
    dependency answer the same denial with 404. *)
Theorem denial_answered_with_forbidden :
  update_member_role 1 3 (Some "viewer") bob sample_db =
  (Raised (mkHTTPException 403 "Cannot modify this member's role"), sample_db) /\
  update_member_role 1 3 (Some "viewer") dave sample_db =
  (Raised (mkHTTPException 403 "Cannot modify this member's role"), sample_db) /\
  ConnectionPermissionChecker "editor" 10 carol sample_db =
  (Raised (mkHTTPException 403 "Insufficient permissions. Required: editor"), sample_db) /\
  remove_member 1 3 bob sample_db =
  (Raised (mkHTTPException 404 "Workspace not found"), sample_db) /\
  get_workspace 1 dave sample_db =
  (Raised (mkHTTPException 404 "Workspace not found"), sample_db) /\
  get_workspace 2 alice sample_db =
  (Raised (mkHTTPException 404 "Workspace not found"), sample_db) /\
  PermissionChecker "editor"
    (mkRequest "/api/dashboards" None None None (Some carol) (Some 1)) sample_db =
  (Raised (mkHTTPException 404 "Resource not found"), sample_db).
Proof. repeat split. Qed.

(** Whenever [can_modify_member_role] refuses a well-formed role, the
    route raises 403. *)
Lemma update_member_role_denied (db : Session) (w target : Z) (new_role : string)
      (current_user : User) :
  In new_role ["admin"; "editor"; "viewer"] ->
  can_modify_member_role db (Models.user_id current_user) target w new_role = false ->
  update_member_role w target (Some new_role) current_user db =
  (Raised (mkHTTPException HTTP_403_FORBIDDEN "Cannot modify this member's role"), db).
Proof.
  intros Hrole Hdeny.
  destruct Hrole as [<-|[<-|[<-|[]]]];
    unfold update_member_role, bind, query, raise_if;
    cbn [str_in existsb String.eqb Ascii.eqb Bool.eqb orb negb andb];
    rewrite Hdeny; reflexivity.
Qed.

(** ** Resolution of the workspace of a request *)

(** C8, as the claim states it, fails for the resolver the routes call:
    [get_workspace_id] does not read the path or the query parameter, so
    a request that names workspace 5 in its path is scoped to the user's
    default workspace 1; and a header that is not a number is answered
    with 400 although the user has a default workspace. *)
Lemma get_workspace_id_ignores_path :
  header_X_Workspace_ID request_path_only = None /\
  try_int decimal (path_workspace_id request_path_only) = Some 5 /\
  user_current_workspace_id bob = Some 1 /\
  get_workspace_id decimal request_path_only (Some bob) = Returned 1 /\
  get_workspace_id decimal request_bad_header (Some bob) =
  Raised (mkHTTPException 400 "Invalid workspace ID in header").
Proof. repeat split. Qed.

(** C8 (amended).  The middleware takes the first of header, path
    parameter and query parameter that is a non-empty text [int]
    accepts, else the user's default workspace, and answers 400 exactly
    when none of the three is such a text and the user has no default.
    The resolver of the routes, [get_workspace_id], takes the id left in
    the request state, else the header, else the user's default; it
    reads neither the path nor the query parameter, and it raises 400
    exactly when the state holds no id and either the header is a
    non-empty text [int] refuses, or the header is missing or empty and
    there is no default. *)
Theorem workspace_resolution_precedence :
  forall (int : string -> option Z) (db : Session) (request : Request) (user : User),
    let header := try_int int (header_X_Workspace_ID request) in
    let path := try_int int (path_workspace_id request) in
    let query := try_int int (query_workspace_id request) in
    (forall w, header = Some w -> _extract_workspace_id int request = Some w) /\
    (forall w, header = None -> path = Some w ->
               _extract_workspace_id int request = Some w) /\
    (forall w, header = None -> path = None -> query = Some w ->
               _extract_workspace_id int request = Some w) /\
    (header = None -> path = None -> query = None ->
     _extract_workspace_id int request = None) /\
    (_should_skip_validation request = false -> state_user request = Some user ->
     (forall w, dispatch int db request = CallNextScoped w ->
                _extract_workspace_id int request = Some w \/
                (_extract_workspace_id int request = None /\
                 user_current_workspace_id user = Some w)) /\
     (dispatch int db request =
      JSONResponse HTTP_400_BAD_REQUEST "No workspace context available" <->
      _extract_workspace_id int request = None /\
      user_current_workspace_id user = None)) /\
    (forall w, state_workspace_id request = Some w ->
               get_workspace_id int request (Some user) = Returned w) /\
    (forall h w, state_workspace_id request = None ->
                 header_X_Workspace_ID request = Some h -> h <> "" -> int h = Some w ->
                 get_workspace_id int request (Some user) = Returned w) /\
    (forall w, state_workspace_id request = None ->
               header_X_Workspace_ID request = None \/
               header_X_Workspace_ID request = Some "" ->
               user_current_workspace_id user = Some w ->
               get_workspace_id int request (Some user) = Returned w) /\
    ((exists e, get_workspace_id int request (Some user) = Raised e) <->
     state_workspace_id request = None /\
     ((exists h, header_X_Workspace_ID request = Some h /\ h <> "" /\ int h = None) \/
      ((header_X_Workspace_ID request = None \/ header_X_Workspace_ID request = Some "") /\
       user_current_workspace_id user = None))) /\
    (forall e, get_workspace_id int request (Some user) = Raised e ->
               status_code e = HTTP_400_BAD_REQUEST) /\
    (forall path_param query_param : option string,
        get_workspace_id int
          (mkRequest (url_path request) (header_X_Workspace_ID request)
                     path_param query_param
                     (state_user request) (state_workspace_id request))
          (Some user) =
        get_workspace_id int request (Some user)).
Proof.
  intros int db request user header path query. subst header path query.
  unfold _extract_workspace_id.
  split; [intros w ->; reflexivity|].
  split; [intros w -> ->; reflexivity|].
  split; [intros w -> -> ->; reflexivity|].
  split; [intros -> -> ->; reflexivity|].
  split.
  { intros Hskip Huser. unfold dispatch, _extract_workspace_id.
    rewrite Hskip, Huser.
    set (x := match try_int int (header_X_Workspace_ID request) with
              | Some w => Some w
              | None => _
              end).
    destruct x as [w0|]; cbn iota.
    - split.
      + intros w. destruct (negb _); [discriminate|]. intros [= <-]. now left.
      + split; [destruct (negb _); discriminate|]. intros [[=] _].
    - destruct (user_current_workspace_id user) as [w0|].
      + split.
        * intros w. destruct (negb _); [discriminate|]. intros [= <-]. now right.
        * split; [destruct (negb _); discriminate|]. intros [_ [=]].
      + split; [discriminate|]. split; auto. }
  unfold get_workspace_id.
  split; [intros w ->; reflexivity|].
  split.
  { intros h w -> -> Hne Hint. destruct h; [congruence|]. now rewrite Hint. }
  split.
  { intros w -> [-> | ->] ->; reflexivity. }
  split.
  - split.
    + intros [e He]. destruct (state_workspace_id request) as [w|]; [discriminate|].
      split; [reflexivity|].
      destruct (header_X_Workspace_ID request) as [[|c h]|].
      * right. split; [now right|].
        destruct (user_current_workspace_id user); [discriminate|reflexivity].
      * destruct (int (String c h)) eqn:Hint; [discriminate|].
        left. exists (String c h). repeat split; [discriminate|exact Hint].
      * right. split; [now left|].
        destruct (user_current_workspace_id user); [discriminate|reflexivity].
    + intros [-> [(h & -> & Hne & Hint)|[[-> | ->] ->]]].
      * destruct h; [congruence|]. rewrite Hint. eexists; reflexivity.
      * eexists; reflexivity.
      * eexists; reflexivity.
  - split; [|reflexivity]. intros e.
    destruct (state_workspace_id request) as [w|]; [discriminate|].
    destruct (header_X_Workspace_ID request) as [[|c h]|].
    + destruct (user_current_workspace_id user); [discriminate|]. now intros [= <-].
    + destruct (int (String c h)); [discriminate|]. now intros [= <-].
    + destruct (user_current_workspace_id user); [discriminate|]. now intros [= <-].
Qed.

Lemma workspace_resolution_precedence_witness :
  _should_skip_validation
    (mkRequest "/api/dashboards" (Some "x") (Some "5") (Some "6") (Some bob) None) = false /\
  _extract_workspace_id decimal
    (mkRequest "/api/dashboards" (Some "x") (Some "5") (Some "6") (Some bob) None) = Some 5 /\
  get_workspace_id decimal
    (mkRequest "/api/dashboards" (Some "12") (Some "5") None None None) (Some bob) =
  Returned 12 /\
  get_workspace_id decimal request_path_only (Some bob) = Returned 1.
Proof.
  split; [reflexivity|]. split; [|split].
  - apply (proj1 (proj2 (workspace_resolution_precedence decimal sample_db
             (mkRequest "/api/dashboards" (Some "x") (Some "5") (Some "6") (Some bob) None)
             bob)) 5); reflexivity.
  - apply (proj1 (proj2 (proj2 (proj2 (proj2 (proj2 (proj2
             (workspace_resolution_precedence decimal sample_db
                (mkRequest "/api/dashboards" (Some "12") (Some "5") None None None)
                bob))))))) "12" 12); [reflexivity|reflexivity|discriminate|reflexivity].
  - apply (proj1 (proj2 (proj2 (proj2 (proj2 (proj2 (proj2 (proj2
             (workspace_resolution_precedence decimal sample_db request_path_only
                bob)))))))) 1); [reflexivity|now left|reflexivity].
Defined.

(** ** The invitation protocol *)

Lemma lower_ascii_idempotent (c : ascii) : lower_ascii (lower_ascii c) = lower_ascii c.
Proof.
  destruct c as [[] [] [] [] [] [] [] []]; reflexivity.
Qed.

Lemma ascii_lower_idempotent (s : string) : ascii_lower (ascii_lower s) = ascii_lower s.
Proof.
  induction s as [|c s IH]; [reflexivity|].
  cbn [ascii_lower]. now rewrite lower_ascii_idempotent, IH.
Qed.

Lemma verify_sign (payload : Payload) (key : string) (now : Z) :
  p_iat payload <= now < p_exp payload ->
  verify (sign payload key) key now = Decoded payload.
Proof.
  intros [Hiat Hexp]. unfold verify, sign.
  rewrite String.eqb_refl. cbn [negb].
  destruct (Z.leb_spec (p_exp payload) now); [lia|].
  destruct (Z.ltb_spec now (p_iat payload)); [lia|reflexivity].
Qed.

Lemma str_in_valid_roles (r : string) :
  In r ["admin"; "editor"; "viewer"] ->
  str_in r ["admin"; "editor"; "viewer"] = true.
Proof.
  intros [<-|[<-|[<-|[]]]]; reflexivity.
Qed.

Lemma check_existing_membership_false (db : Session) (u w : Z) :
  (forall m, ~ membership db w u m) -> check_existing_membership db u w = false.
Proof.
  intros Hno. unfold check_existing_membership.
  destruct (find _ _) as [m|] eqn:Hf; [|reflexivity].
  exfalso. apply (Hno m). unfold membership. now apply find_member_in.
Qed.

Lemma filter_no_membership (db : Session) (u w : Z) :
  (forall m, ~ membership db w u m) ->
  filter (fun m => (wm_workspace_id m =? w) && (wm_user_id m =? u)) (workspace_members db)
  = [].
Proof.
  intros Hno. unfold membership in Hno.
  induction (workspace_members db) as [|a rest IH]; [reflexivity|].
  cbn [filter].
  destruct ((wm_workspace_id a =? w) && (wm_user_id a =? u)) eqn:Hk.
  - apply andb_true_iff in Hk as [Hw Hu]. apply Z.eqb_eq in Hw, Hu.
    exfalso. apply (Hno a). split; [now left|auto].
  - apply IH. intros m (Hin & Hm). apply (Hno m). split; [now right|exact Hm].
Qed.

(** C7.  With the signing key configured, for a workspace the store
    holds, a role among admin, editor and viewer, and an accepting user
    whose email equals the invited one up to case and who has no
    membership row in the workspace: [create_invitation_token] produces
    a token, and accepting it at a time from its issue up to, but not
    including, seven days later returns the workspace's data and the
    encoded role, and adds to the membership table one row, the only one
    of the pair, with that role and the inviter as [invited_by].  The
    signing scheme is any whose decoding returns the claims it signed
    while the clock is between [iat] and [exp]; [lower] is idempotent. *)
Theorem invitation_round_trip :
  forall (lower : string -> string) (Token : Type)
         (jwt_encode : Payload -> string -> Token)
         (jwt_decode : Token -> string -> Z -> jwt_result),
    (forall s, lower (lower s) = lower s) ->
    (forall payload key now,
        p_iat payload <= now < p_exp payload ->
        jwt_decode (jwt_encode payload key) key now = Decoded payload) ->
    forall (db : Session) (key : string) (W : Z) (workspace : Workspace)
           (invited_email user_email r : string) (i u issued now : Z),
      find_workspace W db = Some workspace ->
      In r ["admin"; "editor"; "viewer"] ->
      lower invited_email = lower user_email ->
      (forall m, ~ membership db W u m) ->
      issued <= now < issued + days 7 ->
      exists token : Token,
        create_invitation_token lower jwt_encode (Some key) issued W invited_email r i
        = inl token /\
        let member := mkWorkspaceMember W u r (Some i) now in
        accept_invitation lower jwt_decode (Some key) now token u user_email db =
        (Returned (mkAcceptance W (ws_name workspace) (ws_slug workspace) r now),
         add_member member db) /\
        workspace_members (add_member member db) = (workspace_members db ++ [member])%list /\
        filter (fun m => (wm_workspace_id m =? W) && (wm_user_id m =? u))
               (workspace_members (add_member member db)) = [member].
Proof.
  intros lower Token jwt_encode jwt_decode Hlower Hjwt
         db key W workspace invited_email user_email r i u issued now
         Hws Hr Hemail Hnew Htime.
  unfold create_invitation_token. rewrite (str_in_valid_roles r Hr). cbn [negb].
  eexists. split; [reflexivity|]. cbn zeta.
  split; [|split].
  - unfold accept_invitation, validate_invitation_token, decode_invitation_token.
    rewrite Hjwt by (cbn [p_iat p_exp]; unfold INVITATION_TOKEN_EXPIRE_DAYS; lia).
    cbn [p_type p_workspace_id p_email p_role p_invited_by].
    rewrite Hlower, Hemail, String.eqb_refl. cbn [negb].
    unfold bind, ret, query, raise_if, commit.
    cbn [inv_workspace_id inv_role inv_invited_by].
    rewrite (check_existing_membership_false db u W Hnew).
    unfold find_workspace in Hws. unfold ret. cbv beta iota.
    rewrite Hws. reflexivity.
  - reflexivity.
  - cbn [add_member workspace_members]. rewrite filter_app.
    rewrite (filter_no_membership db u W Hnew).
    cbn [filter wm_workspace_id wm_user_id app]. now rewrite !Z.eqb_refl.
Qed.

Lemma invitation_round_trip_witness :
  find_workspace 1 sample_db = Some (mkWorkspace 1 "Acme" "acme" 1) /\
  ascii_lower "Dave@Test.com" = ascii_lower "dave@test.com" /\
  exists token : signed,
    create_invitation_token ascii_lower sign (Some "secret") 1000 1 "Dave@Test.com" "editor" 1
    = inl token /\
    accept_invitation ascii_lower verify (Some "secret") 5000 token 4 "dave@test.com" sample_db
    = (Returned (mkAcceptance 1 "Acme" "acme" "editor" 5000),
       add_member (mkWorkspaceMember 1 4 "editor" (Some 1) 5000) sample_db).
Proof.
  split; [reflexivity|]. split; [reflexivity|].
  destruct (invitation_round_trip ascii_lower signed sign verify
              ascii_lower_idempotent verify_sign
              sample_db "secret" 1 (mkWorkspace 1 "Acme" "acme" 1)
              "Dave@Test.com" "dave@test.com" "editor" 1 4 1000 5000)
    as (token & Hcreate & Haccept & _).
  - reflexivity.
  - right; left; reflexivity.
  - reflexivity.
  - intros m (Hin & Hw & Hu).
    destruct Hin as [<-|[<-|[<-|[]]]]; discriminate.
  - unfold days. lia.
  - exists token. split; [exact Hcreate|exact Haccept].
Defined.

(** Past the seventh day, with another key, for another address or for
    a member, the same token is refused. *)
Example invitation_refusals :
  accept_invitation ascii_lower verify (Some "secret") (1000 + days 7)
    (sign (mkPayload (Some "workspace_invitation") (Some 1) (Some "dave@test.com")
                     (Some "editor") (Some 1) 1000 (1000 + days 7)) "secret")
    4 "dave@test.com" sample_db =
  (Raised (mkHTTPException 400 "Invitation link has expired"), sample_db) /\
  accept_invitation ascii_lower verify (Some "other") 5000
    (sign (mkPayload (Some "workspace_invitation") (Some 1) (Some "dave@test.com")
                     (Some "editor") (Some 1) 1000 (1000 + days 7)) "secret")
    4 "dave@test.com" sample_db =
  (Raised (mkHTTPException 400 "Invalid invitation link"), sample_db) /\
  accept_invitation ascii_lower verify (Some "secret") 5000
    (sign (mkPayload (Some "workspace_invitation") (Some 1) (Some "dave@test.com")
                     (Some "editor") (Some 1) 1000 (1000 + days 7)) "secret")
    3 "carol@test.com" sample_db =
  (Raised (mkHTTPException 400 "This invitation is for a different email address"),
   sample_db) /\
  accept_invitation ascii_lower verify (Some "secret") 5000
    (sign (mkPayload (Some "workspace_invitation") (Some 1) (Some "carol@test.com")
                     (Some "viewer") (Some 1) 1000 (1000 + days 7)) "secret")
    3 "carol@test.com" sample_db =
  (Raised (mkHTTPException 400 "You are already a member of this workspace"), sample_db).
Proof. repeat split. Qed.

(** * Further properties of the permission layer *)

(** ** Granting and revoking connection permissions *)

Lemma find_snoc {A : Type} (f : A -> bool) (l : list A) (x : A) :
  find f (l ++ [x]) =
  match find f l with
  | Some y => Some y
  | None => if f x then Some x else None
  end.
Proof.
  induction l as [|a l IH]; cbn [app find]; [reflexivity|].
  destruct (f a); [reflexivity|exact IH].
Qed.

Lemma find_update_first_same (c u : Z) (level : string) (by_ : Z)
      (ps : list ConnectionPermission) (existing : ConnectionPermission) :
  find (fun p => (cp_connection_id p =? c) && (cp_user_id p =? u)) ps = Some existing ->
  find (fun p => (cp_connection_id p =? c) && (cp_user_id p =? u))
       (update_first_permission c u level by_ ps) =
  Some (mkConnectionPermission (cp_connection_id existing) (cp_user_id existing) level by_).
Proof.
  induction ps as [|a rest IH]; cbn [find update_first_permission]; [discriminate|].
  destruct ((cp_connection_id a =? c) && (cp_user_id a =? u)) eqn:Hk.
  - intros [= <-]. cbn [find cp_connection_id cp_user_id]. now rewrite Hk.
  - intros H. cbn [find]. rewrite Hk. now apply IH.
Qed.

Lemma find_update_first_other (c u c' u' : Z) (level : string) (by_ : Z)
      (ps : list ConnectionPermission) :
  (c', u') <> (c, u) ->
  find (fun p => (cp_connection_id p =? c') && (cp_user_id p =? u'))
       (update_first_permission c u level by_ ps) =
  find (fun p => (cp_connection_id p =? c') && (cp_user_id p =? u')) ps.
Proof.
  intros Hne.
  induction ps as [|a rest IH]; cbn [find update_first_permission]; [reflexivity|].
  destruct ((cp_connection_id a =? c) && (cp_user_id a =? u)) eqn:Hk.
  - cbn [find cp_connection_id cp_user_id].
    apply andb_true_iff in Hk as [Hc Hu]. apply Z.eqb_eq in Hc, Hu.
    destruct ((cp_connection_id a =? c') && (cp_user_id a =? u')) eqn:Hk'; [|reflexivity].
    apply andb_true_iff in Hk' as [Hc' Hu']. apply Z.eqb_eq in Hc', Hu'.
    exfalso. apply Hne. congruence.
  - cbn [find]. now rewrite IH.
Qed.

Lemma find_delete_first_other (c u c' u' : Z) (ps : list ConnectionPermission) :
  (c', u') <> (c, u) ->
  find (fun p => (cp_connection_id p =? c') && (cp_user_id p =? u'))
       (delete_first_permission c u ps) =
  find (fun p => (cp_connection_id p =? c') && (cp_user_id p =? u')) ps.
Proof.
  intros Hne.
  induction ps as [|a rest IH]; cbn [find delete_first_permission]; [reflexivity|].
  destruct ((cp_connection_id a =? c) && (cp_user_id a =? u)) eqn:Hk.
  - apply andb_true_iff in Hk as [Hc Hu]. apply Z.eqb_eq in Hc, Hu.
    destruct ((cp_connection_id a =? c') && (cp_user_id a =? u')) eqn:Hk'; [|reflexivity].
    apply andb_true_iff in Hk' as [Hc' Hu']. apply Z.eqb_eq in Hc', Hu'.
    exfalso. apply Hne. congruence.
  - cbn [find]. now rewrite IH.
Qed.

Lemma existsb_same_update_first (q : ConnectionPermission) (c u : Z) (level : string)
      (by_ : Z) (ps : list ConnectionPermission) :
  existsb (same_connection_user q) (update_first_permission c u level by_ ps) =
  existsb (same_connection_user q) ps.
Proof.
  induction ps as [|a rest IH]; cbn [existsb update_first_permission]; [reflexivity|].
  destruct ((cp_connection_id a =? c) && (cp_user_id a =? u)).
  - reflexivity.
  - cbn [existsb]. now rewrite IH.
Qed.

Lemma unique_update_first (c u : Z) (level : string) (by_ : Z)
      (ps : list ConnectionPermission) :
  unique_connection_user ps = true ->
  unique_connection_user (update_first_permission c u level by_ ps) = true.
Proof.
  induction ps as [|a rest IH]; cbn [unique_connection_user update_first_permission];
    [reflexivity|].
  intros H. apply andb_true_iff in H as [Hfresh Huq].
  destruct ((cp_connection_id a =? c) && (cp_user_id a =? u)).
  - cbn [unique_connection_user]. apply andb_true_iff. split; [exact Hfresh|exact Huq].
  - cbn [unique_connection_user]. rewrite existsb_same_update_first.
    apply andb_true_iff. split; [exact Hfresh|now apply IH].
Qed.

Lemma existsb_same_none (q : ConnectionPermission) (ps : list ConnectionPermission) :
  find (fun p => (cp_connection_id p =? cp_connection_id q)
                 && (cp_user_id p =? cp_user_id q)) ps = None ->
  existsb (same_connection_user q) ps = false.
Proof.
  intros Hf. destruct (existsb _ ps) eqn:E; [|reflexivity].
  apply existsb_exists in E as (p & Hin & Hs).
  pose proof (find_none _ _ Hf p Hin) as Hk. cbv beta in Hk.
  unfold same_connection_user in Hs.
  apply andb_true_iff in Hs as [Hc Hu]. apply Z.eqb_eq in Hc, Hu.
  rewrite <- Hc, <- Hu, !Z.eqb_refl in Hk. discriminate.
Qed.

Lemma unique_snoc (ps : list ConnectionPermission) (q : ConnectionPermission) :
  unique_connection_user ps = true ->
  find (fun p => (cp_connection_id p =? cp_connection_id q)
                 && (cp_user_id p =? cp_user_id q)) ps = None ->
  unique_connection_user (ps ++ [q]) = true.
Proof.
  induction ps as [|a rest IH]; cbn [app unique_connection_user find]; [reflexivity|].
  intros H Hf. apply andb_true_iff in H as [Hfresh Huq].
  destruct ((cp_connection_id a =? cp_connection_id q)
            && (cp_user_id a =? cp_user_id q)) eqn:Hk; [discriminate|].
  apply andb_true_iff. split; [|now apply IH].
  rewrite existsb_app. cbn [existsb]. apply negb_true_iff in Hfresh.
  rewrite Hfresh. unfold same_connection_user. rewrite Hk. reflexivity.
Qed.

Lemma existsb_same_delete_first (q : ConnectionPermission) (c u : Z)
      (ps : list ConnectionPermission) :
  existsb (same_connection_user q) ps = false ->
  existsb (same_connection_user q) (delete_first_permission c u ps) = false.
Proof.
  induction ps as [|a rest IH]; cbn [existsb delete_first_permission]; [reflexivity|].
  intros H. apply orb_false_iff in H as [Ha Hrest].
  destruct ((cp_connection_id a =? c) && (cp_user_id a =? u)); [exact Hrest|].
  cbn [existsb]. rewrite Ha. now apply IH.
Qed.

Lemma unique_delete_first (c u : Z) (ps : list ConnectionPermission) :
  unique_connection_user ps = true ->
  unique_connection_user (delete_first_permission c u ps) = true.
Proof.
  induction ps as [|a rest IH]; cbn [unique_connection_user delete_first_permission];
    [reflexivity|].
  intros H. apply andb_true_iff in H as [Hfresh Huq].
  destruct ((cp_connection_id a =? c) && (cp_user_id a =? u)); [exact Huq|].
  cbn [unique_connection_user]. apply andb_true_iff. split; [|now apply IH].
  apply negb_true_iff. apply existsb_same_delete_first. now apply negb_true_iff.
Qed.

Lemma find_delete_first_same (c u : Z) (ps : list ConnectionPermission) :
  unique_connection_user ps = true ->
  find (fun p => (cp_connection_id p =? c) && (cp_user_id p =? u))
       (delete_first_permission c u ps) = None.
Proof.
  induction ps as [|a rest IH]; cbn [unique_connection_user delete_first_permission];
    [reflexivity|].
  intros H. apply andb_true_iff in H as [Hfresh Huq].
  destruct ((cp_connection_id a =? c) && (cp_user_id a =? u)) eqn:Hk.
  - apply andb_true_iff in Hk as [Hc Hu]. apply Z.eqb_eq in Hc, Hu.
    apply negb_true_iff in Hfresh.
    destruct (find _ rest) as [p|] eqn:Hf; [|reflexivity].
    apply find_grant_in in Hf as (Hin & Hpc & Hpu).
    assert (existsb (same_connection_user a) rest = true) as Hex.
    { apply existsb_exists. exists p. split; [exact Hin|].
      unfold same_connection_user. rewrite Hc, Hu, Hpc, Hpu, !Z.eqb_refl. reflexivity. }
    congruence.
  - cbn [find]. rewrite Hk. now apply IH.
Qed.

Lemma valid_levels_update_first (c u : Z) (level : string) (by_ : Z)
      (ps : list ConnectionPermission) :
  valid_permission_level level = true ->
  valid_permission_levels ps = true ->
  valid_permission_levels (update_first_permission c u level by_ ps) = true.
Proof.
  intros Hl. unfold valid_permission_levels.
  induction ps as [|a rest IH]; cbn [forallb update_first_permission]; [reflexivity|].
  intros H. apply andb_true_iff in H as [Ha Hrest].
  destruct ((cp_connection_id a =? c) && (cp_user_id a =? u)).
  - cbn [forallb cp_permission_level]. now rewrite Hl, Hrest.
  - cbn [forallb]. rewrite Ha. now apply IH.
Qed.

Lemma find_pred_ext {A : Type} (f g : A -> bool) (l : list A) :
  (forall x, f x = g x) -> find f l = find g l.
Proof.
  intros H. induction l as [|a l IH]; cbn [find]; [reflexivity|].
  now rewrite H, IH.
Qed.

(** The routes write the pair's test workspace first. *)
Lemma find_member_order (ms : list WorkspaceMember) (w u : Z) :
  find (fun m => (wm_workspace_id m =? w) && (wm_user_id m =? u)) ms =
  find (fun m => (wm_user_id m =? u) && (wm_workspace_id m =? w)) ms.
Proof. apply find_pred_ext. intros m. apply andb_comm. Qed.

Lemma find_member_ws_iff (db : Session) (w u : Z) :
  (exists m, find (fun m => (wm_workspace_id m =? w) && (wm_user_id m =? u))
                  (workspace_members db) = Some m) <->
  (exists m, membership db w u m).
Proof.
  rewrite find_member_order. split.
  - intros (m & Hf). exists m. now apply find_member_in.
  - intros (m & Hm).
    destruct (find _ _) as [m'|] eqn:Hf; [now exists m'|].
    exfalso. destruct Hm as (Hin & Hk). exact (find_member_none _ _ _ Hf m Hin Hk).
Qed.

Lemma find_user_iff (db : Session) (u : Z) :
  (exists usr, find (fun x => Models.user_id x =? u) (users db) = Some usr) <->
  (exists usr, In usr (users db) /\ Models.user_id usr = u).
Proof.
  split.
  - intros (usr & Hf). apply find_some in Hf as [Hin Hk].
    exists usr. split; [exact Hin|now apply Z.eqb_eq].
  - intros (usr & Hin & Hid).
    destruct (find _ _) as [usr'|] eqn:Hf; [now exists usr'|].
    pose proof (find_none _ _ Hf usr Hin) as Hk. cbv beta in Hk.
    rewrite Hid, Z.eqb_refl in Hk. discriminate.
Qed.

(** X1.  [grant_connection_permission] writes a row exactly when the
    connection exists, the grantee is a user, the grantee is a member of
    the connection's workspace and the level is one the check constraint
    admits; in every other case the session is left as it was. *)
Theorem grant_connection_permission_succeeds_iff :
  forall (db : Session) (c u : Z) (level : string) (granted_by : Z),
    ((exists p db', grant_connection_permission db c u level granted_by = (Granted p, db'))
     <->
     (exists conn,
         get_connection db c = Some conn /\
         (exists usr, In usr (users db) /\ Models.user_id usr = u) /\
         (exists m, membership db (conn_workspace_id conn) u m) /\
         valid_permission_level level = true)) /\
    (forall outcome db',
        grant_connection_permission db c u level granted_by = (outcome, db') ->
        (forall p, outcome <> Granted p) -> db' = db).
Proof.
  intros db c u level granted_by. unfold grant_connection_permission.
  pose proof (find_user_iff db u) as Huser.
  destruct (get_connection db c) as [conn|].
  2:{ split.
      - split; [intros (p & db' & [=])|intros (conn & [=] & _)].
      - intros outcome db' [= <- <-] _. reflexivity. }
  pose proof (find_member_ws_iff db (conn_workspace_id conn) u) as Hmem.
  destruct (find (fun u0 => Models.user_id u0 =? u) (users db)) as [usr|].
  2:{ split.
      - split; [intros (p & db' & [=])|].
        intros (conn' & _ & Hu & _). apply Huser in Hu as (x & [=]).
      - intros outcome db' [= <- <-] _. reflexivity. }
  destruct (find _ (workspace_members db)) as [m|].
  2:{ split.
      - split; [intros (p & db' & [=])|].
        intros (conn' & [= <-] & _ & Hm & _). apply Hmem in Hm as (x & [=]).
      - intros outcome db' [= <- <-] _. reflexivity. }
  destruct (valid_permission_level level) eqn:Hv.
  - split.
    + split.
      * intros _. exists conn. split; [reflexivity|].
        split; [apply Huser; now exists usr|].
        split; [apply Hmem; now exists m|reflexivity].
      * intros _. destruct (find _ (connection_permissions db)); eexists; eexists; reflexivity.
    + intros outcome db' H Hno. exfalso.
      destruct (find _ (connection_permissions db)); injection H as <- <-;
        eapply Hno; reflexivity.
  - split.
    + split.
      * intros (p & db' & H). destruct (find _ (connection_permissions db)); discriminate.
      * intros (conn' & _ & _ & _ & [=]).
    + intros outcome db' H _.
      destruct (find _ (connection_permissions db)); now injection H as <- <-.
Qed.

Lemma grant_connection_permission_succeeds_iff_witness :
  (exists p db', grant_connection_permission sample_db 10 1 "editor" 2 = (Granted p, db')) /\
  grant_connection_permission sample_db 10 4 "editor" 2 =
  (GrantRefused (mkHTTPException 400 "User is not a member of this workspace"), sample_db).
Proof.
  split; [|reflexivity].
  apply (proj1 (grant_connection_permission_succeeds_iff sample_db 10 1 "editor" 2)).
  exists (mkConnection 10 "warehouse" 1 2). split; [reflexivity|].
  split; [exists alice; split; [left; reflexivity|reflexivity]|].
  split; [|reflexivity].
  exists (mkWorkspaceMember 1 1 "admin" (Some 1) 0).
  split; [left; reflexivity|split; reflexivity].
Defined.

(** The lookup after a grant, and the tables a grant does not touch. *)
Lemma grant_granted_lookup (db db' : Session) (c u : Z) (level : string) (granted_by : Z)
      (p : ConnectionPermission) :
  grant_connection_permission db c u level granted_by = (Granted p, db') ->
  get_user_connection_permission db' u c = Some level /\
  workspace_members db' = workspace_members db /\
  connections db' = connections db.
Proof.
  unfold grant_connection_permission.
  destruct (get_connection db c) as [conn|]; [|discriminate].
  destruct (find _ (users db)); [|discriminate].
  destruct (find _ (workspace_members db)); [|discriminate].
  destruct (valid_permission_level level).
  2:{ destruct (find _ (connection_permissions db)); discriminate. }
  unfold get_user_connection_permission.
  destruct (find _ (connection_permissions db)) as [existing|] eqn:Hf;
    intros [= <- <-]; cbn [with_permissions connection_permissions
                            workspace_members connections].
  - now rewrite (find_update_first_same _ _ level granted_by _ _ Hf).
  - rewrite find_snoc, Hf. cbn [cp_connection_id cp_user_id].
    now rewrite !Z.eqb_refl.
Qed.

(** X2.  After a grant the lookup of the pair returns the granted
    level.  The lookups of all other pairs, and the users, workspaces,
    memberships and connections, are as before; the permission table
    stays unique per connection and user and within the check
    constraint. *)
Theorem grant_then_lookup :
  forall (db db' : Session) (c u : Z) (level : string) (granted_by : Z)
         (p : ConnectionPermission),
    grant_connection_permission db c u level granted_by = (Granted p, db') ->
    get_user_connection_permission db' u c = Some level /\
    (cp_permission_level p = level /\ cp_granted_by p = granted_by /\
     cp_connection_id p = c /\ cp_user_id p = u) /\
    (forall c' u', (c', u') <> (c, u) ->
                   get_user_connection_permission db' u' c' =
                   get_user_connection_permission db u' c') /\
    (users db' = users db /\ workspaces db' = workspaces db /\
     workspace_members db' = workspace_members db /\ connections db' = connections db) /\
    (unique_connection_user (connection_permissions db) = true ->
     unique_connection_user (connection_permissions db') = true) /\
    (valid_permission_levels (connection_permissions db) = true ->
     valid_permission_levels (connection_permissions db') = true).
Proof.
  intros db db' c u level granted_by p. unfold grant_connection_permission.
  destruct (get_connection db c) as [conn|]; [|discriminate].
  destruct (find _ (users db)); [|discriminate].
  destruct (find _ (workspace_members db)); [|discriminate].
  destruct (valid_permission_level level) eqn:Hv.
  2:{ destruct (find _ (connection_permissions db)); discriminate. }
  unfold get_user_connection_permission.
  destruct (find _ (connection_permissions db)) as [existing|] eqn:Hf;
    intros [= <- <-]; cbn [with_permissions connection_permissions users workspaces
                            workspace_members connections cp_permission_level
                            cp_granted_by cp_connection_id cp_user_id].
  - pose proof (find_grant_in _ _ _ _ Hf) as (_ & Hc & Hu).
    split; [now rewrite (find_update_first_same _ _ level granted_by _ _ Hf)|].
    split; [auto|].
    split; [intros c' u' Hne; now rewrite find_update_first_other|].
    split; [auto|].
    split; [apply unique_update_first|now apply valid_levels_update_first].
  - split.
    { rewrite find_snoc, Hf. cbn [cp_connection_id cp_user_id].
      now rewrite !Z.eqb_refl. }
    split; [auto|].
    split.
    { intros c' u' Hne. rewrite find_snoc.
      destruct (find (fun q => (cp_connection_id q =? c') && (cp_user_id q =? u'))
                     (connection_permissions db)); [reflexivity|].
      cbn [cp_connection_id cp_user_id].
      destruct (Z.eqb_spec c c'); destruct (Z.eqb_spec u u'); try reflexivity.
      exfalso. apply Hne. congruence. }
    split; [auto|].
    split.
    + intros Huq. apply unique_snoc; [exact Huq|exact Hf].
    + unfold valid_permission_levels. intros Hall.
      rewrite forallb_app, Hall. cbn [forallb cp_permission_level]. now rewrite Hv.
Qed.

Lemma grant_then_lookup_witness :
  get_user_connection_permission
    (snd (grant_connection_permission sample_db 10 3 "editor" 1)) 3 10 = Some "editor" /\
  get_user_connection_permission
    (snd (grant_connection_permission sample_db 10 1 "owner" 2)) 1 10 = Some "owner".
Proof.
  split.
  - exact (proj1 (grant_then_lookup sample_db _ 10 3 "editor" 1 _ eq_refl)).
  - exact (proj1 (grant_then_lookup sample_db _ 10 1 "owner" 2 _ eq_refl)).
Defined.

(** A grant is only written at a level the check constraint admits. *)
Lemma grant_granted_valid (db db' : Session) (c u : Z) (level : string) (granted_by : Z)
      (p : ConnectionPermission) :
  grant_connection_permission db c u level granted_by = (Granted p, db') ->
  valid_permission_level level = true.
Proof.
  unfold grant_connection_permission.
  destruct (get_connection db c); [|discriminate].
  destruct (find _ (users db)); [|discriminate].
  destruct (find _ (workspace_members db)); [|discriminate].
  destruct (valid_permission_level level); [reflexivity|].
  destruct (find _ (connection_permissions db)); discriminate.
Qed.

Lemma valid_permission_level_in (level : string) :
  valid_permission_level level = true <-> In level ["owner"; "editor"; "viewer"].
Proof.
  unfold valid_permission_level, str_in. rewrite existsb_exists. split.
  - intros (x & Hin & E). apply String.eqb_eq in E. now subst.
  - intros Hin. exists level. split; [exact Hin|apply String.eqb_refl].
Qed.

(** [check_connection_access] for a user who is neither the creator
    nor an admin: the explicit row decides. *)
Lemma check_connection_access_explicit (db : Session) (u c : Z) (r : string)
      (conn : Connection) :
  get_connection db c = Some conn ->
  conn_created_by conn <> u ->
  get_user_role db u (conn_workspace_id conn) <> Some "admin" ->
  check_connection_access db u c r =
  match get_user_connection_permission db u c with
  | None => false
  | Some l => if String.eqb l "" then false else permission_level l >=? permission_level r
  end.
Proof.
  intros Hconn Hc Hrole. unfold check_connection_access. rewrite Hconn.
  apply Z.eqb_neq in Hc. rewrite Hc.
  destruct (get_user_role db u (conn_workspace_id conn)) as [held|]; cbn [role_is].
  - destruct (String.eqb_spec held "admin") as [->|_]; [congruence|reflexivity].
  - reflexivity.
Qed.

(** X3.  A grant gives the grantee access at every level up to the
    granted one, and, when the grantee is neither the connection's
    creator nor an admin of its workspace, at no level above it. *)
Theorem grant_then_access :
  forall (db db' : Session) (c u : Z) (level r : string) (granted_by : Z)
         (p : ConnectionPermission) (conn : Connection),
    grant_connection_permission db c u level granted_by = (Granted p, db') ->
    get_connection db c = Some conn ->
    In r ["owner"; "editor"; "viewer"] ->
    (permission_level r <= permission_level level ->
     check_connection_access db' u c r = true) /\
    (conn_created_by conn <> u ->
     get_user_role db u (conn_workspace_id conn) <> Some "admin" ->
     (check_connection_access db' u c r = true <->
      permission_level r <= permission_level level)).
Proof.
  intros db db' c u level r granted_by p conn Hgrant Hconn Hr.
  pose proof (grant_granted_valid _ _ _ _ _ _ _ Hgrant) as Hv.
  destruct (grant_granted_lookup _ _ _ _ _ _ _ Hgrant) as (Hlook & Hmem & Hconns).
  assert (get_connection db' c = Some conn) as Hconn'
      by (unfold get_connection in *; now rewrite Hconns).
  assert (forall w, get_user_role db' u w = get_user_role db u w) as Hrole'
      by (intros w; unfold get_user_role; now rewrite Hmem).
  assert (String.eqb level "" = false) as Hne.
  { apply valid_permission_level_in in Hv.
    destruct Hv as [<-|[<-|[<-|[]]]]; reflexivity. }
  assert (conn_created_by conn <> u ->
          get_user_role db u (conn_workspace_id conn) <> Some "admin" ->
          (check_connection_access db' u c r = true <->
           permission_level r <= permission_level level)) as Hiff.
  { intros Hc Hna.
    rewrite (check_connection_access_explicit db' u c r conn Hconn' Hc)
      by (now rewrite Hrole').
    rewrite Hlook, Hne, Z.geb_leb. apply Z.leb_le. }
  split; [|exact Hiff].
  intros Hle.
  destruct (Z.eq_dec (conn_created_by conn) u) as [Hc|Hc].
  { unfold check_connection_access. rewrite Hconn'.
    apply Z.eqb_eq in Hc. now rewrite Hc. }
  destruct (get_user_role db u (conn_workspace_id conn)) as [held|] eqn:Hheld.
  - destruct (String.eqb_spec held "admin") as [->|Hna].
    + unfold check_connection_access. rewrite Hconn', Hrole', Hheld.
      apply Z.eqb_neq in Hc. now rewrite Hc.
    + apply Hiff; [exact Hc|congruence|exact Hle].
  - apply Hiff; [exact Hc|discriminate|exact Hle].
Qed.

Lemma grant_then_access_witness :
  check_connection_access
    (snd (grant_connection_permission sample_db 10 3 "editor" 1)) 3 10 "editor" = true /\
  check_connection_access
    (snd (grant_connection_permission sample_db 10 3 "editor" 1)) 3 10 "owner" = false.
Proof.
  pose proof (grant_then_access sample_db _ 10 3 "editor" "editor" 1 _
                (mkConnection 10 "warehouse" 1 2) eq_refl eq_refl
                (or_intror (or_introl eq_refl))) as (Hyes & _).
  split; [apply Hyes; vm_compute; discriminate|reflexivity].
Defined.

(** What a revocation leaves behind. *)
Lemma revoke_effect (db : Session) (c u : Z) :
  let result := revoke_connection_permission db c u in
  (fst result = true <-> exists p, grant db c u p) /\
  (fst result = false -> snd result = db) /\
  (forall c' u', (c', u') <> (c, u) ->
                 get_user_connection_permission (snd result) u' c' =
                 get_user_connection_permission db u' c') /\
  (users (snd result) = users db /\ workspaces (snd result) = workspaces db /\
   workspace_members (snd result) = workspace_members db /\
   connections (snd result) = connections db) /\
  (unique_connection_user (connection_permissions db) = true ->
   unique_connection_user (connection_permissions (snd result)) = true /\
   get_user_connection_permission (snd result) u c = None).
Proof.
  unfold revoke_connection_permission, get_user_connection_permission.
  destruct (find (fun p => (cp_connection_id p =? c) && (cp_user_id p =? u))
                 (connection_permissions db)) as [p|] eqn:Hf;
    cbn [fst snd with_permissions connection_permissions users workspaces
             workspace_members connections].
  - split.
    { split; [|reflexivity]. intros _. exists p. now apply find_grant_in. }
    split; [discriminate|].
    split; [intros c' u' Hne; now rewrite find_delete_first_other|].
    split; [auto|].
    intros Huq. split; [now apply unique_delete_first|].
    now rewrite find_delete_first_same.
  - split.
    { split; [discriminate|]. intros (p & Hin & Hk).
      exfalso. exact (find_grant_none _ _ _ Hf p Hin Hk). }
    split; [reflexivity|].
    split; [reflexivity|].
    split; [auto|].
    intros Huq. split; [exact Huq|]. now rewrite Hf.
Qed.

(** X4.  [revoke_connection_permission] answers [True] exactly when the
    pair had a grant row, and changes nothing otherwise.  With the
    table unique per connection and user, the pair has no row afterwards
    and a grantee who is neither creator nor admin has lost all access;
    the other pairs' lookups and the other tables are untouched. *)
Theorem revoke_connection_permission_effect :
  forall (db : Session) (c u : Z),
    let result := revoke_connection_permission db c u in
    (fst result = true <-> exists p, grant db c u p) /\
    (fst result = false -> snd result = db) /\
    (forall c' u', (c', u') <> (c, u) ->
                   get_user_connection_permission (snd result) u' c' =
                   get_user_connection_permission db u' c') /\
    (users (snd result) = users db /\ workspaces (snd result) = workspaces db /\
     workspace_members (snd result) = workspace_members db /\
     connections (snd result) = connections db) /\
    (unique_connection_user (connection_permissions db) = true ->
     unique_connection_user (connection_permissions (snd result)) = true /\
     get_user_connection_permission (snd result) u c = None /\
     (forall conn r,
         get_connection db c = Some conn ->
         conn_created_by conn <> u ->
         get_user_role db u (conn_workspace_id conn) <> Some "admin" ->
         check_connection_access (snd result) u c r = false)).
Proof.
  intros db c u result.
  destruct (revoke_effect db c u) as (Hb & Hsame & Hframe & Htabs & Huq).
  fold result in Hb, Hsame, Hframe, Htabs, Huq.
  split; [exact Hb|]. split; [exact Hsame|]. split; [exact Hframe|].
  split; [exact Htabs|].
  intros H. destruct (Huq H) as (Huq' & Hnone).
  split; [exact Huq'|]. split; [exact Hnone|].
  intros conn r Hconn Hc Hna.
  destruct Htabs as (_ & _ & Hmem & Hconns).
  rewrite (check_connection_access_explicit (snd result) u c r conn).
  - now rewrite Hnone.
  - unfold get_connection in *. now rewrite Hconns.
  - exact Hc.
  - unfold get_user_role in *. now rewrite Hmem.
Qed.

Lemma revoke_connection_permission_effect_witness :
  unique_connection_user (connection_permissions sample_db) = true /\
  fst (revoke_connection_permission sample_db 10 3) = true /\
  check_connection_access (snd (revoke_connection_permission sample_db 10 3)) 3 10 "viewer"
  = false.
Proof.
  destruct (revoke_connection_permission_effect sample_db 10 3)
    as (_ & _ & _ & _ & Huq).
  destruct (Huq eq_refl) as (_ & _ & Hdenied).
  split; [reflexivity|]. split; [reflexivity|].
  apply (Hdenied (mkConnection 10 "warehouse" 1 2) "viewer");
    [reflexivity|discriminate|discriminate].
Defined.

(** ** The connections a user can reach *)

Lemma get_connection_some (db : Session) (c : Z) (conn : Connection) :
  get_connection db c = Some conn -> In conn (connections db) /\ conn_id conn = c.
Proof.
  unfold get_connection. intros H. apply find_some in H as [Hin Hk].
  split; [exact Hin|now apply Z.eqb_eq].
Qed.

Lemma find_connection_unique (cs : list Connection) (conn : Connection) :
  unique_connection_id cs = true ->
  In conn cs ->
  find (fun c => conn_id c =? conn_id conn) cs = Some conn.
Proof.
  induction cs as [|a rest IH]; cbn [unique_connection_id find]; [contradiction|].
  intros H Hin. apply andb_true_iff in H as [Hfresh Huq].
  destruct Hin as [->|Hin]; [now rewrite Z.eqb_refl|].
  destruct (Z.eqb_spec (conn_id a) (conn_id conn)) as [E|_]; [|now apply IH].
  apply negb_true_iff in Hfresh.
  assert (existsb (fun c' => conn_id a =? conn_id c') rest = true) as Hex.
  { apply existsb_exists. exists conn. split; [exact Hin|now apply Z.eqb_eq]. }
  congruence.
Qed.

Lemma unique_connection_id_NoDup (cs : list Connection) (f : Connection -> bool) :
  unique_connection_id cs = true -> NoDup (map conn_id (filter f cs)).
Proof.
  induction cs as [|a rest IH]; cbn [unique_connection_id filter map]; [constructor|].
  intros H. apply andb_true_iff in H as [Hfresh Huq].
  destruct (f a); [|now apply IH].
  cbn [map]. constructor; [|now apply IH].
  intros Hin. apply in_map_iff in Hin as (c' & Hid & Hin').
  apply filter_In in Hin' as [Hin' _].
  apply negb_true_iff in Hfresh.
  assert (existsb (fun c' => conn_id a =? conn_id c') rest = true) as Hex.
  { apply existsb_exists. exists c'. split; [exact Hin'|]. apply Z.eqb_eq. congruence. }
  congruence.
Qed.

Lemma valid_permission_level_pos (l : string) :
  valid_permission_level l = true ->
  String.eqb l "" = false /\ 1 <= permission_level l.
Proof.
  intros H. apply valid_permission_level_in in H.
  destruct H as [<-|[<-|[<-|[]]]]; split; (reflexivity || (vm_compute; discriminate)).
Qed.

(** X5.  With connection ids unique and the permission levels within
    their check constraint, [get_user_accessible_connections] lists,
    each once, exactly the connections of the workspace for which
    [check_connection_access] grants the user viewer access. *)
Theorem accessible_connections_iff_viewer_access :
  forall (db : Session) (u w : Z),
    unique_connection_id (connections db) = true ->
    valid_permission_levels (connection_permissions db) = true ->
    NoDup (get_user_accessible_connections db u w) /\
    (forall c,
        In c (get_user_accessible_connections db u w) <->
        exists conn,
          get_connection db c = Some conn /\
          conn_workspace_id conn = w /\
          check_connection_access db u c "viewer" = true).
Proof.
  intros db u w Hpk Hvalid. unfold get_user_accessible_connections.
  destruct (role_is (get_user_role db u w) "admin") eqn:Hadmin.
  - split; [now apply unique_connection_id_NoDup|].
    intros c. rewrite in_map_iff. split.
    + intros (conn & Hid & Hin). apply filter_In in Hin as [Hin Hw].
      apply Z.eqb_eq in Hw. exists conn.
      assert (get_connection db c = Some conn) as Hget.
      { unfold get_connection. rewrite <- Hid. now apply find_connection_unique. }
      split; [exact Hget|]. split; [exact Hw|].
      unfold check_connection_access. rewrite Hget, Hw, Hadmin.
      now destruct (conn_created_by conn =? u).
    + intros (conn & Hget & Hw & _).
      apply get_connection_some in Hget as [Hin Hid].
      exists conn. split; [exact Hid|]. apply filter_In. split; [exact Hin|].
      now apply Z.eqb_eq.
  - split; [apply NoDup_nodup|].
    intros c. rewrite nodup_In, in_app_iff, !in_map_iff. split.
    + intros [(conn & Hid & Hin)|(p & Hid & Hin)].
      * apply filter_In in Hin as [Hin Hk].
        apply andb_true_iff in Hk as [Hw Hc]. apply Z.eqb_eq in Hw.
        exists conn.
        assert (get_connection db c = Some conn) as Hget.
        { unfold get_connection. rewrite <- Hid. now apply find_connection_unique. }
        split; [exact Hget|]. split; [exact Hw|].
        unfold check_connection_access. now rewrite Hget, Hc.
      * apply filter_In in Hin as [Hin Hk].
        apply andb_true_iff in Hk as [Hu Hex]. apply Z.eqb_eq in Hu.
        apply existsb_exists in Hex as (conn & Hcin & Hk).
        apply andb_true_iff in Hk as [Hcid Hw]. apply Z.eqb_eq in Hcid, Hw.
        exists conn.
        assert (get_connection db c = Some conn) as Hget.
        { unfold get_connection. rewrite <- Hid, <- Hcid.
          now apply find_connection_unique. }
        split; [exact Hget|]. split; [exact Hw|].
        unfold check_connection_access. rewrite Hget, Hw, Hadmin.
        destruct (conn_created_by conn =? u); [reflexivity|].
        unfold get_user_connection_permission.
        destruct (find (fun q => (cp_connection_id q =? c) && (cp_user_id q =? u))
                       (connection_permissions db)) as [q|] eqn:Hf.
        -- apply find_some in Hf as [Hqin _].
           unfold valid_permission_levels in Hvalid.
           rewrite forallb_forall in Hvalid.
           destruct (valid_permission_level_pos _ (Hvalid q Hqin)) as [Hne Hpos].
           rewrite Hne. fold (permission_level (cp_permission_level q)).
           rewrite Z.geb_leb. apply Z.leb_le. exact Hpos.
        -- exfalso. pose proof (find_none _ _ Hf p Hin) as Hk. cbv beta in Hk.
           rewrite Hid, Hu, !Z.eqb_refl in Hk. discriminate.
    + intros (conn & Hget & Hw & Hacc).
      pose proof (get_connection_some _ _ _ Hget) as [Hin Hid].
      unfold check_connection_access in Hacc. rewrite Hget, Hw, Hadmin in Hacc.
      destruct (conn_created_by conn =? u) eqn:Hc.
      * left. exists conn. split; [exact Hid|]. apply filter_In.
        split; [exact Hin|]. apply andb_true_iff. split; [now apply Z.eqb_eq|exact Hc].
      * right. unfold get_user_connection_permission in Hacc.
        destruct (find (fun q => (cp_connection_id q =? c) && (cp_user_id q =? u))
                       (connection_permissions db)) as [q|] eqn:Hf; [|discriminate].
        apply find_grant_in in Hf as (Hqin & Hqc & Hqu).
        exists q. split; [exact Hqc|]. apply filter_In. split; [exact Hqin|].
        apply andb_true_iff. split; [now apply Z.eqb_eq|].
        apply existsb_exists. exists conn. split; [exact Hin|].
        apply andb_true_iff. split; apply Z.eqb_eq; congruence.
Qed.

Lemma accessible_connections_iff_viewer_access_witness :
  unique_connection_id (connections sample_db) = true /\
  valid_permission_levels (connection_permissions sample_db) = true /\
  In 10 (get_user_accessible_connections sample_db 3 1) /\
  get_user_accessible_connections sample_db 4 1 = [].
Proof.
  split; [reflexivity|]. split; [reflexivity|]. split; [|reflexivity].
  apply (proj2 (accessible_connections_iff_viewer_access sample_db 3 1 eq_refl eq_refl)).
  exists (mkConnection 10 "warehouse" 1 2). repeat split.
Defined.

(** ** The role wrappers and the two role checks of the request path *)

(** X6.  [is_workspace_admin] holds exactly for the held role admin,
    [is_workspace_editor_or_above] exactly for admin and editor, the
    viewer check exactly for the three roles; each implies the next.
    [require_workspace_membership] passes exactly when the user has a
    membership row, whatever its role. *)
Theorem role_wrappers_exact :
  forall (db : Session) (u w : Z),
    (is_workspace_admin db u w = true <-> get_user_role db u w = Some "admin") /\
    (is_workspace_editor_or_above db u w = true <->
     get_user_role db u w = Some "admin" \/ get_user_role db u w = Some "editor") /\
    (check_permission db u w "viewer" = true <->
     exists r, get_user_role db u w = Some r /\ In r ["admin"; "editor"; "viewer"]) /\
    (is_workspace_admin db u w = true -> is_workspace_editor_or_above db u w = true) /\
    (is_workspace_editor_or_above db u w = true ->
     check_permission db u w "viewer" = true) /\
    (fst (require_workspace_membership u w db) = Returned tt <->
     exists m, membership db w u m).
Proof.
  intros db u w.
  unfold is_workspace_admin, is_workspace_editor_or_above.
  rewrite !check_permission_level.
  change (role_level "admin") with 3. change (role_level "editor") with 2.
  change (role_level "viewer") with 1.
  assert (fst (require_workspace_membership u w db) = Returned tt <->
          exists m, membership db w u m) as Hmem.
  { unfold require_workspace_membership, bind, query.
    destruct (get_user_role db u w) as [held|] eqn:Hrole; cbn [fst]; split.
    - intros _. destruct (get_user_role_some _ _ _ _ Hrole) as (m & Hm & _). now exists m.
    - reflexivity.
    - discriminate.
    - intros (m & Hm). exfalso.
      exact (proj1 (get_user_role_none db u w) Hrole m Hm). }
  destruct (get_user_role db u w) as [held|].
  2:{ repeat split; try discriminate; try (now apply Hmem);
        try (intros [H|H]; discriminate); try (intros (r & [=] & _)). }
  destruct (role_level_cases held) as [[-> E]|[[-> E]|[[-> E]|[Hout E]]]];
    rewrite ?E.
  - repeat split; auto; try (now apply Hmem).
    intros _. exists "admin". split; [reflexivity|now left].
  - repeat split; auto; try discriminate; try (now apply Hmem).
    + intros _. exists "editor". split; [reflexivity|right; now left].
  - repeat split; auto; try discriminate; try (now apply Hmem).
    + intros [H|H]; discriminate.
    + intros _. exists "viewer". split; [reflexivity|right; right; now left].
  - repeat split; auto; try discriminate; try (now apply Hmem).
    + intros [= ->]. exfalso. apply Hout. now left.
    + intros [[= ->]|[= ->]]; exfalso; apply Hout; [now left|right; now left].
    + intros (r & [= <-] & Hin). contradiction.
Qed.

Lemma role_wrappers_exact_witness :
  is_workspace_admin sample_db 1 1 = true /\
  is_workspace_editor_or_above sample_db 1 1 = true /\
  is_workspace_admin sample_db 2 1 = false.
Proof.
  pose proof (role_wrappers_exact sample_db 1 1) as (Hadmin & _ & _ & Hchain & _).
  assert (is_workspace_admin sample_db 1 1 = true) as H by (apply Hadmin; reflexivity).
  split; [exact H|]. split; [exact (Hchain H)|reflexivity].
Defined.

(** X7.  The two role checks of the request path decide as
    [check_permission] does: for a request with a user and a resolved
    workspace, [WorkspaceContextInjector.require_role] and the
    [PermissionChecker] dependency return when [check_permission] holds
    and raise 404 when it does not, and neither touches the session. *)
Theorem role_checks_agree_with_check_permission :
  forall (int : string -> option Z) (db : Session) (request : Request) (user : User)
         (required_role : string) (w : Z),
    state_user request = Some user ->
    (get_workspace_id int request None = Returned w ->
     require_role int request required_role db =
     ((if check_permission db (Models.user_id user) w required_role
       then Returned tt
       else Raised (mkHTTPException HTTP_404_NOT_FOUND "Resource not found")), db)) /\
    (state_workspace_id request = Some w ->
     PermissionChecker required_role request db =
     ((if check_permission db (Models.user_id user) w required_role
       then Returned tt
       else Raised (mkHTTPException HTTP_404_NOT_FOUND "Resource not found")), db)).
Proof.
  intros int db request user required_role w Huser. split.
  - intros Hres. unfold require_role. rewrite Huser, Hres.
    unfold bind, query, raise_if, check_permission, get_user_role.
    destruct (find _ (workspace_members db)) as [member|]; [|reflexivity].
    fold ROLE_HIERARCHY.
    rewrite Z.geb_leb.
    destruct (Z.ltb_spec (dict_get ROLE_HIERARCHY (wm_role member) 0)
                         (dict_get ROLE_HIERARCHY required_role 0));
      destruct (Z.leb_spec (dict_get ROLE_HIERARCHY required_role 0)
                           (dict_get ROLE_HIERARCHY (wm_role member) 0));
      (reflexivity || lia).
  - intros Hstate. unfold PermissionChecker. rewrite Huser, Hstate.
    unfold bind, query, raise_if.
    now destruct (check_permission db (Models.user_id user) w required_role).
Qed.

Lemma role_checks_agree_with_check_permission_witness :
  require_role decimal
    (mkRequest "/api/dashboards" (Some "1") None None (Some carol) None) "editor" sample_db =
  (Raised (mkHTTPException 404 "Resource not found"), sample_db) /\
  require_role decimal
    (mkRequest "/api/dashboards" (Some "1") None None (Some bob) None) "editor" sample_db =
  (Returned tt, sample_db).
Proof.
  split.
  - exact (proj1 (role_checks_agree_with_check_permission decimal sample_db
             (mkRequest "/api/dashboards" (Some "1") None None (Some carol) None)
             carol "editor" 1 eq_refl) eq_refl).
  - exact (proj1 (role_checks_agree_with_check_permission decimal sample_db
             (mkRequest "/api/dashboards" (Some "1") None None (Some bob) None)
             bob "editor" 1 eq_refl) eq_refl).
Defined.

(** ** The invitation protocol: failures, replay and the link *)

Lemma match_invitation_type {A : Type} (t : option string) (a b : A) :
  match t with
  | Some "workspace_invitation" => a
  | _ => b
  end = if role_is t "workspace_invitation" then a else b.
Proof.
  destruct t as [s|]; [|reflexivity]. cbn [role_is].
  do 20 (destruct s as [|[[] [] [] [] [] [] [] []] s]; try reflexivity).
  destruct s; reflexivity.
Qed.

Section InvitationFacts.

Variable lower : string -> string.
Variable Token : Type.
Variable jwt_encode : Payload -> string -> Token.
Variable jwt_decode : Token -> string -> Z -> jwt_result.

(** What [decode_invitation_token] lets through. *)
Lemma decode_invitation_token_inl (K : option string) (now : Z) (token : Token)
      (payload : Payload) :
  decode_invitation_token jwt_decode K now token = inl payload <->
  exists key W e r i,
    K = Some key /\ jwt_decode token key now = Decoded payload /\
    p_type payload = Some "workspace_invitation" /\
    p_workspace_id payload = Some W /\ p_email payload = Some e /\
    p_role payload = Some r /\ p_invited_by payload = Some i.
Proof.
  split.
  - unfold decode_invitation_token. destruct K as [key|]; [|discriminate].
    destruct (jwt_decode token key now) as [p| |] eqn:Hdec; try discriminate.
    rewrite match_invitation_type.
    destruct (p_type p) as [ty|] eqn:Hty; cbn [role_is]; [|discriminate].
    destruct (String.eqb_spec ty "workspace_invitation") as [->|Hne]; [|discriminate].
    destruct (p_workspace_id p) as [W|] eqn:HW; [|discriminate].
    destruct (p_email p) as [e|] eqn:He; [|discriminate].
    destruct (p_role p) as [r|] eqn:Hr; [|discriminate].
    destruct (p_invited_by p) as [i|] eqn:Hi; [|discriminate].
    intros [= <-]. exists key, W, e, r, i. repeat split; assumption.
  - intros (key & W & e & r & i & -> & Hdec & Hty & HW & He & Hr & Hi).
    unfold decode_invitation_token.
    rewrite Hdec, match_invitation_type, Hty. cbn [role_is].
    rewrite String.eqb_refl, HW, He, Hr, Hi. reflexivity.
Qed.

Lemma decode_invitation_token_inr (K : option string) (now : Z) (token : Token)
      (err : InvitationException) :
  decode_invitation_token jwt_decode K now token = inr err ->
  K = None \/ err = InvitationTokenExpired \/ err = InvitationTokenInvalid.
Proof.
  unfold decode_invitation_token. destruct K as [key|]; [|now left].
  intros H. right. revert H.
  destruct (jwt_decode token key now) as [p| |];
    [|intros [= <-]; now left|intros [= <-]; now right].
  rewrite match_invitation_type.
  destruct (role_is (p_type p) "workspace_invitation");
    [|intros [= <-]; now right].
  destruct (p_workspace_id p), (p_email p), (p_role p), (p_invited_by p);
    intros [= <-]; now right.
Qed.

End InvitationFacts.

(** Every way [accept_invitation] can end. *)
Lemma accept_invitation_inv (lower : string -> string) (Token : Type)
      (jwt_decode : Token -> string -> Z -> jwt_result)
      (K : option string) (now : Z) (token : Token) (u : Z) (email : string)
      (db db' : Session) (o : outcome Acceptance) :
  accept_invitation lower jwt_decode K now token u email db = (o, db') ->
  (exists key payload W e r i workspace,
      K = Some key /\ jwt_decode token key now = Decoded payload /\
      p_type payload = Some "workspace_invitation" /\
      p_workspace_id payload = Some W /\ p_email payload = Some e /\
      p_role payload = Some r /\ p_invited_by payload = Some i /\
      lower e = lower email /\
      check_existing_membership db u W = false /\
      find_workspace W db = Some workspace /\
      o = Returned (mkAcceptance W (ws_name workspace) (ws_slug workspace) r now) /\
      db' = add_member (mkWorkspaceMember W u r (Some i) now) db) \/
  (exists err,
      o = Raised err /\ db' = db /\
      (status_code err = 400 \/ status_code err = 404 \/
       (status_code err = 500 /\ K = None))).
Proof.
  unfold accept_invitation, validate_invitation_token.
  destruct (decode_invitation_token jwt_decode K now token) as [payload|err] eqn:Hd.
  - apply decode_invitation_token_inl in Hd
      as (key & W & e & r & i & -> & Hdec & Hty & HW & He & Hr & Hi).
    rewrite HW, He, Hr, Hi.
    unfold bind, query, raise_if, commit, ret, raise.
    destruct (String.eqb_spec (lower e) (lower email)) as [Hem|Hem]; cbn [negb].
    2:{ intros [= <- <-]. right. eexists. split; [reflexivity|].
        split; [reflexivity|now left]. }
    cbn [inv_workspace_id inv_role inv_invited_by].
    destruct (check_existing_membership db u W) eqn:Hex.
    { intros [= <- <-]. right. eexists. split; [reflexivity|].
      split; [reflexivity|now left]. }
    destruct (find (fun w => ws_id w =? W) (workspaces db)) as [workspace|] eqn:Hws.
    2:{ intros [= <- <-]. right. eexists. split; [reflexivity|].
        split; [reflexivity|right; now left]. }
    intros [= <- <-]. left.
    exists key, payload, W, e, r, i, workspace. repeat split; assumption.
  - pose proof (decode_invitation_token_inr _ _ _ _ _ _ Hd) as Hcases.
    unfold raise.
    destruct err as [msg| |]; intros [= <- <-]; right;
      (eexists; split; [reflexivity|]; split; [reflexivity|]).
    + destruct Hcases as [->|[[=]|[=]]]. right; right. split; reflexivity.
    + now left.
    + now left.
Qed.

Lemma uq_workspace_user_snoc (ms : list WorkspaceMember) (m : WorkspaceMember) :
  uq_workspace_user ms = true ->
  find (fun x => (wm_user_id x =? wm_user_id m) && (wm_workspace_id x =? wm_workspace_id m))
       ms = None ->
  uq_workspace_user (ms ++ [m]) = true.
Proof.
  induction ms as [|a rest IH]; cbn [app uq_workspace_user find]; [reflexivity|].
  intros H Hf. apply andb_true_iff in H as [Hfresh Huq].
  destruct ((wm_user_id a =? wm_user_id m) && (wm_workspace_id a =? wm_workspace_id m))
    eqn:Hk; [discriminate|].
  apply andb_true_iff. split; [|now apply IH].
  rewrite existsb_app. cbn [existsb]. apply negb_true_iff in Hfresh.
  rewrite Hfresh. unfold same_workspace_user. rewrite andb_comm in Hk. now rewrite Hk.
Qed.

Lemma check_existing_membership_snoc (db : Session) (W u : Z) (r : string)
      (i : option Z) (t : Z) :
  check_existing_membership (add_member (mkWorkspaceMember W u r i t) db) u W = true.
Proof.
  unfold check_existing_membership, add_member. cbn [workspace_members].
  rewrite find_snoc. destruct (find _ (workspace_members db)); [reflexivity|].
  cbn [wm_user_id wm_workspace_id]. now rewrite !Z.eqb_refl.
Qed.

(** X8.  [create_invitation_token] produces a token exactly when the
    signing key is configured and the role is admin, editor or viewer;
    the token then signs the invitation type, the workspace, the email
    in lower case, the role and the inviter, issued at the clock's time
    and expiring 604800 seconds (seven days) later. *)
Theorem create_invitation_token_succeeds_iff :
  forall (lower : string -> string) (Token : Type)
         (jwt_encode : Payload -> string -> Token)
         (K : option string) (now W : Z) (email role : string) (i : Z),
    ((exists token, create_invitation_token lower jwt_encode K now W email role i
                    = inl token) <->
     (K <> None /\ In role ["admin"; "editor"; "viewer"])) /\
    (forall token,
        create_invitation_token lower jwt_encode K now W email role i = inl token ->
        exists key,
          K = Some key /\
          token = jwt_encode
                    (mkPayload (Some "workspace_invitation") (Some W) (Some (lower email))
                               (Some role) (Some i) now (now + 604800))
                    key).
Proof.
  intros lower Token jwt_encode K now W email role i.
  unfold create_invitation_token.
  destruct K as [key|].
  2:{ split; [|discriminate].
      split; [intros (t & [=])|intros [H _]; congruence]. }
  destruct (str_in role ["admin"; "editor"; "viewer"]) eqn:Hrole; cbn [negb].
  - split.
    + split; [|intros _; eexists; reflexivity].
      intros _. split; [discriminate|].
      unfold str_in in Hrole. apply existsb_exists in Hrole as (x & Hin & E).
      apply String.eqb_eq in E. now subst.
    + intros token [= <-]. exists key. split; reflexivity.
  - split; [|discriminate].
    split; [intros (t & [=])|].
    intros [_ Hin]. rewrite (str_in_valid_roles role Hin) in Hrole. discriminate.
Qed.

Lemma create_invitation_token_succeeds_iff_witness :
  (exists token, create_invitation_token ascii_lower sign (Some "secret") 1000 1
                                         "Dave@Test.com" "viewer" 1 = inl token) /\
  create_invitation_token ascii_lower sign (Some "secret") 1000 1 "Dave@Test.com" "owner" 1
  = inr (InvitationError "Invalid role").
Proof.
  split; [|reflexivity].
  apply (proj1 (create_invitation_token_succeeds_iff ascii_lower signed sign
                  (Some "secret") 1000 1 "Dave@Test.com" "viewer" 1)).
  split; [discriminate|right; right; now left].
Defined.



(** X10.  An accepted token cannot be used again by the same user: with
    a decoder whose claims do not depend on the clock, every later
    acceptance, at any time and under any email, raises 400 and leaves
    the session as the first acceptance left it. *)
Theorem accept_invitation_replay_refused :
  forall (lower : string -> string) (Token : Type)
         (jwt_decode : Token -> string -> Z -> jwt_result),
    (forall token key n n' p p',
        jwt_decode token key n = Decoded p ->
        jwt_decode token key n' = Decoded p' -> p = p') ->
    forall (K : option string) (now now' : Z) (token : Token) (u : Z)
           (email email' : string) (db db' : Session) (a : Acceptance),
      accept_invitation lower jwt_decode K now token u email db = (Returned a, db') ->
      exists err,
        accept_invitation lower jwt_decode K now' token u email' db' = (Raised err, db') /\
        status_code err = 400.
Proof.
  intros lower Token jwt_decode Hclock K now now' token u email email' db db' a Hfirst.
  destruct (accept_invitation_inv _ _ _ _ _ _ _ _ _ _ _ Hfirst)
    as [(key & payload & W & e & r & i & ws & -> & Hdec & _ & HW & _ & _ & _ & _ & _ & _
         & _ & ->)
       |(err & [=] & _)].
  unfold accept_invitation, validate_invitation_token.
  destruct (decode_invitation_token jwt_decode (Some key) now' token)
    as [payload'|err] eqn:Hd.
  - apply decode_invitation_token_inl in Hd
      as (key' & W' & e' & r' & i' & [= <-] & Hdec' & _ & HW' & He' & Hr' & Hi').
    assert (payload = payload') as <- by exact (Hclock _ _ _ _ _ _ Hdec Hdec').
    rewrite HW', He', Hr', Hi'.
    assert (W' = W) as -> by congruence.
    unfold bind, query, raise_if, raise, ret.
    destruct (String.eqb (lower e') (lower email')); cbn [negb].
    + cbn [inv_workspace_id]. rewrite check_existing_membership_snoc.
      eexists. split; reflexivity.
    + eexists. split; reflexivity.
  - pose proof (decode_invitation_token_inr _ _ _ _ _ _ Hd) as [[=]|[->| ->]];
      eexists; split; reflexivity.
Qed.

Lemma accept_invitation_replay_refused_witness :
  exists err,
    accept_invitation ascii_lower verify (Some "secret") 6000
      (sign (mkPayload (Some "workspace_invitation") (Some 1) (Some "dave@test.com")
                       (Some "editor") (Some 1) 1000 9000) "secret")
      4 "dave@test.com"
      (add_member (mkWorkspaceMember 1 4 "editor" (Some 1) 5000) sample_db) =
    (Raised err, add_member (mkWorkspaceMember 1 4 "editor" (Some 1) 5000) sample_db) /\
    status_code err = 400.
Proof.
  apply (accept_invitation_replay_refused ascii_lower signed verify) with
    (now := 5000) (email := "dave@test.com") (db := sample_db)
    (a := mkAcceptance 1 "Acme" "acme" "editor" 5000).
  - intros [p k] key n n' q q'. unfold verify.
    destruct (negb (String.eqb k key)); [discriminate|].
    destruct (p_exp p <=? n); [discriminate|].
    destruct (n <? p_iat p); [discriminate|].
    destruct (p_exp p <=? n'); [discriminate|].
    destruct (n' <? p_iat p); [discriminate|].
    congruence.
  - reflexivity.
Defined.

(** X11.  [accept_invitation] keeps the membership table unique per
    workspace and user, however it ends. *)
Theorem accept_invitation_keeps_unique :
  forall (lower : string -> string) (Token : Type)
         (jwt_decode : Token -> string -> Z -> jwt_result)
         (K : option string) (now : Z) (token : Token) (u : Z) (email : string)
         (db : Session),
    uq_workspace_user (workspace_members db) = true ->
    uq_workspace_user
      (workspace_members
         (snd (accept_invitation lower jwt_decode K now token u email db))) = true.
Proof.
  intros lower Token jwt_decode K now token u email db Huq.
  destruct (accept_invitation lower jwt_decode K now token u email db) as [o db'] eqn:H.
  cbn [snd].
  destruct (accept_invitation_inv _ _ _ _ _ _ _ _ _ _ _ H)
    as [(key & payload & W & e & r & i & ws & _ & _ & _ & _ & _ & _ & _ & _ & Hnew & _
         & _ & ->)
       |(err & _ & -> & _)]; [|exact Huq].
  cbn [add_member workspace_members]. apply uq_workspace_user_snoc; [exact Huq|].
  cbn [wm_user_id wm_workspace_id]. unfold check_existing_membership in Hnew.
  now destruct (find _ (workspace_members db)).
Qed.

Lemma accept_invitation_keeps_unique_witness :
  uq_workspace_user (workspace_members sample_db) = true /\
  uq_workspace_user
    (workspace_members
       (snd (accept_invitation ascii_lower verify (Some "secret") 5000
               (sign (mkPayload (Some "workspace_invitation") (Some 1)
                                (Some "dave@test.com") (Some "editor") (Some 1)
                                1000 9000) "secret")
               4 "dave@test.com" sample_db))) = true.
Proof.
  split; [reflexivity|].
  exact (accept_invitation_keeps_unique ascii_lower signed verify (Some "secret") 5000 _
           4 "dave@test.com" sample_db eq_refl).
Defined.

Lemma rstrip_snoc_same (c : ascii) (s : string) :
  rstrip c (s ++ String c EmptyString) = rstrip c s.
Proof.
  induction s as [|a rest IH]; cbn [String.append rstrip].
  - now rewrite Ascii.eqb_refl.
  - now rewrite IH.
Qed.

Lemma rstrip_snoc_other (c a : ascii) (s : string) :
  a <> c -> rstrip c (s ++ String a EmptyString) = s ++ String a EmptyString.
Proof.
  intros Hne. induction s as [|b rest IH]; cbn [String.append rstrip].
  - destruct (Ascii.eqb_spec a c); [contradiction|reflexivity].
  - rewrite IH. now destruct rest.
Qed.

(** X12.  [generate_invitation_link] ignores slashes at the end of the
    base URL: a base with one more trailing slash gives the same link,
    and a base that ends in another character is followed directly by
    [/accept-invite?token=] and the token. *)
Theorem generate_invitation_link_trailing_slash :
  forall (base_url token : string),
    generate_invitation_link (base_url ++ "/") token =
    generate_invitation_link base_url token /\
    (forall (stem : string) (last : ascii),
        base_url = stem ++ String last EmptyString -> last <> "/"%char ->
        generate_invitation_link base_url token =
        base_url ++ "/accept-invite?token=" ++ token).
Proof.
  intros base_url token. unfold generate_invitation_link. split.
  - now rewrite rstrip_snoc_same.
  - intros stem last -> Hne. now rewrite rstrip_snoc_other.
Qed.

Lemma generate_invitation_link_trailing_slash_witness :
  generate_invitation_link "https://app.example.com//" "tok" =
  "https://app.example.com/accept-invite?token=tok" /\
  generate_invitation_link "https://app.example.com" "tok" =
  "https://app.example.com/accept-invite?token=tok".
Proof.
  split; [reflexivity|].
  apply (proj2 (generate_invitation_link_trailing_slash "https://app.example.com" "tok")
               "https://app.example.co" "m"%char); [reflexivity|discriminate].
Defined.

(** ** The middleware *)

Lemma prefix_append (p s : string) : String.prefix p (p ++ s) = true.
Proof.
  induction p as [|a p IH]; cbn [String.append String.prefix].
  - now destruct s.
  - destruct (ascii_dec a a); [exact IH|contradiction].
Qed.

(** X13.  The middleware lets a request continue scoped to a workspace
    only for a path that is not excluded, a user set by the
    authentication layer and a workspace in which that user has a
    membership row; a path equal to an excluded path, or below
    [/static/], [/_] or [/api/dashboards/public/], passes unscoped and
    unchecked. *)
Theorem dispatch_scopes_members_only :
  forall (int : string -> option Z) (db : Session) (request : Request),
    (forall w, dispatch int db request = CallNextScoped w ->
               _should_skip_validation request = false /\
               exists user, state_user request = Some user /\
                            exists m, membership db w (Models.user_id user) m) /\
    (_should_skip_validation request = true ->
     dispatch int db request = CallNextUnscoped) /\
    (forall rest,
        url_path request = "/static/" ++ rest \/
        url_path request = "/_" ++ rest \/
        url_path request = "/api/dashboards/public/" ++ rest ->
        _should_skip_validation request = true).
Proof.
  intros int db request. split; [|split].
  - intros w. unfold dispatch.
    destruct (_should_skip_validation request); [discriminate|].
    destruct (state_user request) as [user|]; [|discriminate].
    destruct (match _extract_workspace_id int request with
              | Some w0 => Some w0
              | None => user_current_workspace_id user
              end) as [w0|]; [|discriminate].
    unfold _validate_workspace_access.
    destruct (find _ (workspace_members db)) as [m|] eqn:Hf; cbn [negb]; [|discriminate].
    intros [= <-]. split; [reflexivity|]. exists user. split; [reflexivity|].
    exists m. now apply find_member_in.
  - intros Hskip. unfold dispatch. now rewrite Hskip.
  - intros rest Hpath. unfold _should_skip_validation.
    destruct (str_in (url_path request) EXCLUDED_PATHS); [reflexivity|].
    destruct Hpath as [-> | [-> | ->]].
    + now rewrite prefix_append.
    + rewrite (prefix_append "/_"). now rewrite orb_true_r.
    + destruct (_ || _); [reflexivity|].
      unfold EXCLUDED_PATH_PREFIXES. cbn [existsb]. now rewrite prefix_append.
Qed.

Lemma dispatch_scopes_members_only_witness :
  dispatch decimal sample_db
    (mkRequest "/api/dashboards" (Some "1") None None (Some carol) None) =
  CallNextScoped 1 /\
  dispatch decimal sample_db
    (mkRequest "/api/dashboards" (Some "1") None None (Some dave) None) =
  JSONResponse 404 "Resource not found" /\
  dispatch decimal sample_db
    (mkRequest "/api/dashboards/public/abc" None None None None None) = CallNextUnscoped.
Proof.
  split; [reflexivity|]. split; [reflexivity|].
  apply (proj1 (proj2 (dispatch_scopes_members_only decimal sample_db
                         (mkRequest "/api/dashboards/public/abc" None None None None None)))).
  apply (proj2 (proj2 (dispatch_scopes_members_only decimal sample_db
                         (mkRequest "/api/dashboards/public/abc" None None None None None)))
               "abc").
  right; right. reflexivity.
Defined.

(** ** The data-isolation listeners, exactly *)

(** X14.  The insert listener raises only for an instance of a scoped
    model whose [workspace_id] is absent or null, and the update
    listener raises only for an instance of a scoped model whose
    attribute history has changes and whose old id differs from the new
    value; instances of all other models (a [DataSource], say) pass both
    listeners whatever they carry. *)
Theorem isolation_listeners_exact :
  forall (target : Target) (v : Violation),
    (validate_workspace_id_on_insert target = WorkspaceIsolationError v <->
     str_in (class_name target) WORKSPACE_SCOPED_MODELS = true /\
     (workspace_id target = None \/ workspace_id target = Some None) /\
     v = InsertWithoutWorkspace (class_name target)) /\
    (validate_workspace_id_on_update target = WorkspaceIsolationError v <->
     str_in (class_name target) WORKSPACE_SCOPED_MODELS = true /\
     exists old_id new_id,
       workspace_id target = Some new_id /\
       has_changes (history target) = true /\
       old_id_of target = Some old_id /\
       new_id <> Some old_id /\
       v = WorkspaceChanged (class_name target) old_id new_id) /\
    (str_in (class_name target) WORKSPACE_SCOPED_MODELS = false ->
     validate_workspace_id_on_insert target = Proceed /\
     validate_workspace_id_on_update target = Proceed).
Proof.
  intros target v.
  unfold validate_workspace_id_on_insert, validate_workspace_id_on_update.
  destruct (str_in (class_name target) WORKSPACE_SCOPED_MODELS).
  2:{ split; [|split]; [split; [discriminate|intros [[=] _]]
                       |split; [discriminate|intros [[=] _]]
                       |auto]. }
  split; [|split; [|discriminate]].
  - destruct (workspace_id target) as [[w|]|]; split.
    + discriminate.
    + intros (_ & [[=]|[=]] & _).
    + intros [= <-]. repeat split. now right.
    + intros (_ & _ & ->). reflexivity.
    + intros [= <-]. repeat split. now left.
    + intros (_ & _ & ->). reflexivity.
  - destruct (workspace_id target) as [new_id|].
    2:{ split; [discriminate|intros (_ & o & n & [=] & _)]. }
    destruct (has_changes (history target)).
    2:{ split; [discriminate|intros (_ & o & n & _ & [=] & _)]. }
    destruct (old_id_of target) as [old_id|].
    2:{ split; [discriminate|intros (_ & o & n & _ & _ & [=] & _)]. }
    destruct (opt_Z_eqb (Some old_id) new_id) eqn:E; cbn [negb]; split.
    + discriminate.
    + intros (_ & o & n & [= <-] & _ & [= <-] & Hne & _).
      apply opt_Z_eqb_eq in E. congruence.
    + intros [= <-]. split; [reflexivity|]. exists old_id, new_id.
      repeat split. intros ->. rewrite (proj2 (opt_Z_eqb_eq _ _) eq_refl) in E.
      discriminate.
    + intros (_ & o & n & [= <-] & _ & [= <-] & _ & ->). reflexivity.
Qed.

Lemma isolation_listeners_exact_witness :
  validate_workspace_id_on_insert
    (mkTarget "DataSource" (Some None) (mkHistory [] [] []) []) = Proceed /\
  validate_workspace_id_on_update
    (mkTarget "DataSource" (Some (Some 7)) (mkHistory [Some 7] [] [Some 3]) []) = Proceed.
Proof.
  split.
  - exact (proj1 (proj2 (proj2 (isolation_listeners_exact
             (mkTarget "DataSource" (Some None) (mkHistory [] [] []) [])
             (InsertWithoutWorkspace "DataSource"))) eq_refl)).
  - exact (proj2 (proj2 (proj2 (isolation_listeners_exact
             (mkTarget "DataSource" (Some (Some 7)) (mkHistory [Some 7] [] [Some 3]) [])
             (InsertWithoutWorkspace "DataSource"))) eq_refl)).
Defined.

(** ** Slugs *)

Lemma match_leading_hyphen {A : Type} (s : string) (a b : A) :
  match s with
  | String "-" _ => a
  | _ => b
  end = if starts_with "-" s then a else b.
Proof.
  destruct s as [|[[] [] [] [] [] [] [] []] s]; reflexivity.
Qed.

Lemma collapse_hyphens_cons (c : ascii) (rest : string) :
  collapse_hyphens (String c rest) =
  if (Ascii.eqb c "-" && starts_with "-" (collapse_hyphens rest))%bool
  then collapse_hyphens rest
  else String c (collapse_hyphens rest).
Proof.
  cbn [collapse_hyphens]. rewrite match_leading_hyphen.
  destruct (Ascii.eqb c "-"); [|reflexivity].
  now destruct (starts_with "-" (collapse_hyphens rest)).
Qed.

Lemma all_slug_chars_keep (s : string) : all_slug_chars (keep_slug_chars s) = true.
Proof.
  induction s as [|c rest IH]; [reflexivity|]. cbn [keep_slug_chars].
  destruct (is_slug_char c) eqn:E; [|exact IH].
  cbn [all_slug_chars]. now rewrite E, IH.
Qed.

Lemma all_slug_chars_collapse (s : string) :
  all_slug_chars s = true -> all_slug_chars (collapse_hyphens s) = true.
Proof.
  induction s as [|c rest IH]; [reflexivity|].
  cbn [all_slug_chars]. intros H. apply andb_true_iff in H as [Hc Hrest].
  rewrite collapse_hyphens_cons.
  destruct (_ && _)%bool; [now apply IH|].
  cbn [all_slug_chars]. now rewrite Hc, IH.
Qed.

Lemma all_slug_chars_lstrip (c : ascii) (s : string) :
  all_slug_chars s = true -> all_slug_chars (lstrip c s) = true.
Proof.
  induction s as [|a rest IH]; [reflexivity|].
  cbn [lstrip]. destruct (Ascii.eqb a c); [|auto].
  cbn [all_slug_chars]. intros H. apply andb_true_iff in H as [_ Hrest]. now apply IH.
Qed.

Lemma rstrip_head (c x : ascii) (s y : string) :
  rstrip c s = String x y -> exists z, s = String x z.
Proof.
  destruct s as [|a rest]; cbn [rstrip]; [discriminate|].
  destruct (rstrip c rest).
  - destruct (Ascii.eqb a c); [discriminate|]. intros [= <- _]. now exists rest.
  - intros [= <- _]. now exists rest.
Qed.

Lemma all_slug_chars_rstrip (c : ascii) (s : string) :
  all_slug_chars s = true -> all_slug_chars (rstrip c s) = true.
Proof.
  induction s as [|a rest IH]; [reflexivity|].
  cbn [all_slug_chars]. intros H. apply andb_true_iff in H as [Ha Hrest].
  cbn [rstrip]. specialize (IH Hrest).
  destruct (rstrip c rest) as [|x y].
  - destruct (Ascii.eqb a c); [reflexivity|]. cbn [all_slug_chars]. now rewrite Ha.
  - cbn [all_slug_chars] in *. now rewrite Ha, IH.
Qed.

Lemma no_double_hyphen_collapse (s : string) :
  has_double_hyphen (collapse_hyphens s) = false.
Proof.
  induction s as [|c rest IH]; [reflexivity|].
  rewrite collapse_hyphens_cons.
  destruct (Ascii.eqb c "-" && starts_with "-" (collapse_hyphens rest))%bool eqn:E;
    [exact IH|].
  cbn [has_double_hyphen]. now rewrite E, IH.
Qed.

Lemma no_double_hyphen_lstrip (c : ascii) (s : string) :
  has_double_hyphen s = false -> has_double_hyphen (lstrip c s) = false.
Proof.
  induction s as [|a rest IH]; [reflexivity|].
  cbn [lstrip]. destruct (Ascii.eqb a c); [|auto].
  cbn [has_double_hyphen]. intros H. apply orb_false_iff in H as [_ Hrest]. now apply IH.
Qed.

Lemma starts_with_rstrip (c d : ascii) (s : string) :
  starts_with d s = false -> starts_with d (rstrip c s) = false.
Proof.
  intros H. destruct (rstrip c s) as [|x y] eqn:E; [reflexivity|].
  apply rstrip_head in E as (z & ->). exact H.
Qed.

Lemma no_double_hyphen_rstrip (c : ascii) (s : string) :
  has_double_hyphen s = false -> has_double_hyphen (rstrip c s) = false.
Proof.
  induction s as [|a rest IH]; [reflexivity|].
  cbn [has_double_hyphen]. intros H. apply orb_false_iff in H as [Ha Hrest].
  cbn [rstrip]. specialize (IH Hrest).
  destruct (rstrip c rest) as [|x y] eqn:E.
  - destruct (Ascii.eqb a c); [reflexivity|]. cbn. now rewrite andb_false_r.
  - cbn [has_double_hyphen] in *. rewrite IH, orb_false_r.
    apply rstrip_head in E as (z & ->). exact Ha.
Qed.

Lemma starts_with_lstrip (c : ascii) (s : string) : starts_with c (lstrip c s) = false.
Proof.
  induction s as [|a rest IH]; [reflexivity|].
  cbn [lstrip]. destruct (Ascii.eqb a c) eqn:E; [exact IH|]. cbn [starts_with]. exact E.
Qed.

Lemma ends_with_rstrip (c : ascii) (s : string) : ends_with c (rstrip c s) = false.
Proof.
  induction s as [|a rest IH]; [reflexivity|].
  cbn [rstrip]. destruct (rstrip c rest) as [|x y].
  - destruct (Ascii.eqb a c) eqn:E; [reflexivity|]. cbn [ends_with]. exact E.
  - cbn [ends_with] in *. exact IH.
Qed.

(** X15.  The base slug of every name is not empty, is made of
    lower-case letters, digits and hyphens only, neither begins nor ends
    with a hyphen, and has no two hyphens in a row. *)
Theorem base_slug_shape :
  forall (lower : string -> string) (name : string),
    base_slug_of lower name <> "" /\
    all_slug_chars (base_slug_of lower name) = true /\
    starts_with "-" (base_slug_of lower name) = false /\
    ends_with "-" (base_slug_of lower name) = false /\
    has_double_hyphen (base_slug_of lower name) = false.
Proof.
  intros lower name. unfold base_slug_of.
  set (s := strip "-" (collapse_hyphens (keep_slug_chars (replace_spaces (lower name))))).
  destruct (String.eqb_spec s "") as [_|Hne].
  { repeat split. discriminate. }
  split; [exact Hne|]. subst s. unfold strip.
  split; [|split; [|split]].
  - apply all_slug_chars_rstrip, all_slug_chars_lstrip, all_slug_chars_collapse,
      all_slug_chars_keep.
  - apply starts_with_rstrip, starts_with_lstrip.
  - apply ends_with_rstrip.
  - apply no_double_hyphen_rstrip, no_double_hyphen_lstrip, no_double_hyphen_collapse.
Qed.

Example base_slug_examples :
  base_slug_of ascii_lower "U1's Workspace" = "u1s-workspace" /\
  base_slug_of ascii_lower "  My -- Team!  " = "my-team" /\
  base_slug_of ascii_lower "???" = "workspace" /\
  base_slug_of ascii_lower "" = "workspace".
Proof. repeat split. Qed.

Lemma str_of_nat_inj (n m : nat) : str_of_nat n = str_of_nat m -> n = m.
Proof.
  unfold str_of_nat. intros H.
  assert (Some (Nat.to_uint n) = Some (Nat.to_uint m)) as E
      by (rewrite <- !NilEmpty.usu; now rewrite H).
  injection E as E.
  rewrite <- (Unsigned.of_to n), <- (Unsigned.of_to m). now rewrite E.
Qed.

Lemma append_inj_l (p a b : string) : p ++ a = p ++ b -> a = b.
Proof.
  induction p as [|c p IH]; cbn [String.append]; [auto|].
  intros [= H]. now apply IH.
Qed.

Lemma append_length (a b : string) :
  String.length (a ++ b) = (String.length a + String.length b)%nat.
Proof.
  induction a as [|c a IH]; cbn [String.append String.length]; [reflexivity|].
  now rewrite IH.
Qed.

Lemma slug_candidate_inj (base_slug : string) (i j : nat) :
  slug_candidate base_slug i = slug_candidate base_slug j -> i = j.
Proof.
  destruct i as [|i], j as [|j]; cbn [slug_candidate]; [reflexivity| | |].
  - intros H. apply (f_equal String.length) in H.
    rewrite append_length in H. cbn [String.append String.length] in H. lia.
  - intros H. apply (f_equal String.length) in H.
    rewrite append_length in H. cbn [String.append String.length] in H. lia.
  - intros H. apply append_inj_l in H. cbn [String.append] in H.
    injection H as H. now apply str_of_nat_inj.
Qed.

Lemma slug_taken_in (db : Session) (slug : string) :
  slug_taken db slug = true <-> In slug (map ws_slug (workspaces db)).
Proof.
  unfold slug_taken. rewrite in_map_iff.
  destruct (find _ (workspaces db)) as [w|] eqn:Hf; split; try discriminate.
  - intros _. apply find_some in Hf as [Hin E]. apply String.eqb_eq in E. now exists w.
  - reflexivity.
  - intros (w & E & Hin). pose proof (find_none _ _ Hf w Hin) as Hk. cbv beta in Hk.
    rewrite E, String.eqb_refl in Hk. discriminate.
Qed.

(** Candidates tried in vain are distinct taken slugs, so there are at
    most as many as workspaces. *)
Lemma taken_candidates_bound (db : Session) (base_slug : string) (k : nat) :
  (forall j, (j < k)%nat -> slug_taken db (slug_candidate base_slug j) = true) ->
  (k <= List.length (workspaces db))%nat.
Proof.
  intros Htaken.
  assert (List.length (map (slug_candidate base_slug) (seq 0%nat k)) = k) as Hlen
      by now rewrite length_map, length_seq.
  assert (List.length (map (slug_candidate base_slug) (seq 0%nat k))
          <= List.length (map ws_slug (workspaces db)))%nat as Hle.
  { apply NoDup_incl_length.
    - apply NoDup_map_NoDup_ForallPairs; [|apply seq_NoDup].
      intros i j _ _. apply slug_candidate_inj.
    - intros s Hin. apply in_map_iff in Hin as (j & <- & Hj).
      apply in_seq in Hj. apply slug_taken_in. apply Htaken. lia. }
  rewrite Hlen, length_map in Hle. exact Hle.
Qed.

Lemma slug_loop_finds (db : Session) (base_slug : string) (fuel k : nat) :
  (forall j, (j < k)%nat -> slug_taken db (slug_candidate base_slug j) = true) ->
  (List.length (workspaces db) < k + fuel)%nat ->
  exists j,
    slug_loop fuel db base_slug (slug_candidate base_slug k) (S k) =
    Some (slug_candidate base_slug j) /\
    (k <= j <= List.length (workspaces db))%nat /\
    slug_taken db (slug_candidate base_slug j) = false /\
    (forall j', (j' < j)%nat -> slug_taken db (slug_candidate base_slug j') = true).
Proof.
  revert k. induction fuel as [|fuel IH]; intros k Htaken Hfuel.
  - pose proof (taken_candidates_bound db base_slug k Htaken). lia.
  - cbn [slug_loop].
    destruct (slug_taken db (slug_candidate base_slug k)) eqn:Hk.
    + destruct (IH (S k)) as (j & Hloop & Hj & Hfree & Hbefore).
      * intros j Hj. destruct (Nat.eq_dec j k) as [->|Hne]; [exact Hk|].
        apply Htaken. lia.
      * lia.
      * exists j. split; [exact Hloop|]. split; [lia|]. split; assumption.
    + exists k. split; [reflexivity|]. split.
      * split; [lia|]. pose proof (taken_candidates_bound db base_slug k Htaken). lia.
      * split; assumption.
Qed.

(** X16.  The slug loop ends: one test more than there are workspaces
    is enough, and more fuel does not change the answer.  The slug it
    returns is used by no workspace; it is the base slug of the name
    when that is free, and otherwise the base slug followed by [-k] for
    the least [k >= 1] that is free. *)
Theorem generate_unique_slug_terminates_unique :
  forall (lower : string -> string) (db : Session) (name : string),
    exists j,
      (forall fuel, (List.length (workspaces db) < fuel)%nat ->
                    generate_unique_slug lower fuel db name =
                    Some (slug_candidate (base_slug_of lower name) j)) /\
      (j <= List.length (workspaces db))%nat /\
      (forall w, In w (workspaces db) ->
                 ws_slug w <> slug_candidate (base_slug_of lower name) j) /\
      (forall j', (j' < j)%nat ->
                  slug_taken db (slug_candidate (base_slug_of lower name) j') = true).
Proof.
  intros lower db name.
  set (base := base_slug_of lower name).
  destruct (slug_loop_finds db base (S (List.length (workspaces db))) 0)
    as (j & Hloop & Hj & Hfree & Hbefore); [intros j Hj; lia|lia|].
  exists j. split; [|split; [lia|split; [|exact Hbefore]]].
  - intros fuel Hfuel. unfold generate_unique_slug. fold base.
    destruct (slug_loop_finds db base fuel 0) as (j' & Hloop' & Hj' & Hfree' & Hbefore');
      [intros i Hi; lia|lia|].
    change (slug_candidate base 0) with base in Hloop'. rewrite Hloop'.
    f_equal. f_equal.
    destruct (Nat.lt_trichotomy j' j) as [Hlt|[->|Hgt]]; [|reflexivity|].
    + rewrite (Hbefore j' Hlt) in Hfree'. discriminate.
    + rewrite (Hbefore' j Hgt) in Hfree. discriminate.
  - intros w Hin E.
    assert (slug_taken db (slug_candidate base j) = true) as Ht.
    { apply slug_taken_in. apply in_map_iff. now exists w. }
    congruence.
Qed.

Example generate_unique_slug_examples :
  generate_unique_slug ascii_lower 2 sample_db "Acme" = Some "acme-1" /\
  generate_unique_slug ascii_lower 2 sample_db "Acme Two" = Some "acme-two" /\
  generate_unique_slug ascii_lower 1 sample_db "Acme" = None.
Proof. repeat split. Qed.

(** ** Removing members and changing roles: what changes and what stays *)

Lemma find_delete_first_member_other (w u w' u' : Z) (ms : list WorkspaceMember) :
  (w', u') <> (w, u) ->
  find (fun m => (wm_user_id m =? u') && (wm_workspace_id m =? w')) (delete_first w u ms) =
  find (fun m => (wm_user_id m =? u') && (wm_workspace_id m =? w')) ms.
Proof.
  intros Hne.
  induction ms as [|a rest IH]; cbn [find delete_first]; [reflexivity|].
  destruct ((wm_workspace_id a =? w) && (wm_user_id a =? u)) eqn:Hk.
  - apply andb_true_iff in Hk as [Hw Hu]. apply Z.eqb_eq in Hw, Hu.
    destruct ((wm_user_id a =? u') && (wm_workspace_id a =? w')) eqn:Hk'; [|reflexivity].
    apply andb_true_iff in Hk' as [Hu' Hw']. apply Z.eqb_eq in Hw', Hu'.
    exfalso. apply Hne. congruence.
  - cbn [find]. now rewrite IH.
Qed.

Lemma existsb_same_delete_first_member (q : WorkspaceMember) (w u : Z)
      (ms : list WorkspaceMember) :
  existsb (same_workspace_user q) ms = false ->
  existsb (same_workspace_user q) (delete_first w u ms) = false.
Proof.
  induction ms as [|a rest IH]; cbn [existsb delete_first]; [reflexivity|].
  intros H. apply orb_false_iff in H as [Ha Hrest].
  destruct ((wm_workspace_id a =? w) && (wm_user_id a =? u)); [exact Hrest|].
  cbn [existsb]. rewrite Ha. now apply IH.
Qed.

Lemma uq_delete_first (w u : Z) (ms : list WorkspaceMember) :
  uq_workspace_user ms = true ->
  uq_workspace_user (delete_first w u ms) = true /\
  find (fun m => (wm_user_id m =? u) && (wm_workspace_id m =? w)) (delete_first w u ms)
  = None.
Proof.
  induction ms as [|a rest IH]; cbn [uq_workspace_user delete_first]; [auto|].
  intros H. apply andb_true_iff in H as [Hfresh Huq].
  destruct (IH Huq) as [IHuq IHfind].
  destruct ((wm_workspace_id a =? w) && (wm_user_id a =? u)) eqn:Hk.
  - split; [exact Huq|].
    apply andb_true_iff in Hk as [Hw Hu]. apply Z.eqb_eq in Hw, Hu.
    apply negb_true_iff in Hfresh.
    destruct (find _ rest) as [m|] eqn:Hf; [|reflexivity].
    apply find_member_in in Hf as (Hin & Hmw & Hmu).
    assert (existsb (same_workspace_user a) rest = true) as Hex.
    { apply existsb_exists. exists m. split; [exact Hin|].
      unfold same_workspace_user. rewrite Hw, Hu, Hmw, Hmu, !Z.eqb_refl. reflexivity. }
    congruence.
  - cbn [uq_workspace_user find]. rewrite andb_comm in Hk. rewrite Hk.
    split; [|exact IHfind].
    apply andb_true_iff. split; [|exact IHuq].
    apply negb_true_iff. apply existsb_same_delete_first_member. now apply negb_true_iff.
Qed.

Lemma find_set_role_first_other (w u w' u' : Z) (r : string) (ms : list WorkspaceMember) :
  (w', u') <> (w, u) ->
  find (fun m => (wm_user_id m =? u') && (wm_workspace_id m =? w'))
       (set_role_first w u r ms) =
  find (fun m => (wm_user_id m =? u') && (wm_workspace_id m =? w')) ms.
Proof.
  intros Hne.
  induction ms as [|a rest IH]; cbn [find set_role_first]; [reflexivity|].
  destruct ((wm_workspace_id a =? w) && (wm_user_id a =? u)) eqn:Hk.
  - cbn [find with_role wm_user_id wm_workspace_id].
    apply andb_true_iff in Hk as [Hw Hu]. apply Z.eqb_eq in Hw, Hu.
    destruct ((wm_user_id a =? u') && (wm_workspace_id a =? w')) eqn:Hk'; [|reflexivity].
    apply andb_true_iff in Hk' as [Hu' Hw']. apply Z.eqb_eq in Hw', Hu'.
    exfalso. apply Hne. congruence.
  - cbn [find]. now rewrite IH.
Qed.

Lemma find_set_role_first_same (w u : Z) (r : string) (ms : list WorkspaceMember)
      (m : WorkspaceMember) :
  find (fun m => (wm_workspace_id m =? w) && (wm_user_id m =? u)) ms = Some m ->
  find (fun m => (wm_user_id m =? u) && (wm_workspace_id m =? w)) (set_role_first w u r ms)
  = Some (with_role m r).
Proof.
  induction ms as [|a rest IH]; cbn [find set_role_first]; [discriminate|].
  destruct ((wm_workspace_id a =? w) && (wm_user_id a =? u)) eqn:Hk.
  - intros [= <-]. cbn [find with_role wm_user_id wm_workspace_id].
    rewrite andb_comm in Hk. now rewrite Hk.
  - intros H. cbn [find]. rewrite andb_comm in Hk. rewrite Hk. now apply IH.
Qed.

Lemma existsb_same_set_role_first (q : WorkspaceMember) (w u : Z) (r : string)
      (ms : list WorkspaceMember) :
  existsb (same_workspace_user q) (set_role_first w u r ms) =
  existsb (same_workspace_user q) ms.
Proof.
  induction ms as [|a rest IH]; cbn [existsb set_role_first]; [reflexivity|].
  destruct ((wm_workspace_id a =? w) && (wm_user_id a =? u)).
  - reflexivity.
  - cbn [existsb]. now rewrite IH.
Qed.

Lemma uq_set_role_first (w u : Z) (r : string) (ms : list WorkspaceMember) :
  uq_workspace_user ms = true -> uq_workspace_user (set_role_first w u r ms) = true.
Proof.
  induction ms as [|a rest IH]; cbn [uq_workspace_user set_role_first]; [reflexivity|].
  intros H. apply andb_true_iff in H as [Hfresh Huq].
  destruct ((wm_workspace_id a =? w) && (wm_user_id a =? u)).
  - cbn [uq_workspace_user]. apply andb_true_iff. split; [exact Hfresh|exact Huq].
  - cbn [uq_workspace_user]. rewrite existsb_same_set_role_first.
    apply andb_true_iff. split; [exact Hfresh|now apply IH].
Qed.

Lemma valid_roles_set_role_first (w u : Z) (r : string) (ms : list WorkspaceMember) :
  str_in r ["admin"; "editor"; "viewer"] = true ->
  valid_roles ms = true -> valid_roles (set_role_first w u r ms) = true.
Proof.
  intros Hr. unfold valid_roles.
  induction ms as [|a rest IH]; cbn [forallb set_role_first]; [reflexivity|].
  intros H. apply andb_true_iff in H as [Ha Hrest].
  destruct ((wm_workspace_id a =? w) && (wm_user_id a =? u)).
  - cbn [forallb with_role wm_role]. now rewrite Hr, Hrest.
  - cbn [forallb]. rewrite Ha. now apply IH.
Qed.

(** Every way [remove_member] can end. *)
Lemma remove_member_inv (db db' : Session) (w target : Z) (current_user : User)
      (o : outcome unit) :
  remove_member w target current_user db = (o, db') ->
  (o = Returned tt /\
   is_workspace_admin db (Models.user_id current_user) w = true /\
   target <> Models.user_id current_user /\
   (forall workspace, find_workspace w db = Some workspace ->
                      ws_created_by workspace <> target) /\
   (exists m, membership db w target m) /\
   db' = delete_member w target db) \/
  (exists e, o = Raised e /\ db' = db).
Proof.
  unfold remove_member, bind, query, raise_if, raise, ret, commit.
  destruct (is_workspace_admin db (Models.user_id current_user) w); cbn [negb].
  2:{ intros [= <- <-]. right. eexists. split; reflexivity. }
  destruct (Z.eqb_spec target (Models.user_id current_user)) as [Hself|Hself].
  { intros [= <- <-]. right. eexists. split; reflexivity. }
  destruct (find_workspace w db) as [workspace|] eqn:Hws.
  - destruct (Z.eqb_spec (ws_created_by workspace) target) as [Hcr|Hcr].
    { intros [= <- <-]. right. eexists. split; reflexivity. }
    destruct (find_member w target db) as [m|] eqn:Hm.
    + intros [= <- <-]. left. repeat split; auto.
      * intros ws [= <-]. exact Hcr.
      * exists m. unfold find_member in Hm. rewrite find_member_order in Hm.
        now apply find_member_in.
    + intros [= <- <-]. right. eexists. split; reflexivity.
  - destruct (find_member w target db) as [m|] eqn:Hm.
    + intros [= <- <-]. left. repeat split; auto.
      * intros ws [=].
      * exists m. unfold find_member in Hm. rewrite find_member_order in Hm.
        now apply find_member_in.
    + intros [= <- <-]. right. eexists. split; reflexivity.
Qed.

Lemma get_user_role_delete_member (db : Session) (w u : Z) :
  (forall w' u', (w', u') <> (w, u) ->
                 get_user_role (delete_member w u db) u' w' = get_user_role db u' w') /\
  (uq_workspace_user (workspace_members db) = true ->
   get_user_role (delete_member w u db) u w = None /\
   uq_workspace_user (workspace_members (delete_member w u db)) = true).
Proof.
  unfold get_user_role, delete_member. cbn [workspace_members]. split.
  - intros w' u' Hne. now rewrite find_delete_first_member_other.
  - intros Huq. destruct (uq_delete_first w u _ Huq) as [Huq' Hnone].
    split; [now rewrite Hnone|exact Huq'].
Qed.

(** X17.  [remove_member] deletes a row only for a caller who is an
    admin of the workspace, a target who is neither the caller nor the
    workspace's creator, and a target who has a row; every other call
    raises and changes nothing.  After a removal the target has no role
    in the workspace (the table being unique per workspace and user)
    and every other pair keeps its role. *)
Theorem remove_member_effect :
  forall (db db' : Session) (w target : Z) (current_user : User) (o : outcome unit),
    remove_member w target current_user db = (o, db') ->
    (o = Returned tt /\
     is_workspace_admin db (Models.user_id current_user) w = true /\
     target <> Models.user_id current_user /\
     (forall workspace, find_workspace w db = Some workspace ->
                        ws_created_by workspace <> target) /\
     (exists m, membership db w target m) /\
     (forall w' u', (w', u') <> (w, target) ->
                    get_user_role db' u' w' = get_user_role db u' w') /\
     (uq_workspace_user (workspace_members db) = true ->
      get_user_role db' target w = None /\
      uq_workspace_user (workspace_members db') = true)) \/
    (exists e, o = Raised e /\ db' = db).
Proof.
  intros db db' w target current_user o H.
  destruct (remove_member_inv _ _ _ _ _ _ H)
    as [(-> & Hadmin & Hself & Hcr & Hm & ->)|Hfail]; [left|now right].
  destruct (get_user_role_delete_member db w target) as [Hother Hsame].
  repeat split; auto; now apply Hsame.
Qed.

Lemma remove_member_effect_witness :
  uq_workspace_user (workspace_members sample_db) = true /\
  fst (remove_member 1 3 alice sample_db) = Returned tt /\
  get_user_role (snd (remove_member 1 3 alice sample_db)) 3 1 = None /\
  get_user_role (snd (remove_member 1 3 alice sample_db)) 2 1 = Some "editor".
Proof.
  destruct (remove_member_effect sample_db _ 1 3 alice _ eq_refl)
    as [(_ & _ & _ & _ & _ & Hother & Hsame)|(e & H & _)]; [|discriminate H].
  split; [reflexivity|]. split; [reflexivity|].
  split; [exact (proj1 (Hsame eq_refl))|].
  assert ((1, 2) <> (1, 3)) as Hne by discriminate.
  exact (Hother 1 2 Hne).
Defined.

Lemma can_modify_member_role_true (db : Session) (actor target w : Z) (new_role : string) :
  can_modify_member_role db actor target w new_role = true ->
  actor <> target /\ is_workspace_admin db actor w = true.
Proof.
  unfold can_modify_member_role.
  destruct (Z.eqb_spec actor target); [discriminate|].
  destruct (is_workspace_admin db actor w); [auto|discriminate].
Qed.

(** Every way [update_member_role] can end. *)
Lemma update_member_role_inv (db db' : Session) (w target : Z) (role : option string)
      (current_user : User) (o : outcome WorkspaceMember) :
  update_member_role w target role current_user db = (o, db') ->
  (exists new_role m,
      role = Some new_role /\ In new_role ["admin"; "editor"; "viewer"] /\
      Models.user_id current_user <> target /\
      is_workspace_admin db (Models.user_id current_user) w = true /\
      find_member w target db = Some m /\
      o = Returned (with_role m new_role) /\
      db' = set_member_role w target new_role db) \/
  (exists e, o = Raised e /\ db' = db).
Proof.
  unfold update_member_role.
  destruct role as [new_role|];
    [|intros [= <- <-]; right; eexists; split; reflexivity].
  destruct new_role as [|c rest];
    [intros [= <- <-]; right; eexists; split; reflexivity|].
  remember (String c rest) as new_role eqn:Hnew. clear Hnew c rest.
  destruct (str_in new_role ["admin"; "editor"; "viewer"]) eqn:Hvalid; cbn [negb].
  2:{ intros [= <- <-]. right. eexists. split; reflexivity. }
  unfold bind, query, raise_if, raise, ret, commit.
  destruct (can_modify_member_role db (Models.user_id current_user) target w new_role)
    eqn:Hcan; cbn [negb].
  2:{ intros [= <- <-]. right. eexists. split; reflexivity. }
  apply can_modify_member_role_true in Hcan as [Hne Hadmin].
  destruct (find_member w target db) as [m|] eqn:Hm.
  2:{ intros [= <- <-]. right. eexists. split; reflexivity. }
  intros [= <- <-]. left. exists new_role, m. repeat split; auto.
  unfold str_in in Hvalid. apply existsb_exists in Hvalid as (x & Hin & E).
  apply String.eqb_eq in E. now subst.
Qed.

Lemma get_user_role_set_member_role (db : Session) (w u : Z) (r : string) :
  (forall w' u', (w', u') <> (w, u) ->
                 get_user_role (set_member_role w u r db) u' w' = get_user_role db u' w') /\
  (forall m, find_member w u db = Some m ->
             get_user_role (set_member_role w u r db) u w = Some r) /\
  (uq_workspace_user (workspace_members db) = true ->
   uq_workspace_user (workspace_members (set_member_role w u r db)) = true) /\
  (str_in r ["admin"; "editor"; "viewer"] = true ->
   valid_roles (workspace_members db) = true ->
   valid_roles (workspace_members (set_member_role w u r db)) = true).
Proof.
  unfold get_user_role, set_member_role, find_member. cbn [workspace_members].
  split; [|split; [|split]].
  - intros w' u' Hne. now rewrite find_set_role_first_other.
  - intros m Hm. now rewrite (find_set_role_first_same _ _ r _ _ Hm).
  - apply uq_set_role_first.
  - apply valid_roles_set_role_first.
Qed.

(** X18.  [update_member_role] writes only for a role among the three,
    a caller who is an admin of the workspace and is not the target, and
    a target who has a row; every other call raises and changes nothing.
    After the write the target holds the new role, every other pair
    keeps its role, and the table stays unique and within the role
    check constraint. *)
Theorem update_member_role_effect :
  forall (db db' : Session) (w target : Z) (role : option string) (current_user : User)
         (o : outcome WorkspaceMember),
    update_member_role w target role current_user db = (o, db') ->
    (exists new_role m,
        role = Some new_role /\ In new_role ["admin"; "editor"; "viewer"] /\
        Models.user_id current_user <> target /\
        is_workspace_admin db (Models.user_id current_user) w = true /\
        membership db w target m /\
        o = Returned (with_role m new_role) /\
        get_user_role db' target w = Some new_role /\
        (forall w' u', (w', u') <> (w, target) ->
                       get_user_role db' u' w' = get_user_role db u' w') /\
        (uq_workspace_user (workspace_members db) = true ->
         uq_workspace_user (workspace_members db') = true) /\
        (valid_roles (workspace_members db) = true ->
         valid_roles (workspace_members db') = true)) \/
    (exists e, o = Raised e /\ db' = db).
Proof.
  intros db db' w target role current_user o H.
  destruct (update_member_role_inv _ _ _ _ _ _ _ H)
    as [(new_role & m & -> & Hin & Hne & Hadmin & Hm & -> & ->)|Hfail]; [left|now right].
  destruct (get_user_role_set_member_role db w target new_role)
    as (Hother & Hsame & Huq & Hvalid).
  exists new_role, m. repeat split; auto.
  - unfold find_member in Hm. rewrite find_member_order in Hm.
    now apply find_member_in in Hm.
  - unfold find_member in Hm. rewrite find_member_order in Hm.
    now apply find_member_in in Hm.
  - unfold find_member in Hm. rewrite find_member_order in Hm.
    now apply find_member_in in Hm.
  - now apply (Hsame m).
  - apply Hvalid. now apply str_in_valid_roles.
Qed.

Lemma update_member_role_effect_witness :
  fst (update_member_role 1 3 (Some "editor") alice sample_db) =
  Returned (mkWorkspaceMember 1 3 "editor" (Some 1) 20) /\
  get_user_role (snd (update_member_role 1 3 (Some "editor") alice sample_db)) 3 1 =
  Some "editor" /\
  get_user_role (snd (update_member_role 1 3 (Some "editor") alice sample_db)) 1 1 =
  Some "admin".
Proof.
  destruct (update_member_role_effect sample_db _ 1 3 (Some "editor") alice _ eq_refl)
    as [(new_role & m & Hrole & _ & _ & _ & _ & _ & Hsame & Hother & _)|(e & H & _)];
    [|discriminate H].
  injection Hrole as <-.
  split; [reflexivity|]. split; [exact Hsame|].
  assert ((1, 1) <> (1, 3)) as Hne by discriminate.
  exact (Hother 1 1 Hne).
Defined.

Lemma is_workspace_admin_role (db db' : Session) (u w : Z) :
  get_user_role db' u w = get_user_role db u w ->
  is_workspace_admin db' u w = is_workspace_admin db u w.
Proof.
  intros H. unfold is_workspace_admin. rewrite !check_permission_level. now rewrite H.
Qed.

(** X19.  Neither member removal nor a role change can leave a
    workspace without an admin: a workspace that has an admin still has
    one after any call of [remove_member] or [update_member_role], on
    any workspace, by any caller. *)
Theorem workspace_keeps_an_admin :
  forall (db : Session) (w : Z),
    (exists a, is_workspace_admin db a w = true) ->
    forall (w' target : Z) (role : option string) (current_user : User),
      (exists a, is_workspace_admin (snd (remove_member w' target current_user db)) a w
                 = true) /\
      (exists a,
          is_workspace_admin (snd (update_member_role w' target role current_user db)) a w
          = true).
Proof.
  intros db w (a & Ha) w' target role current_user. split.
  - destruct (remove_member w' target current_user db) as [o db'] eqn:H. cbn [snd].
    destruct (remove_member_inv _ _ _ _ _ _ H)
      as [(_ & Hadmin & Hself & _ & _ & ->)|(e & _ & ->)]; [|now exists a].
    destruct (get_user_role_delete_member db w' target) as [Hother _].
    destruct (Z.eq_dec w w') as [<-|Hw].
    + exists (Models.user_id current_user).
      rewrite (is_workspace_admin_role db); [exact Hadmin|].
      apply Hother. intros [= E]. congruence.
    + exists a. rewrite (is_workspace_admin_role db); [exact Ha|].
      apply Hother. intros [= E]. congruence.
  - destruct (update_member_role w' target role current_user db) as [o db'] eqn:H.
    cbn [snd].
    destruct (update_member_role_inv _ _ _ _ _ _ _ H)
      as [(new_role & m & _ & _ & Hself & Hadmin & _ & _ & ->)|(e & _ & ->)];
      [|now exists a].
    destruct (get_user_role_set_member_role db w' target new_role) as [Hother _].
    destruct (Z.eq_dec w w') as [<-|Hw].
    + exists (Models.user_id current_user).
      rewrite (is_workspace_admin_role db); [exact Hadmin|].
      apply Hother. intros [= E]. congruence.
    + exists a. rewrite (is_workspace_admin_role db); [exact Ha|].
      apply Hother. intros [= E]. congruence.
Qed.

Lemma workspace_keeps_an_admin_witness :
  exists a,
    is_workspace_admin (snd (update_member_role 1 1 (Some "viewer") alice sample_db)) a 1
    = true.
Proof.
  apply (workspace_keeps_an_admin sample_db 1).
  exists 1. reflexivity.
Defined.

(** ** Switching, renaming and listing workspaces *)

Lemma find_set_current_first (uid w : Z) (us : list User) :
  find (fun x => Models.user_id x =? uid) (set_current_first uid w us) =
  option_map (fun x => with_current_workspace x w)
             (find (fun x => Models.user_id x =? uid) us).
Proof.
  induction us as [|a rest IH]; cbn [find set_current_first option_map]; [reflexivity|].
  destruct (Models.user_id a =? uid) eqn:Hk.
  - cbn [find with_current_workspace Models.user_id]. now rewrite Hk.
  - cbn [find]. now rewrite Hk.
Qed.

(** X20.  [switch_workspace] succeeds exactly for a caller whose role in
    the target workspace passes the viewer check, and otherwise raises
    404 and changes nothing.  After a switch the caller's stored row
    names the workspace as current, so a later request without a
    workspace header (and without an id in the request state) resolves
    to it; memberships, workspaces and connections are untouched. *)
Theorem switch_workspace_then_resolve :
  forall (int : string -> option Z) (db : Session) (w : Z) (current_user : User),
    let result := switch_workspace w current_user db in
    (check_permission db (Models.user_id current_user) w "viewer" = true ->
     exists user',
       fst result = Returned (user', w) /\
       Models.user_id user' = Models.user_id current_user /\
       user_current_workspace_id user' = Some w /\
       find (fun x => Models.user_id x =? Models.user_id current_user) (users (snd result)) =
       option_map (fun x => with_current_workspace x w)
                  (find (fun x => Models.user_id x =? Models.user_id current_user)
                        (users db)) /\
       (forall request,
           state_workspace_id request = None ->
           header_X_Workspace_ID request = None \/
           header_X_Workspace_ID request = Some "" ->
           get_workspace_id int request (Some user') = Returned w)) /\
    (check_permission db (Models.user_id current_user) w "viewer" = false ->
     result = (Raised (mkHTTPException HTTP_404_NOT_FOUND "Workspace not found"), db)) /\
    (workspaces (snd result) = workspaces db /\
     workspace_members (snd result) = workspace_members db /\
     connections (snd result) = connections db /\
     connection_permissions (snd result) = connection_permissions db).
Proof.
  intros int db w current_user result. subst result.
  unfold switch_workspace, bind, query, raise_if, raise, ret, commit.
  destruct (check_permission db (Models.user_id current_user) w "viewer"); cbn [negb].
  - split; [|split; [discriminate|repeat split]].
    intros _. eexists. cbn [fst snd]. split; [reflexivity|].
    split; [reflexivity|]. split; [reflexivity|].
    split; [apply find_set_current_first|].
    intros request Hstate Hheader. unfold get_workspace_id. rewrite Hstate.
    destruct Hheader as [-> | ->]; reflexivity.
  - split; [discriminate|]. split; [reflexivity|]. repeat split.
Qed.

Lemma switch_workspace_then_resolve_witness :
  check_permission sample_db 3 1 "viewer" = true /\
  exists user',
    fst (switch_workspace 1 carol sample_db) = Returned (user', 1) /\
    get_workspace_id decimal (mkRequest "/api/dashboards" None None None None None)
                     (Some user') = Returned 1.
Proof.
  split; [reflexivity|].
  destruct (proj1 (switch_workspace_then_resolve decimal sample_db 1 carol) eq_refl)
    as (user' & Hret & _ & _ & _ & Hresolve).
  exists user'. split; [exact Hret|].
  apply Hresolve; [reflexivity|now left].
Defined.






Lemma find_workspace_unique (wss : list Workspace) (workspace : Workspace) :
  unique_workspace_id wss = true ->
  In workspace wss ->
  find (fun w => ws_id w =? ws_id workspace) wss = Some workspace.
Proof.
  induction wss as [|a rest IH]; cbn [unique_workspace_id find]; [contradiction|].
  intros H Hin. apply andb_true_iff in H as [Hfresh Huq].
  destruct Hin as [->|Hin]; [now rewrite Z.eqb_refl|].
  destruct (Z.eqb_spec (ws_id a) (ws_id workspace)) as [E|_]; [|now apply IH].
  apply negb_true_iff in Hfresh.
  assert (existsb (fun w' => ws_id a =? ws_id w') rest = true) as Hex.
  { apply existsb_exists. exists workspace. split; [exact Hin|now apply Z.eqb_eq]. }
  congruence.
Qed.

(** X22.  Listing and fetching agree: with workspace ids unique and the
    roles within their check constraint, a workspace is in the caller's
    [list_workspaces] exactly when [get_workspace] on its id returns it
    to the caller. *)
Theorem list_workspaces_iff_get_workspace :
  forall (db : Session) (current_user : User) (workspace : Workspace),
    unique_workspace_id (workspaces db) = true ->
    valid_roles (workspace_members db) = true ->
    (In workspace (list_workspaces current_user db) <->
     get_workspace (ws_id workspace) current_user db = (Returned workspace, db)).
Proof.
  intros db current_user workspace Hpk Hvalid.
  unfold list_workspaces, get_workspace, bind, query, raise_if, raise, ret.
  rewrite filter_In, check_permission_level. unfold get_user_role, find_workspace.
  split.
  - intros [Hin Hex]. apply existsb_exists in Hex as (m & Hmin & Hk).
    apply andb_true_iff in Hk as [Hw Hu]. apply Z.eqb_eq in Hw, Hu.
    destruct (find (fun m0 => (wm_user_id m0 =? Models.user_id current_user)
                              && (wm_workspace_id m0 =? ws_id workspace))
                   (workspace_members db)) as [m'|] eqn:Hf.
    + apply find_some in Hf as [Hin' _].
      unfold valid_roles in Hvalid. rewrite forallb_forall in Hvalid.
      specialize (Hvalid m' Hin').
      assert (1 <= role_level (wm_role m')) as Hpos.
      { unfold str_in in Hvalid. apply existsb_exists in Hvalid as (x & Hx & E).
        apply String.eqb_eq in E. rewrite E.
        destruct Hx as [<-|[<-|[<-|[]]]]; vm_compute; discriminate. }
      change (role_level "viewer") with 1.
      destruct (Z.leb_spec 1 (role_level (wm_role m'))); [|lia]. cbn [negb].
      now rewrite (find_workspace_unique _ _ Hpk Hin).
    + exfalso. exact (find_member_none _ _ _ Hf m Hmin (conj Hw Hu)).
  - destruct (find (fun m0 => (wm_user_id m0 =? Models.user_id current_user)
                              && (wm_workspace_id m0 =? ws_id workspace))
                   (workspace_members db)) as [m'|] eqn:Hf; cbn [negb];
      [|discriminate].
    destruct (_ <=? _); cbn [negb]; [|discriminate].
    destruct (find (fun w => ws_id w =? ws_id workspace) (workspaces db))
      as [found|] eqn:Hws; [|discriminate].
    intros [= ->]. apply find_some in Hws as [Hin _]. split; [exact Hin|].
    apply find_member_in in Hf as (Hmin & Hw & Hu).
    apply existsb_exists. exists m'. split; [exact Hmin|].
    now rewrite Hw, Hu, !Z.eqb_refl.
Qed.

Lemma list_workspaces_iff_get_workspace_witness :
  unique_workspace_id (workspaces sample_db) = true /\
  valid_roles (workspace_members sample_db) = true /\
  In (mkWorkspace 1 "Acme" "acme" 1) (list_workspaces carol sample_db) /\
  list_workspaces dave sample_db = [].
Proof.
  split; [reflexivity|]. split; [reflexivity|]. split; [|reflexivity].
  apply (proj2 (list_workspaces_iff_get_workspace sample_db carol
                  (mkWorkspace 1 "Acme" "acme" 1) eq_refl eq_refl)).
  reflexivity.
Defined.

(** ** Dashboards: who may write, and sharing *)

Lemma get_workspace_id_raises_400 (int : string -> option Z) (request : Request)
      (current_user : option User) (e : HTTPException) :
  get_workspace_id int request current_user = Raised e -> status_code e = 400.
Proof.
  unfold get_workspace_id.
  destruct (state_workspace_id request) as [w|].
  - discriminate.
  - destruct (header_X_Workspace_ID request) as [[|c h]|];
      try destruct (int (String c h));
      destruct current_user as [user|]; try destruct (user_current_workspace_id user);
      (discriminate || (intros [= <-]; reflexivity)).
Qed.

(** Every way the opening checks can end. *)
Lemma owned_dashboard_inv (int : string -> option Z) (role_detail owner_detail : string)
      (db : Session) (dashboard_id : Z) (request : Request) (current_user : User)
      (ds : list Dashboard) :
  (exists w d,
      may_write_dashboard int db request current_user dashboard_id ds w d /\
      owned_dashboard int role_detail owner_detail db dashboard_id request current_user ds
      = Returned (w, d)) \/
  (exists e,
      owned_dashboard int role_detail owner_detail db dashboard_id request current_user ds
      = Raised e /\
      (status_code e = 404 \/ status_code e = 400)).
Proof.
  unfold owned_dashboard, may_write_dashboard.
  destruct (get_workspace_id int request (Some current_user)) as [w|e] eqn:Hres.
  2:{ right. exists e. split; [reflexivity|]. right.
      exact (get_workspace_id_raises_400 _ _ _ _ Hres). }
  destruct (is_workspace_editor_or_above db (Models.user_id current_user) w) eqn:Hed;
    cbn [negb].
  2:{ right. eexists. split; [reflexivity|now left]. }
  destruct (find_dashboard dashboard_id w ds) as [d|] eqn:Hd.
  2:{ right. eexists. split; [reflexivity|now left]. }
  destruct (is_workspace_admin db (Models.user_id current_user) w) eqn:Hadm; cbn [negb andb].
  - left. exists w, d. repeat split; auto.
  - destruct (Z.eqb_spec (d_created_by d) (Models.user_id current_user)) as [Hc|Hc];
      cbn [negb].
    + left. exists w, d. repeat split; auto.
    + right. eexists. split; [reflexivity|now left].
Qed.






Lemma find_update_first_dashboard_same (i w : Z) (f : Dashboard -> Dashboard)
      (ds : list Dashboard) (d : Dashboard) :
  (forall x, d_id (f x) = d_id x /\ d_workspace_id (f x) = d_workspace_id x) ->
  find_dashboard i w ds = Some d ->
  find_dashboard i w (update_first_dashboard i w f ds) = Some (f d).
Proof.
  intros Hf. unfold find_dashboard.
  induction ds as [|a rest IH]; cbn [find update_first_dashboard]; [discriminate|].
  destruct ((d_id a =? i) && (d_workspace_id a =? w)) eqn:Hk.
  - intros [= <-]. cbn [find]. destruct (Hf a) as [-> ->]. now rewrite Hk.
  - intros H. cbn [find]. rewrite Hk. now apply IH.
Qed.

Lemma update_first_dashboard_twice (i w : Z) (f g : Dashboard -> Dashboard)
      (ds : list Dashboard) :
  (forall x, d_id (f x) = d_id x /\ d_workspace_id (f x) = d_workspace_id x) ->
  update_first_dashboard i w g (update_first_dashboard i w f ds) =
  update_first_dashboard i w (fun x => g (f x)) ds.
Proof.
  intros Hf. induction ds as [|a rest IH]; cbn [update_first_dashboard]; [reflexivity|].
  destruct ((d_id a =? i) && (d_workspace_id a =? w)) eqn:Hk.
  - cbn [update_first_dashboard]. destruct (Hf a) as [-> ->]. now rewrite Hk.
  - cbn [update_first_dashboard]. now rewrite Hk, IH.
Qed.

Lemma token_unused_not_found (token : string) (ds : list Dashboard) :
  token_unused token ds = true -> find (is_shared_as token) ds = None.
Proof.
  unfold token_unused. induction ds as [|a rest IH]; cbn [forallb find]; [reflexivity|].
  intros H. apply andb_true_iff in H as [Ha Hrest].
  unfold is_shared_as at 1. apply negb_true_iff in Ha. rewrite Ha. cbn [andb].
  now apply IH.
Qed.

Lemma find_shared_after_share (token : string) (now expires_in_days i w : Z)
      (ds : list Dashboard) (d : Dashboard) :
  token_unused token ds = true ->
  find_dashboard i w ds = Some d ->
  find (is_shared_as token)
       (update_first_dashboard i w (shared token now expires_in_days) ds) =
  Some (shared token now expires_in_days d).
Proof.
  unfold token_unused, find_dashboard.
  induction ds as [|a rest IH]; cbn [forallb find update_first_dashboard]; [discriminate|].
  intros H. apply andb_true_iff in H as [Ha Hrest]. apply negb_true_iff in Ha.
  destruct ((d_id a =? i) && (d_workspace_id a =? w)).
  - intros [= <-]. cbn [find]. unfold is_shared_as at 1.
    cbn [shared d_public_token d_is_public role_is]. now rewrite String.eqb_refl.
  - intros Hd. cbn [find]. unfold is_shared_as at 1. rewrite Ha. cbn [andb].
    now apply IH.
Qed.

Lemma token_unused_after_unshare (token : string) (now i w : Z)
      (f : Dashboard -> Dashboard) (ds : list Dashboard) :
  token_unused token ds = true ->
  token_unused token (update_first_dashboard i w (fun x => unshared now (f x)) ds) = true.
Proof.
  unfold token_unused.
  induction ds as [|a rest IH]; cbn [forallb update_first_dashboard]; [reflexivity|].
  intros H. apply andb_true_iff in H as [Ha Hrest].
  destruct ((d_id a =? i) && (d_workspace_id a =? w)).
  - cbn [forallb unshared d_public_token role_is negb]. exact Hrest.
  - cbn [forallb]. rewrite Ha. now apply IH.
Qed.

(** X24.  Sharing round trip.  When [generate_share_token] succeeds with
    a token no dashboard uses yet, the public route finds the dashboard
    under that token up to and including the expiry time (the time of
    sharing plus [expires_in_days] days), returns it with its access
    count raised by one, and answers 410 after the expiry time; once the
    same caller revokes the sharing, the public route answers 404 for
    the token at any time. *)
Theorem share_token_round_trip :
  forall (int : string -> option Z) (db : Session) (dashboard_id : Z) (request : Request)
         (current_user : User) (ds ds_shared : list Dashboard) (token : string)
         (now expires_in_days : Z) (d' : Dashboard),
    token_unused token ds = true ->
    generate_share_token int token now db dashboard_id request expires_in_days
                         current_user ds = (Returned d', ds_shared) ->
    (d_id d' = dashboard_id /\ d_is_public d' = true /\ d_public_token d' = Some token /\
     d_public_token_expires_at d' = Some (now + expires_in_days * 86400)) /\
    (forall t, t <= now + expires_in_days * 86400 ->
               get_public_dashboard t token ds_shared =
               (Returned (counted t d'), count_first_shared t token ds_shared) /\
               d_public_access_count (counted t d') = d_public_access_count d' + 1) /\
    (forall t, now + expires_in_days * 86400 < t ->
               get_public_dashboard t token ds_shared =
               (Raised (mkHTTPException 410 "This sharing link has expired"), ds_shared)) /\
    (forall t n,
        let revoked := revoke_share_token int n db dashboard_id request current_user
                                          ds_shared in
        fst revoked = Returned tt /\
        get_public_dashboard t token (snd revoked) =
        (Raised (mkHTTPException 404 "Dashboard not found or not publicly accessible"),
         snd revoked)).
Proof.
  intros int db dashboard_id request current_user ds ds_shared token now expires_in_days d'
         Hunused Hshare.
  unfold generate_share_token in Hshare.
  destruct (owned_dashboard_inv int "You need editor or admin role to share dashboards"
              "You can only share your own dashboards"
              db dashboard_id request current_user ds)
    as [(w & d & Hmay & Hok)|(e & Hfail & _)];
    [rewrite Hok in Hshare|rewrite Hfail in Hshare; discriminate].
  injection Hshare as <- <-.
  destruct Hmay as (Hres & Hed & Hd & Hown).
  assert (forall x, d_id (shared token now expires_in_days x) = d_id x /\
                    d_workspace_id (shared token now expires_in_days x) = d_workspace_id x)
    as Hkeeps by (intros x; split; reflexivity).
  pose proof (find_shared_after_share token now expires_in_days _ _ _ _ Hunused Hd)
    as Hfound.
  split; [|split; [|split]].
  - cbn [shared d_id d_is_public d_public_token d_public_token_expires_at].
    unfold find_dashboard in Hd. apply find_some in Hd as [_ Hk].
    apply andb_true_iff in Hk as [Hi _]. apply Z.eqb_eq in Hi. unfold days. auto.
  - intros t Ht. unfold get_public_dashboard. rewrite Hfound.
    cbn [shared d_public_token_expires_at]. unfold days.
    destruct (Z.ltb_spec (now + expires_in_days * 86400) t); [lia|].
    split; reflexivity.
  - intros t Ht. unfold get_public_dashboard, dashboard_raise. rewrite Hfound.
    cbn [shared d_public_token_expires_at]. unfold days.
    destruct (Z.ltb_spec (now + expires_in_days * 86400) t); [reflexivity|lia].
  - intros t n revoked. subst revoked. unfold revoke_share_token.
    assert (owned_dashboard int "You need editor or admin role to revoke dashboard sharing"
              "You can only revoke sharing for your own dashboards" db dashboard_id request
              current_user
              (update_first_dashboard dashboard_id w (shared token now expires_in_days) ds)
            = Returned (w, shared token now expires_in_days d)) as Hrev.
    { unfold owned_dashboard. rewrite Hres, Hed. cbn [negb].
      rewrite (find_update_first_dashboard_same _ _ _ _ _ Hkeeps Hd).
      cbn [shared d_created_by].
      destruct Hown as [-> | ->]; [reflexivity|].
      rewrite Z.eqb_refl. cbn [negb]. now rewrite andb_false_r. }
    rewrite Hrev. cbn [fst snd]. split; [reflexivity|].
    rewrite (update_first_dashboard_twice _ _ _ _ _ Hkeeps).
    unfold get_public_dashboard, dashboard_raise.
    rewrite token_unused_not_found; [reflexivity|].
    now apply token_unused_after_unshare.
Qed.

Lemma share_token_round_trip_witness :
  token_unused "tok" sample_dashboards = true /\
  exists d' ds',
    generate_share_token decimal "tok" 1000 sample_db 100
      (mkRequest "/api/dashboards/100/share" (Some "1") None None None None) 30 bob
      sample_dashboards = (Returned d', ds') /\
    fst (get_public_dashboard 2000 "tok" ds') = Returned (counted 2000 d') /\
    fst (get_public_dashboard (1000 + 30 * 86400 + 1) "tok" ds') =
    Raised (mkHTTPException 410 "This sharing link has expired").
Proof.
  split; [reflexivity|]. eexists. eexists. split; [reflexivity|].
  pose proof (share_token_round_trip decimal sample_db 100
                (mkRequest "/api/dashboards/100/share" (Some "1") None None None None)
                bob sample_dashboards _ "tok" 1000 30 _ eq_refl eq_refl)
    as (_ & Hfresh & Hexpired & _).
  split.
  - rewrite (proj1 (Hfresh 2000 ltac:(lia))). reflexivity.
  - rewrite (Hexpired (1000 + 30 * 86400 + 1) ltac:(lia)). reflexivity.
Defined.

(** X25.  [get_dashboard] returns a dashboard only from the workspace
    the request resolves to: what it returns carries the requested id
    and the resolved workspace id, a dashboard of any other workspace is
    answered with 404, and the table is never changed. *)
Theorem get_dashboard_scoped :
  forall (int : string -> option Z) (dashboard_id : Z) (request : Request)
         (current_user : User) (ds : list Dashboard),
    snd (get_dashboard int dashboard_id request current_user ds) = ds /\
    (forall d, fst (get_dashboard int dashboard_id request current_user ds) = Returned d ->
               In d ds /\ d_id d = dashboard_id /\
               get_workspace_id int request (Some current_user) =
               Returned (d_workspace_id d)) /\
    (forall w, get_workspace_id int request (Some current_user) = Returned w ->
               (forall d, In d ds -> d_id d = dashboard_id -> d_workspace_id d <> w) ->
               fst (get_dashboard int dashboard_id request current_user ds) =
               Raised (mkHTTPException 404 "Dashboard not found")).
Proof.
  intros int dashboard_id request current_user ds. unfold get_dashboard, dashboard_raise.
  destruct (get_workspace_id int request (Some current_user)) as [w|e].
  2:{ cbn [fst snd]. split; [reflexivity|]. split; [discriminate|]. intros w [=]. }
  destruct (find_dashboard dashboard_id w ds) as [d|] eqn:Hd; cbn [fst snd].
  - unfold find_dashboard in Hd. apply find_some in Hd as [Hin Hk].
    apply andb_true_iff in Hk as [Hi Hw]. apply Z.eqb_eq in Hi, Hw.
    split; [reflexivity|]. split.
    + intros d0 [= <-]. rewrite Hw. auto.
    + intros w0 [= <-] Hother. exfalso. exact (Hother d Hin Hi Hw).
  - split; [reflexivity|]. split; [discriminate|reflexivity].
Qed.

Lemma get_dashboard_scoped_witness :
  fst (get_dashboard decimal 200
         (mkRequest "/api/dashboards/200" (Some "1") None None None None) bob
         sample_dashboards) = Raised (mkHTTPException 404 "Dashboard not found").
Proof.
  apply (proj2 (proj2 (get_dashboard_scoped decimal 200
                         (mkRequest "/api/dashboards/200" (Some "1") None None None None)
                         bob sample_dashboards)) 1); [reflexivity|].
  intros d [<-|[<-|[<-|[]]]]; discriminate.
Defined.

(** ** Creating a workspace *)

Lemma generate_unique_slug_total (lower : string -> string) (db : Session) (name : string) :
  exists slug,
    (forall fuel, (List.length (workspaces db) < fuel)%nat ->
                  generate_unique_slug lower fuel db name = Some slug) /\
    slug_taken db slug = false.
Proof.
  set (base := base_slug_of lower name).
  destruct (slug_loop_finds db base (S (List.length (workspaces db))) 0)
    as (j & _ & _ & Hfree & Hbefore); [intros j Hj; lia|lia|].
  exists (slug_candidate base j). split; [|exact Hfree].
  intros fuel Hfuel. unfold generate_unique_slug. fold base.
  destruct (slug_loop_finds db base fuel 0) as (j' & Hloop' & _ & Hfree' & Hbefore');
    [intros i Hi; lia|lia|].
  change (slug_candidate base 0) with base in Hloop'. rewrite Hloop'.
  f_equal. f_equal.
  destruct (Nat.lt_trichotomy j' j) as [Hlt|[->|Hgt]]; [|reflexivity|].
  - rewrite (Hbefore j' Hlt) in Hfree'. discriminate.
  - rewrite (Hbefore' j Hgt) in Hfree. discriminate.
Qed.

Lemma fresh_no_member (new_id u : Z) (ms : list WorkspaceMember) :
  forallb (fun m => negb (wm_workspace_id m =? new_id)) ms = true ->
  find (fun m => (wm_user_id m =? u) && (wm_workspace_id m =? new_id)) ms = None.
Proof.
  induction ms as [|a rest IH]; cbn [forallb find]; [reflexivity|].
  intros H. apply andb_true_iff in H as [Ha Hrest]. apply negb_true_iff in Ha.
  rewrite Ha, andb_false_r. now apply IH.
Qed.

Lemma fresh_no_workspace (new_id : Z) (wss : list Workspace) :
  forallb (fun w => negb (ws_id w =? new_id)) wss = true ->
  find (fun w => ws_id w =? new_id) wss = None.
Proof.
  induction wss as [|a rest IH]; cbn [forallb find]; [reflexivity|].
  intros H. apply andb_true_iff in H as [Ha Hrest]. apply negb_true_iff in Ha.
  rewrite Ha. now apply IH.
Qed.

Lemma fresh_no_settings (new_id : Z) (settings : list WorkspaceSettings) :
  forallb (fun s => negb (s_workspace_id s =? new_id)) settings = true ->
  filter (fun s => s_workspace_id s =? new_id) settings = [].
Proof.
  induction settings as [|a rest IH]; cbn [forallb filter]; [reflexivity|].
  intros H. apply andb_true_iff in H as [Ha Hrest]. apply negb_true_iff in Ha.
  rewrite Ha. now apply IH.
Qed.

(** X26.  [create_workspace] always completes once the slug loop may run
    one test more than there are workspaces.  For an id the store has
    not used, the new workspace carries a slug no other workspace has;
    its creator is an admin of it and can fetch it; it has exactly one
    settings row, with the defaults; every role in every other
    workspace is as before and the membership table stays unique; the
    creator's current workspace becomes the new one only if none was
    set. *)
Theorem create_workspace_effect :
  forall (lower : string -> string) (db : Session) (settings : list WorkspaceSettings)
         (new_id now : Z) (name : string) (current_user : User),
    fresh_workspace_id new_id db settings = true ->
    exists c,
      (forall fuel, (List.length (workspaces db) < fuel)%nat ->
                    create_workspace lower fuel new_id now name current_user db settings
                    = Some c) /\
      (ws_id (created_workspace c) = new_id /\
       ws_name (created_workspace c) = name /\
       ws_created_by (created_workspace c) = Models.user_id current_user /\
       forall w, In w (workspaces db) -> ws_slug w <> ws_slug (created_workspace c)) /\
      is_workspace_admin (created_session c) (Models.user_id current_user) new_id = true /\
      get_workspace new_id (created_user c) (created_session c) =
      (Returned (created_workspace c), created_session c) /\
      filter (fun s => s_workspace_id s =? new_id) (created_settings c) =
      [mkWorkspaceSettings new_id false "localhost" 6379 1000 100] /\
      (forall u w, w <> new_id ->
                   get_user_role (created_session c) u w = get_user_role db u w) /\
      (uq_workspace_user (workspace_members db) = true ->
       uq_workspace_user (workspace_members (created_session c)) = true) /\
      (user_current_workspace_id current_user = None ->
       user_current_workspace_id (created_user c) = Some new_id) /\
      (user_current_workspace_id current_user <> None -> created_user c = current_user) /\
      Models.user_id (created_user c) = Models.user_id current_user.
Proof.
  intros lower db settings new_id now name current_user Hfresh.
  unfold fresh_workspace_id in Hfresh.
  apply andb_true_iff in Hfresh as [Hfresh Hfs].
  apply andb_true_iff in Hfresh as [Hfw Hfm].
  destruct (generate_unique_slug_total lower db name) as (slug & Hslug & Hfree).
  eexists. split.
  { intros fuel Hfuel. unfold create_workspace. rewrite (Hslug fuel Hfuel). reflexivity. }
  cbn [created_workspace created_user created_session created_settings
       ws_id ws_name ws_slug ws_created_by].
  assert (forall u w,
             get_user_role
               (mkSession
                  (if match user_current_workspace_id current_user with
                      | Some _ => false
                      | None => true
                      end
                   then set_current_first (Models.user_id current_user) new_id (users db)
                   else users db)
                  (workspaces db ++ [mkWorkspace new_id name slug
                                                 (Models.user_id current_user)])
                  (workspace_members db ++
                   [mkWorkspaceMember new_id (Models.user_id current_user) "admin"
                                      (Some (Models.user_id current_user)) now])
                  (connections db) (connection_permissions db)) u w =
             match get_user_role db u w with
             | Some r => Some r
             | None => if (Models.user_id current_user =? u) && (new_id =? w)
                       then Some "admin" else None
             end) as Hrole.
  { intros u w. unfold get_user_role. cbn [workspace_members].
    rewrite find_snoc. destruct (find _ (workspace_members db)); [reflexivity|].
    cbn [wm_user_id wm_workspace_id wm_role].
    now destruct ((Models.user_id current_user =? u) && (new_id =? w)). }
  assert (get_user_role db (Models.user_id current_user) new_id = None) as Hnone.
  { unfold get_user_role. now rewrite fresh_no_member. }
  assert (Models.user_id
            (if match user_current_workspace_id current_user with
                | Some _ => false
                | None => true
                end
             then with_current_workspace current_user new_id
             else current_user) = Models.user_id current_user) as Huid.
  { now destruct (user_current_workspace_id current_user). }
  split; [|split; [|split; [|split; [|split; [|split; [|split; [|split]]]]]]].
  - repeat split. intros w Hin E.
    assert (slug_taken db slug = true) as Ht.
    { apply slug_taken_in. apply in_map_iff. now exists w. }
    congruence.
  - unfold is_workspace_admin. rewrite check_permission_level, Hrole, Hnone.
    now rewrite !Z.eqb_refl.
  - unfold get_workspace, bind, query, raise_if, raise, ret.
    rewrite check_permission_level, Huid, Hrole, Hnone, !Z.eqb_refl.
    cbn [andb negb]. change (role_level "viewer" <=? role_level "admin") with true.
    cbn [negb]. unfold find_workspace. cbn [workspaces].
    rewrite find_snoc, fresh_no_workspace by exact Hfw.
    cbn [ws_id]. now rewrite Z.eqb_refl.
  - rewrite filter_app, fresh_no_settings by exact Hfs.
    cbn [filter app s_workspace_id]. now rewrite Z.eqb_refl.
  - intros u w Hne. rewrite Hrole.
    destruct (get_user_role db u w); [reflexivity|].
    destruct (Z.eqb_spec new_id w); [congruence|]. now rewrite andb_false_r.
  - intros Huq. cbn [workspace_members].
    apply uq_workspace_user_snoc; [exact Huq|].
    cbn [wm_user_id wm_workspace_id]. now apply fresh_no_member.
  - intros ->. reflexivity.
  - intros Hsome. destruct (user_current_workspace_id current_user);
      [reflexivity|congruence].
  - exact Huid.
Qed.

Lemma create_workspace_effect_witness :
  fresh_workspace_id 2 sample_db [] = true /\
  exists c,
    create_workspace ascii_lower 2 2 500 "Acme" dave sample_db [] = Some c /\
    ws_slug (created_workspace c) = "acme-1" /\
    is_workspace_admin (created_session c) 4 2 = true /\
    user_current_workspace_id (created_user c) = Some 2.
Proof.
  split; [reflexivity|].
  destruct (create_workspace_effect ascii_lower sample_db [] 2 500 "Acme" dave eq_refl)
    as (c & Hrun & _ & Hadmin & _ & _ & _ & _ & Hfirst & _).
  exists c. split; [apply Hrun; cbn; lia|].
  assert (create_workspace ascii_lower 2 2 500 "Acme" dave sample_db [] = Some c) as E
      by (apply Hrun; cbn; lia).
  split; [|split; [exact Hadmin|apply Hfirst; reflexivity]].
  vm_compute in E. injection E as <-. reflexivity.
Defined.
